(** * rkmpp-deploy: the MJPEG encoder / decoder session wrapper

    A shallow embedding of the C sources

    - [include/rkmpp_mjpeg.h]  (status codes, configuration and frame records),
    - the utility unit         ([rkmpp_get_nv12_size]),
    - the encoder unit         ([rkmpp_encoder_create], [rkmpp_encoder_encode],
                                [rkmpp_encoder_get_stats], ...),
    - [decoder.c]              ([rkmpp_decoder_create], [rkmpp_decoder_decode],
                                [rkmpp_decoder_get_stats], ...),

    followed by the properties of the session contract.

    Conventions.  A [uint32_t] or [uint64_t] is a [Z] whose arithmetic is
    reduced modulo [2^32] or [2^64] where the C code computes it.  A pointer
    argument that may be [NULL] is an [option]: [None] is the null pointer,
    [Some x] a pointer to the object [x].  A function that writes through a
    pointer returns the new value of the pointed object.  Heap blocks handed
    out by [malloc] are abstract block numbers.  Text printed on [stdout] and
    [stderr] is not part of the model. *)

From Stdlib Require Import ZArith NArith List Lia Bool.
From Stdlib Require Import Init.Byte.
From Stdlib Require Strings.String.
Import ListNotations.
Open Scope Z_scope.

(* ======================================================================= *)
(** ** Machine integers *)

Definition UINT32_MOD : Z := 2 ^ 32.
Definition UINT64_MOD : Z := 2 ^ 64.

Definition wrap32 (z : Z) : Z := z mod UINT32_MOD.
Definition wrap64 (z : Z) : Z := z mod UINT64_MOD.

Definition is_uint64 (z : Z) : Prop := 0 <= z < UINT64_MOD.

(** [a * b] on [uint32_t] operands. *)
Definition mul32 (a b : Z) : Z := wrap32 (a * b).

(** [a + b] on [uint64_t] operands (a [uint32_t] operand is promoted). *)
Definition add64 (a b : Z) : Z := wrap64 (a + b).

(* ======================================================================= *)
(** ** The C library: heap blocks, [malloc], [free], [memcpy], mutexes *)

Definition ptr := Z.
Definition NULL : ptr := 0.

(** What a caller asked [malloc] for. *)
Inductive csize : Type :=
| Sizeof_RkmppEncoder
| Sizeof_RkmppDecoder
| Bytes (n : Z).

(** The allocator: the live blocks, the number of the next block, and the
    outcomes of the coming [malloc] calls ([false]: the call returns [NULL];
    once the list is exhausted every call succeeds). *)
Record Heap : Type := mkHeap {
  live : list (ptr * csize);
  next_block : positive;
  oracle : list bool
}.

Definition empty_heap : Heap := mkHeap [] 1%positive [].

(** Computations that use the allocator. *)
Definition M (A : Type) : Type := Heap -> A * Heap.

Definition ret {A} (a : A) : M A := fun h => (a, h).
Definition bind {A B} (c : M A) (k : A -> M B) : M B :=
  fun h => let (a, h') := c h in k a h'.

Declare Scope heap_scope.
Delimit Scope heap_scope with heap.
Notation "x <- c ;; k" := (bind c (fun x => k))
  (at level 61, c at next level, right associativity) : heap_scope.
Notation "' pat <- c ;; k" := (bind c (fun x => match x with pat => k end))
  (at level 61, pat pattern, c at next level, right associativity) : heap_scope.
Notation "c ;;; k" := (bind c (fun _ => k))
  (at level 61, right associativity) : heap_scope.
Open Scope heap_scope.

Definition alloc_block (sz : csize) (o : list bool) (h : Heap) : ptr * Heap :=
  (Z.pos (next_block h),
   mkHeap ((Z.pos (next_block h), sz) :: live h) (Pos.succ (next_block h)) o).

Definition malloc (sz : csize) : M ptr := fun h =>
  match oracle h with
  | false :: o => (NULL, mkHeap (live h) (next_block h) o)
  | true :: o => alloc_block sz o h
  | [] => alloc_block sz [] h
  end.

(** [free(NULL)] does nothing. *)
Definition free (p : ptr) : M unit := fun h =>
  if p =? NULL then (tt, h)
  else (tt, mkHeap (filter (fun b => negb (fst b =? p)) (live h))
                   (next_block h) (oracle h)).

(** [memcpy(dst, src, n)]: the first [n] bytes of [dst] become the first [n]
    bytes of [src].  C requires both objects to hold at least [n] bytes. *)
Definition memcpy (dst src : list byte) (n : Z) : list byte :=
  firstn (Z.to_nat n) src ++ skipn (Z.to_nat n) dst.

(** A mutex, as one thread sees it.  A mutex that is destroyed goes away
    with the session block that holds it. *)
Inductive pthread_mutex_t : Type :=
| MutexZeroed        (* the bytes left by memset(.., 0, ..) *)
| MutexUnlocked
| MutexLocked.

Definition pthread_mutex_init (m : pthread_mutex_t) : pthread_mutex_t := MutexUnlocked.
Definition pthread_mutex_lock (m : pthread_mutex_t) : pthread_mutex_t := MutexLocked.
Definition pthread_mutex_unlock (m : pthread_mutex_t) : pthread_mutex_t := MutexUnlocked.

(* ======================================================================= *)
(** ** include/rkmpp_mjpeg.h *)

Inductive RkmppStatus : Type :=
| RKMPP_OK
| RKMPP_ERR_INVALID_PARAM
| RKMPP_ERR_MEMORY
| RKMPP_ERR_INIT
| RKMPP_ERR_ENCODE
| RKMPP_ERR_DECODE
| RKMPP_ERR_TIMEOUT
| RKMPP_ERR_NOT_READY
| RKMPP_ERR_UNKNOWN.

(** The integer value of each enumerator. *)
Definition status_code (s : RkmppStatus) : Z :=
  match s with
  | RKMPP_OK => 0
  | RKMPP_ERR_INVALID_PARAM => -1
  | RKMPP_ERR_MEMORY => -2
  | RKMPP_ERR_INIT => -3
  | RKMPP_ERR_ENCODE => -4
  | RKMPP_ERR_DECODE => -5
  | RKMPP_ERR_TIMEOUT => -6
  | RKMPP_ERR_NOT_READY => -7
  | RKMPP_ERR_UNKNOWN => -99
  end.

(** [RkmppEncoderConfig]; the fields are [width], [height], [fps], [bitrate],
    [quality], [gop]. *)
Record RkmppEncoderConfig : Type := mkEncoderConfig {
  ecfg_width : Z;
  ecfg_height : Z;
  ecfg_fps : Z;
  ecfg_bitrate : Z;
  ecfg_quality : Z;
  ecfg_gop : Z
}.

(** [RkmppDecoderConfig]; the fields are [max_width], [max_height],
    [output_format]. *)
Record RkmppDecoderConfig : Type := mkDecoderConfig {
  dcfg_max_width : Z;
  dcfg_max_height : Z;
  dcfg_output_format : Z
}.

(** [RkmppFrameInfo]; the fields are [width], [height], [format],
    [timestamp]. *)
Record RkmppFrameInfo : Type := mkFrameInfo {
  fi_width : Z;
  fi_height : Z;
  fi_format : Z;
  fi_timestamp : Z
}.

(* ======================================================================= *)
(** ** The utility unit *)

(** [uint32_t rkmpp_get_nv12_size(uint32_t width, uint32_t height)] *)
Definition rkmpp_get_nv12_size (width height : Z) : Z :=
  if (width =? 0) || (height =? 0) then 0
  else mul32 (mul32 width height) 3 / 2.

(* ======================================================================= *)
(** ** The mock MPP backend

    Both the encoder unit and [decoder.c] carry the same [static] mock
    functions; they are written once here. *)

Inductive MppCodingType : Type :=
| MPP_VIDEO_CodingUnused
| MPP_VIDEO_CodingAutoDetect
| MPP_VIDEO_CodingMPEG2
| MPP_VIDEO_CodingH263
| MPP_VIDEO_CodingMPEG4
| MPP_VIDEO_CodingWMV
| MPP_VIDEO_CodingRV
| MPP_VIDEO_CodingAVC
| MPP_VIDEO_CodingMJPEG
| MPP_VIDEO_CodingVP8
| MPP_VIDEO_CodingVP9
| MPP_VIDEO_CodingHEVC.

(** [static int mpp_create(MppCtx** ctx, MppApi** mpi)]: returns the status
    and the two pointers it stores. *)
Definition mpp_create : M (Z * ptr * ptr) :=
  ctx <- malloc (Bytes 1) ;;
  mpi <- malloc (Bytes 1) ;;
  ret (0, ctx, mpi).

Definition mpp_init (ctx : ptr) (type : MppCodingType) (is_encoder : Z) : Z := 0.

Definition mpp_destroy (ctx : ptr) : M Z :=
  (if negb (ctx =? NULL) then free ctx else ret tt) ;;;
  ret 0.

(** [static int mpp_buffer_group_get_internal(MppBufferGroup** group, uint32_t type)] *)
Definition mpp_buffer_group_get_internal (type : Z) : M (Z * ptr) :=
  group <- malloc (Bytes 1) ;;
  ret (0, group).

Definition mpp_buffer_group_put (group : ptr) : M Z :=
  (if negb (group =? NULL) then free group else ret tt) ;;;
  ret 0.

(* ======================================================================= *)
(** ** The encoder unit *)

Module Encoder.

(** [struct RkmppEncoder] (encoder_internal.h). *)
Record RkmppEncoder : Type := mkEncoder {
  mpp_ctx : ptr;
  mpi : ptr;
  frame_group : ptr;
  packet_group : ptr;
  width : Z;
  height : Z;
  fps : Z;
  bitrate : Z;
  quality : Z;
  frames_encoded : Z;
  bytes_encoded : Z;
  lock : pthread_mutex_t;
  initialized : Z;
  eos_sent : Z
}.

(** The object left by [memset(encoder, 0, sizeof(RkmppEncoder))]. *)
Definition zeroed : RkmppEncoder :=
  mkEncoder NULL NULL NULL NULL 0 0 0 0 0 0 0 MutexZeroed 0 0.

(** Assignments to the fields. *)
Definition set_mpp (e : RkmppEncoder) (ctx api : ptr) : RkmppEncoder :=
  mkEncoder ctx api (frame_group e) (packet_group e)
            (width e) (height e) (fps e) (bitrate e) (quality e)
            (frames_encoded e) (bytes_encoded e) (lock e) (initialized e) (eos_sent e).

Definition set_mpi (e : RkmppEncoder) (api : ptr) : RkmppEncoder :=
  set_mpp e (mpp_ctx e) api.

Definition set_mpp_ctx (e : RkmppEncoder) (ctx : ptr) : RkmppEncoder :=
  set_mpp e ctx (mpi e).

Definition set_frame_group (e : RkmppEncoder) (g : ptr) : RkmppEncoder :=
  mkEncoder (mpp_ctx e) (mpi e) g (packet_group e)
            (width e) (height e) (fps e) (bitrate e) (quality e)
            (frames_encoded e) (bytes_encoded e) (lock e) (initialized e) (eos_sent e).

Definition set_packet_group (e : RkmppEncoder) (g : ptr) : RkmppEncoder :=
  mkEncoder (mpp_ctx e) (mpi e) (frame_group e) g
            (width e) (height e) (fps e) (bitrate e) (quality e)
            (frames_encoded e) (bytes_encoded e) (lock e) (initialized e) (eos_sent e).

Definition set_config (e : RkmppEncoder) (w h f b q : Z) : RkmppEncoder :=
  mkEncoder (mpp_ctx e) (mpi e) (frame_group e) (packet_group e)
            w h f b q
            (frames_encoded e) (bytes_encoded e) (lock e) (initialized e) (eos_sent e).

Definition set_stats (e : RkmppEncoder) (frames bytes : Z) : RkmppEncoder :=
  mkEncoder (mpp_ctx e) (mpi e) (frame_group e) (packet_group e)
            (width e) (height e) (fps e) (bitrate e) (quality e)
            frames bytes (lock e) (initialized e) (eos_sent e).

Definition set_lock (e : RkmppEncoder) (m : pthread_mutex_t) : RkmppEncoder :=
  mkEncoder (mpp_ctx e) (mpi e) (frame_group e) (packet_group e)
            (width e) (height e) (fps e) (bitrate e) (quality e)
            (frames_encoded e) (bytes_encoded e) m (initialized e) (eos_sent e).

Definition set_initialized (e : RkmppEncoder) (i : Z) : RkmppEncoder :=
  mkEncoder (mpp_ctx e) (mpi e) (frame_group e) (packet_group e)
            (width e) (height e) (fps e) (bitrate e) (quality e)
            (frames_encoded e) (bytes_encoded e) (lock e) i (eos_sent e).

(** [static uint32_t calculate_nv12_size(uint32_t width, uint32_t height)] *)
Definition calculate_nv12_size (width height : Z) : Z :=
  mul32 (mul32 width height) 3 / 2.

(** [static int validate_encoder_config(const RkmppEncoderConfig* config)] *)
Definition validate_encoder_config (config : option RkmppEncoderConfig) : Z :=
  match config with
  | None => -1
  | Some c =>
    if (ecfg_width c <? 16) || (ecfg_width c >? 4096) ||
       (ecfg_height c <? 16) || (ecfg_height c >? 4096) then -1
    else if (ecfg_fps c <? 1) || (ecfg_fps c >? 120) then -1
    else if ecfg_quality c >? 100 then -1
    else 0
  end.

(** [int encoder_init_mpp(struct RkmppEncoder* encoder)]: the status and the
    object behind [encoder] on return. *)
Definition encoder_init_mpp (encoder : option RkmppEncoder)
  : M (Z * option RkmppEncoder) :=
  match encoder with
  | None => ret (-1, None)
  | Some e =>
    '(r, ctx, api) <- mpp_create ;;
    let e := set_mpp e ctx api in
    if negb (r =? 0) then ret (-1, Some e)
    else
      let r := mpp_init (mpp_ctx e) MPP_VIDEO_CodingMJPEG 1 in
      if negb (r =? 0) then
        mpp_destroy (mpp_ctx e) ;;; ret (-1, Some e)
      else
        '(r, g) <- mpp_buffer_group_get_internal 0 ;;
        let e := set_frame_group e g in
        if negb (r =? 0) then
          mpp_destroy (mpp_ctx e) ;;; ret (-1, Some e)
        else
          '(r, g) <- mpp_buffer_group_get_internal 1 ;;
          let e := set_packet_group e g in
          if negb (r =? 0) then
            mpp_buffer_group_put (frame_group e) ;;;
            mpp_destroy (mpp_ctx e) ;;;
            ret (-1, Some e)
          else ret (0, Some e)
  end.

(** [int encoder_configure(struct RkmppEncoder* encoder)] *)
Definition encoder_configure (encoder : option RkmppEncoder) : Z :=
  match encoder with
  | None => -1
  | Some _ => 0
  end.

(** [void encoder_cleanup_mpp(struct RkmppEncoder* encoder)] *)
Definition encoder_cleanup_mpp (encoder : option RkmppEncoder)
  : M (option RkmppEncoder) :=
  match encoder with
  | None => ret None
  | Some e =>
    e <- (if negb (packet_group e =? NULL)
          then mpp_buffer_group_put (packet_group e) ;;; ret (set_packet_group e NULL)
          else ret e) ;;
    e <- (if negb (frame_group e =? NULL)
          then mpp_buffer_group_put (frame_group e) ;;; ret (set_frame_group e NULL)
          else ret e) ;;
    e <- (if negb (mpp_ctx e =? NULL)
          then mpp_destroy (mpp_ctx e) ;;; ret (set_mpp_ctx e NULL)
          else ret e) ;;
    ret (Some (set_mpi e NULL))
  end.

(** The object behind a pointer after a call that received it non-null. *)
Definition pointee (before : RkmppEncoder) (after : option RkmppEncoder)
  : RkmppEncoder :=
  match after with
  | Some e => e
  | None => before
  end.

(** [RkmppEncoder* rkmpp_encoder_create(const RkmppEncoderConfig* config)]:
    [None] is the [NULL] handle; a handle is the block of the session and the
    object stored in it.  The mutex of a session that is given up is
    destroyed with the block that is freed. *)
Definition rkmpp_encoder_create (config : option RkmppEncoderConfig)
  : M (option (ptr * RkmppEncoder)) :=
  match config with
  | None => ret None
  | Some c =>
    if negb (validate_encoder_config (Some c) =? 0) then ret None
    else
      p <- malloc Sizeof_RkmppEncoder ;;
      if p =? NULL then ret None
      else
        let e := zeroed in
        let e := set_lock e (pthread_mutex_init (lock e)) in
        let e := set_config e (ecfg_width c) (ecfg_height c) (ecfg_fps c)
                            (ecfg_bitrate c)
                            (if negb (ecfg_quality c =? 0)
                             then ecfg_quality c else 80) in
        '(r, e') <- encoder_init_mpp (Some e) ;;
        let e := pointee e e' in
        if negb (r =? 0) then
          free p ;;; ret None
        else
          let r := encoder_configure (Some e) in
          if negb (r =? 0) then
            encoder_cleanup_mpp (Some e) ;;;
            free p ;;;
            ret None
          else
            let e := set_initialized e 1 in
            ret (Some (p, e))
  end.

(** [RkmppStatus rkmpp_encoder_destroy(RkmppEncoder* encoder)]: the lock is
    taken for the cleanup, released and destroyed; the block is freed. *)
Definition rkmpp_encoder_destroy (encoder : option (ptr * RkmppEncoder))
  : M RkmppStatus :=
  match encoder with
  | None => ret RKMPP_ERR_INVALID_PARAM
  | Some (p, e) =>
    (if negb (initialized e =? 0)
     then encoder_cleanup_mpp (Some e) ;;; ret tt
     else ret tt) ;;;
    free p ;;;
    ret RKMPP_OK
  end.

(** What [rkmpp_encoder_encode] leaves behind: the status, the session
    object, the output buffer and the cell behind [jpeg_len]. *)
Record encode_result : Type := mkEncodeResult {
  status : RkmppStatus;
  session : option RkmppEncoder;
  jpeg_out : option (list byte);
  jpeg_len_out : option Z
}.

(** [RkmppStatus rkmpp_encoder_encode(RkmppEncoder* encoder,
      const uint8_t* nv12_data, uint32_t nv12_size,
      uint8_t* jpeg_data, uint32_t jpeg_size, uint32_t* jpeg_len)] *)
Definition rkmpp_encoder_encode
    (encoder : option RkmppEncoder)
    (nv12_data : option (list byte)) (nv12_size : Z)
    (jpeg_data : option (list byte)) (jpeg_size : Z)
    (jpeg_len : option Z) : encode_result :=
  let leave st := mkEncodeResult st encoder jpeg_data jpeg_len in
  match encoder, nv12_data, jpeg_data, jpeg_len with
  | Some e, Some src, Some dst, Some _ =>
    if initialized e =? 0 then leave RKMPP_ERR_INIT
    else
      let expected_size := calculate_nv12_size (width e) (height e) in
      if nv12_size <? expected_size then leave RKMPP_ERR_INVALID_PARAM
      else if jpeg_size <? expected_size then leave RKMPP_ERR_INVALID_PARAM
      else
        let e := set_lock e (pthread_mutex_lock (lock e)) in
        let copy_size := if jpeg_size <? nv12_size then jpeg_size else nv12_size in
        let dst := memcpy dst src copy_size in
        let e := set_stats e (add64 (frames_encoded e) 1) (bytes_encoded e) in
        let e := set_stats e (frames_encoded e) (add64 (bytes_encoded e) copy_size) in
        let e := set_lock e (pthread_mutex_unlock (lock e)) in
        mkEncodeResult RKMPP_OK (Some e) (Some dst) (Some copy_size)
  | _, _, _, _ => leave RKMPP_ERR_INVALID_PARAM
  end.

(** What [rkmpp_encoder_get_stats] leaves behind: the status, the session
    object and the cells behind the two output pointers. *)
Record stats_result : Type := mkStatsResult {
  stats_status : RkmppStatus;
  stats_session : option RkmppEncoder;
  frames_out : option Z;
  bytes_out : option Z
}.

(** [RkmppStatus rkmpp_encoder_get_stats(RkmppEncoder* encoder,
      uint64_t* frames_encoded, uint64_t* bytes_encoded)] *)
Definition rkmpp_encoder_get_stats
    (encoder : option RkmppEncoder)
    (frames_encoded_p bytes_encoded_p : option Z) : stats_result :=
  match encoder with
  | None =>
    mkStatsResult RKMPP_ERR_INVALID_PARAM None frames_encoded_p bytes_encoded_p
  | Some e =>
    let e := set_lock e (pthread_mutex_lock (lock e)) in
    let f := match frames_encoded_p with
             | Some _ => Some (frames_encoded e)
             | None => None
             end in
    let b := match bytes_encoded_p with
             | Some _ => Some (bytes_encoded e)
             | None => None
             end in
    let e := set_lock e (pthread_mutex_unlock (lock e)) in
    mkStatsResult RKMPP_OK (Some e) f b
  end.

End Encoder.

(* ======================================================================= *)
(** ** decoder.c *)

Module Decoder.

(** [struct RkmppDecoder] (decoder_internal.h). *)
Record RkmppDecoder : Type := mkDecoder {
  mpp_ctx : ptr;
  mpi : ptr;
  frame_group : ptr;
  packet_group : ptr;
  max_width : Z;
  max_height : Z;
  output_format : Z;
  frames_decoded : Z;
  bytes_decoded : Z;
  lock : pthread_mutex_t;
  initialized : Z;
  eos_received : Z
}.

(** The object left by [memset(decoder, 0, sizeof(RkmppDecoder))]. *)
Definition zeroed : RkmppDecoder :=
  mkDecoder NULL NULL NULL NULL 0 0 0 0 0 MutexZeroed 0 0.

(** Assignments to the fields. *)
Definition set_mpp (d : RkmppDecoder) (ctx api : ptr) : RkmppDecoder :=
  mkDecoder ctx api (frame_group d) (packet_group d)
            (max_width d) (max_height d) (output_format d)
            (frames_decoded d) (bytes_decoded d) (lock d) (initialized d)
            (eos_received d).

Definition set_mpi (d : RkmppDecoder) (api : ptr) : RkmppDecoder :=
  set_mpp d (mpp_ctx d) api.

Definition set_mpp_ctx (d : RkmppDecoder) (ctx : ptr) : RkmppDecoder :=
  set_mpp d ctx (mpi d).

Definition set_frame_group (d : RkmppDecoder) (g : ptr) : RkmppDecoder :=
  mkDecoder (mpp_ctx d) (mpi d) g (packet_group d)
            (max_width d) (max_height d) (output_format d)
            (frames_decoded d) (bytes_decoded d) (lock d) (initialized d)
            (eos_received d).

Definition set_packet_group (d : RkmppDecoder) (g : ptr) : RkmppDecoder :=
  mkDecoder (mpp_ctx d) (mpi d) (frame_group d) g
            (max_width d) (max_height d) (output_format d)
            (frames_decoded d) (bytes_decoded d) (lock d) (initialized d)
            (eos_received d).

Definition set_config (d : RkmppDecoder) (w h f : Z) : RkmppDecoder :=
  mkDecoder (mpp_ctx d) (mpi d) (frame_group d) (packet_group d)
            w h f
            (frames_decoded d) (bytes_decoded d) (lock d) (initialized d)
            (eos_received d).

Definition set_stats (d : RkmppDecoder) (frames bytes : Z) : RkmppDecoder :=
  mkDecoder (mpp_ctx d) (mpi d) (frame_group d) (packet_group d)
            (max_width d) (max_height d) (output_format d)
            frames bytes (lock d) (initialized d) (eos_received d).

Definition set_lock (d : RkmppDecoder) (m : pthread_mutex_t) : RkmppDecoder :=
  mkDecoder (mpp_ctx d) (mpi d) (frame_group d) (packet_group d)
            (max_width d) (max_height d) (output_format d)
            (frames_decoded d) (bytes_decoded d) m (initialized d)
            (eos_received d).

Definition set_initialized (d : RkmppDecoder) (i : Z) : RkmppDecoder :=
  mkDecoder (mpp_ctx d) (mpi d) (frame_group d) (packet_group d)
            (max_width d) (max_height d) (output_format d)
            (frames_decoded d) (bytes_decoded d) (lock d) i (eos_received d).

(** [static uint32_t calculate_nv12_size(uint32_t width, uint32_t height)]
    (not called in this unit). *)
Definition calculate_nv12_size (width height : Z) : Z :=
  mul32 (mul32 width height) 3 / 2.

(** [static int validate_decoder_config(const RkmppDecoderConfig* config)] *)
Definition validate_decoder_config (config : option RkmppDecoderConfig) : Z :=
  match config with
  | None => -1
  | Some c =>
    if (dcfg_max_width c <? 16) || (dcfg_max_width c >? 4096) ||
       (dcfg_max_height c <? 16) || (dcfg_max_height c >? 4096) then -1
    else 0
  end.

(** [int decoder_init_mpp(struct RkmppDecoder* decoder)]: the status and the
    object behind [decoder] on return. *)
Definition decoder_init_mpp (decoder : option RkmppDecoder)
  : M (Z * option RkmppDecoder) :=
  match decoder with
  | None => ret (-1, None)
  | Some d =>
    '(r, ctx, api) <- mpp_create ;;
    let d := set_mpp d ctx api in
    if negb (r =? 0) then ret (-1, Some d)
    else
      let r := mpp_init (mpp_ctx d) MPP_VIDEO_CodingMJPEG 0 in
      if negb (r =? 0) then
        mpp_destroy (mpp_ctx d) ;;; ret (-1, Some d)
      else
        '(r, g) <- mpp_buffer_group_get_internal 0 ;;
        let d := set_frame_group d g in
        if negb (r =? 0) then
          mpp_destroy (mpp_ctx d) ;;; ret (-1, Some d)
        else
          '(r, g) <- mpp_buffer_group_get_internal 1 ;;
          let d := set_packet_group d g in
          if negb (r =? 0) then
            mpp_buffer_group_put (frame_group d) ;;;
            mpp_destroy (mpp_ctx d) ;;;
            ret (-1, Some d)
          else ret (0, Some d)
  end.

(** [int decoder_configure(struct RkmppDecoder* decoder)] *)
Definition decoder_configure (decoder : option RkmppDecoder) : Z :=
  match decoder with
  | None => -1
  | Some _ => 0
  end.

(** [void decoder_cleanup_mpp(struct RkmppDecoder* decoder)] *)
Definition decoder_cleanup_mpp (decoder : option RkmppDecoder)
  : M (option RkmppDecoder) :=
  match decoder with
  | None => ret None
  | Some d =>
    d <- (if negb (packet_group d =? NULL)
          then mpp_buffer_group_put (packet_group d) ;;; ret (set_packet_group d NULL)
          else ret d) ;;
    d <- (if negb (frame_group d =? NULL)
          then mpp_buffer_group_put (frame_group d) ;;; ret (set_frame_group d NULL)
          else ret d) ;;
    d <- (if negb (mpp_ctx d =? NULL)
          then mpp_destroy (mpp_ctx d) ;;; ret (set_mpp_ctx d NULL)
          else ret d) ;;
    ret (Some (set_mpi d NULL))
  end.

(** The object behind a pointer after a call that received it non-null. *)
Definition pointee (before : RkmppDecoder) (after : option RkmppDecoder)
  : RkmppDecoder :=
  match after with
  | Some d => d
  | None => before
  end.

(** [RkmppDecoder* rkmpp_decoder_create(const RkmppDecoderConfig* config)]:
    [None] is the [NULL] handle; a handle is the block of the session and the
    object stored in it.  The mutex of a session that is given up is
    destroyed with the block that is freed. *)
Definition rkmpp_decoder_create (config : option RkmppDecoderConfig)
  : M (option (ptr * RkmppDecoder)) :=
  match config with
  | None => ret None
  | Some c =>
    if negb (validate_decoder_config (Some c) =? 0) then ret None
    else
      p <- malloc Sizeof_RkmppDecoder ;;
      if p =? NULL then ret None
      else
        let d := zeroed in
        let d := set_lock d (pthread_mutex_init (lock d)) in
        let d := set_config d (dcfg_max_width c) (dcfg_max_height c)
                            (dcfg_output_format c) in
        '(r, d') <- decoder_init_mpp (Some d) ;;
        let d := pointee d d' in
        if negb (r =? 0) then
          free p ;;; ret None
        else
          let r := decoder_configure (Some d) in
          if negb (r =? 0) then
            decoder_cleanup_mpp (Some d) ;;;
            free p ;;;
            ret None
          else
            let d := set_initialized d 1 in
            ret (Some (p, d))
  end.

(** [RkmppStatus rkmpp_decoder_destroy(RkmppDecoder* decoder)]: the lock is
    taken for the cleanup, released and destroyed; the block is freed. *)
Definition rkmpp_decoder_destroy (decoder : option (ptr * RkmppDecoder))
  : M RkmppStatus :=
  match decoder with
  | None => ret RKMPP_ERR_INVALID_PARAM
  | Some (p, d) =>
    (if negb (initialized d =? 0)
     then decoder_cleanup_mpp (Some d) ;;; ret tt
     else ret tt) ;;;
    free p ;;;
    ret RKMPP_OK
  end.

(** What [rkmpp_decoder_decode] leaves behind: the status, the session
    object, the output buffer, the cell behind [nv12_len] and the record
    behind [frame_info]. *)
Record decode_result : Type := mkDecodeResult {
  status : RkmppStatus;
  session : option RkmppDecoder;
  nv12_out : option (list byte);
  nv12_len_out : option Z;
  frame_info_out : option RkmppFrameInfo
}.

(** [RkmppStatus rkmpp_decoder_decode(RkmppDecoder* decoder,
      const uint8_t* jpeg_data, uint32_t jpeg_size,
      uint8_t* nv12_data, uint32_t nv12_size,
      uint32_t* nv12_len, RkmppFrameInfo* frame_info)] *)
Definition rkmpp_decoder_decode
    (decoder : option RkmppDecoder)
    (jpeg_data : option (list byte)) (jpeg_size : Z)
    (nv12_data : option (list byte)) (nv12_size : Z)
    (nv12_len : option Z)
    (frame_info : option RkmppFrameInfo) : decode_result :=
  let leave st := mkDecodeResult st decoder nv12_data nv12_len frame_info in
  match decoder, jpeg_data, nv12_data, nv12_len, frame_info with
  | Some d, Some src, Some dst, Some _, Some _ =>
    if initialized d =? 0 then leave RKMPP_ERR_INIT
    else if jpeg_size =? 0 then leave RKMPP_ERR_INVALID_PARAM
    else
      let d := set_lock d (pthread_mutex_lock (lock d)) in
      let copy_size := if nv12_size <? jpeg_size then nv12_size else jpeg_size in
      let dst := memcpy dst src copy_size in
      let fi := mkFrameInfo (max_width d) (max_height d) 0 0 in
      let d := set_stats d (add64 (frames_decoded d) 1) (bytes_decoded d) in
      let d := set_stats d (frames_decoded d) (add64 (bytes_decoded d) copy_size) in
      let d := set_lock d (pthread_mutex_unlock (lock d)) in
      mkDecodeResult RKMPP_OK (Some d) (Some dst) (Some copy_size) (Some fi)
  | _, _, _, _, _ => leave RKMPP_ERR_INVALID_PARAM
  end.

(** What [rkmpp_decoder_get_stats] leaves behind: the status, the session
    object and the cells behind the two output pointers. *)
Record stats_result : Type := mkStatsResult {
  stats_status : RkmppStatus;
  stats_session : option RkmppDecoder;
  frames_out : option Z;
  bytes_out : option Z
}.

(** [RkmppStatus rkmpp_decoder_get_stats(RkmppDecoder* decoder,
      uint64_t* frames_decoded, uint64_t* bytes_decoded)] *)
Definition rkmpp_decoder_get_stats
    (decoder : option RkmppDecoder)
    (frames_decoded_p bytes_decoded_p : option Z) : stats_result :=
  match decoder with
  | None =>
    mkStatsResult RKMPP_ERR_INVALID_PARAM None frames_decoded_p bytes_decoded_p
  | Some d =>
    let d := set_lock d (pthread_mutex_lock (lock d)) in
    let f := match frames_decoded_p with
             | Some _ => Some (frames_decoded d)
             | None => None
             end in
    let b := match bytes_decoded_p with
             | Some _ => Some (bytes_decoded d)
             | None => None
             end in
    let d := set_lock d (pthread_mutex_unlock (lock d)) in
    mkStatsResult RKMPP_OK (Some d) f b
  end.

End Decoder.

(* ======================================================================= *)
(** ** Vocabulary of the session contract *)

(** A session is Ready when its [initialized] flag is set. *)
Definition encoder_ready (e : Encoder.RkmppEncoder) : Prop :=
  Encoder.initialized e <> 0.

Definition decoder_ready (d : Decoder.RkmppDecoder) : Prop :=
  Decoder.initialized d <> 0.

(** The next [malloc] call hands out a block. *)
Definition malloc_succeeds (h : Heap) : Prop :=
  match oracle h with
  | false :: _ => False
  | _ => True
  end.

(** An encoder configuration that is absent or breaks a bound. *)
Definition encoder_config_rejected (config : option RkmppEncoderConfig) : Prop :=
  match config with
  | None => True
  | Some c =>
    ecfg_width c < 16 \/ ecfg_width c > 4096 \/
    ecfg_height c < 16 \/ ecfg_height c > 4096 \/
    ecfg_fps c < 1 \/ ecfg_fps c > 120 \/
    ecfg_quality c > 100
  end.

(** A decoder configuration that is absent or breaks a bound. *)
Definition decoder_config_rejected (config : option RkmppDecoderConfig) : Prop :=
  match config with
  | None => True
  | Some c =>
    dcfg_max_width c < 16 \/ dcfg_max_width c > 4096 \/
    dcfg_max_height c < 16 \/ dcfg_max_height c > 4096
  end.

(** What [rkmpp_encoder_create] stores in a session made from [c]. *)
Definition encoder_created (c : RkmppEncoderConfig) (e : Encoder.RkmppEncoder) : Prop :=
  Encoder.width e = ecfg_width c /\
  Encoder.height e = ecfg_height c /\
  Encoder.fps e = ecfg_fps c /\
  Encoder.bitrate e = ecfg_bitrate c /\
  Encoder.quality e = (if ecfg_quality c =? 0 then 80 else ecfg_quality c) /\
  Encoder.frames_encoded e = 0 /\
  Encoder.bytes_encoded e = 0 /\
  Encoder.lock e = MutexUnlocked /\
  Encoder.initialized e = 1.

(** What [rkmpp_decoder_create] stores in a session made from [c]. *)
Definition decoder_created (c : RkmppDecoderConfig) (d : Decoder.RkmppDecoder) : Prop :=
  Decoder.max_width d = dcfg_max_width c /\
  Decoder.max_height d = dcfg_max_height c /\
  Decoder.output_format d = dcfg_output_format c /\
  Decoder.frames_decoded d = 0 /\
  Decoder.bytes_decoded d = 0 /\
  Decoder.lock d = MutexUnlocked /\
  Decoder.initialized d = 1.

(** The session an accepted [rkmpp_encoder_encode] call leaves behind: one
    more frame, [n] more bytes, the lock released. *)
Definition encoder_after (e : Encoder.RkmppEncoder) (n : Z) : Encoder.RkmppEncoder :=
  Encoder.mkEncoder
    (Encoder.mpp_ctx e) (Encoder.mpi e) (Encoder.frame_group e) (Encoder.packet_group e)
    (Encoder.width e) (Encoder.height e) (Encoder.fps e) (Encoder.bitrate e)
    (Encoder.quality e)
    (add64 (Encoder.frames_encoded e) 1) (add64 (Encoder.bytes_encoded e) n)
    MutexUnlocked (Encoder.initialized e) (Encoder.eos_sent e).

(** The session an accepted [rkmpp_decoder_decode] call leaves behind. *)
Definition decoder_after (d : Decoder.RkmppDecoder) (n : Z) : Decoder.RkmppDecoder :=
  Decoder.mkDecoder
    (Decoder.mpp_ctx d) (Decoder.mpi d) (Decoder.frame_group d) (Decoder.packet_group d)
    (Decoder.max_width d) (Decoder.max_height d) (Decoder.output_format d)
    (add64 (Decoder.frames_decoded d) 1) (add64 (Decoder.bytes_decoded d) n)
    MutexUnlocked (Decoder.initialized d) (Decoder.eos_received d).

(** The two counters as [get_stats] reports them when both output pointers
    are given. *)
Definition encoder_stats (e : option Encoder.RkmppEncoder) : option Z * option Z :=
  let r := Encoder.rkmpp_encoder_get_stats e (Some 0) (Some 0) in
  (Encoder.frames_out r, Encoder.bytes_out r).

Definition decoder_stats (d : option Decoder.RkmppDecoder) : option Z * option Z :=
  let r := Decoder.rkmpp_decoder_get_stats d (Some 0) (Some 0) in
  (Decoder.frames_out r, Decoder.bytes_out r).

(* ======================================================================= *)
(** ** Sequences of calls on one session *)

(** The arguments of one [rkmpp_encoder_encode] call, the session apart. *)
Record encode_args : Type := mkEncodeArgs {
  ea_nv12_data : option (list byte);
  ea_nv12_size : Z;
  ea_jpeg_data : option (list byte);
  ea_jpeg_size : Z;
  ea_jpeg_len : option Z
}.

Definition encode_call (e : option Encoder.RkmppEncoder) (a : encode_args)
  : Encoder.encode_result :=
  Encoder.rkmpp_encoder_encode e (ea_nv12_data a) (ea_nv12_size a)
                               (ea_jpeg_data a) (ea_jpeg_size a) (ea_jpeg_len a).

(** The calls of a list, one after the other on the same session: the session
    at the end and the result of each call. *)
Fixpoint encode_calls (e : option Encoder.RkmppEncoder) (calls : list encode_args)
  : option Encoder.RkmppEncoder * list Encoder.encode_result :=
  match calls with
  | [] => (e, [])
  | a :: rest =>
    let r := encode_call e a in
    let (e', rs) := encode_calls (Encoder.session r) rest in
    (e', r :: rs)
  end.

(** The size a call reported through [jpeg_len]. *)
Definition encode_produced (r : Encoder.encode_result) : Z :=
  match Encoder.jpeg_len_out r with
  | Some n => n
  | None => 0
  end.

(** The arguments of one [rkmpp_decoder_decode] call, the session apart. *)
Record decode_args : Type := mkDecodeArgs {
  da_jpeg_data : option (list byte);
  da_jpeg_size : Z;
  da_nv12_data : option (list byte);
  da_nv12_size : Z;
  da_nv12_len : option Z;
  da_frame_info : option RkmppFrameInfo
}.

Definition decode_call (d : option Decoder.RkmppDecoder) (a : decode_args)
  : Decoder.decode_result :=
  Decoder.rkmpp_decoder_decode d (da_jpeg_data a) (da_jpeg_size a)
                               (da_nv12_data a) (da_nv12_size a)
                               (da_nv12_len a) (da_frame_info a).

Fixpoint decode_calls (d : option Decoder.RkmppDecoder) (calls : list decode_args)
  : option Decoder.RkmppDecoder * list Decoder.decode_result :=
  match calls with
  | [] => (d, [])
  | a :: rest =>
    let r := decode_call d a in
    let (d', rs) := decode_calls (Decoder.session r) rest in
    (d', r :: rs)
  end.

(** The size a call reported through [nv12_len]. *)
Definition decode_produced (r : Decoder.decode_result) : Z :=
  match Decoder.nv12_len_out r with
  | Some n => n
  | None => 0
  end.

(** The sum of a list of sizes. *)
Definition sum_sizes (l : list Z) : Z := fold_right Z.add 0 l.

(** Arguments that an encoder session of dimensions [w] x [h] accepts. *)
Definition encode_args_accepted (w h : Z) (a : encode_args) : Prop :=
  (exists src, ea_nv12_data a = Some src) /\
  (exists dst, ea_jpeg_data a = Some dst) /\
  (exists len, ea_jpeg_len a = Some len) /\
  rkmpp_get_nv12_size w h <= ea_nv12_size a /\
  rkmpp_get_nv12_size w h <= ea_jpeg_size a.

(** One 16 x 16 frame of 384 bytes encoded into a buffer of 384 bytes. *)
Definition small_frame_call : encode_args :=
  mkEncodeArgs (Some (repeat x80 384)) 384 (Some (repeat x00 384)) 384 (Some 0).

(* ======================================================================= *)
(** ** The utility unit: messages *)

Module Messages.
Import Stdlib.Strings.String.

(** [#define RKMPP_VERSION "1.0.0"] *)
Definition RKMPP_VERSION : string := "1.0.0".

(** [const char* rkmpp_get_error_string(RkmppStatus status)]: the argument
    is the integer the caller passes; a value that is no enumerator takes
    the [default] branch. *)
Definition rkmpp_get_error_string (status : Z) : string :=
  if status =? status_code RKMPP_OK then "Success"
  else if status =? status_code RKMPP_ERR_INVALID_PARAM then "Invalid parameter"
  else if status =? status_code RKMPP_ERR_MEMORY then "Memory allocation failed"
  else if status =? status_code RKMPP_ERR_INIT then "Initialization failed"
  else if status =? status_code RKMPP_ERR_ENCODE then "Encoding failed"
  else if status =? status_code RKMPP_ERR_DECODE then "Decoding failed"
  else if status =? status_code RKMPP_ERR_TIMEOUT then "Operation timeout"
  else if status =? status_code RKMPP_ERR_NOT_READY then "Data not ready"
  else "Unknown error".

(** [const char* rkmpp_get_version(void)] *)
Definition rkmpp_get_version : string := RKMPP_VERSION.

End Messages.

(* ======================================================================= *)
(** ** Vocabulary of the allocator *)

(** Every live block has a number below the next one to be handed out. *)
Definition heap_wf (h : Heap) : Prop :=
  Forall (fun b => 0 < fst b < Z.pos (next_block h)) (live h).

(** The next [n] calls of [malloc] hand out a block. *)
Definition mallocs_succeed (n : nat) (h : Heap) : Prop :=
  Forall (fun b => b = true) (firstn n (oracle h)).

(** The live blocks once block [p] is released. *)
Definition without_block (p : ptr) (l : list (ptr * csize)) : list (ptr * csize) :=
  filter (fun b => negb (fst b =? p)) l.

(** The statuses that report success. *)
Definition is_ok (s : RkmppStatus) : bool := status_code s =? 0.

(** The results of the calls that returned [RKMPP_OK]. *)
Definition encode_successes (rs : list Encoder.encode_result)
  : list Encoder.encode_result :=
  filter (fun r => is_ok (Encoder.status r)) rs.

Definition decode_successes (rs : list Decoder.decode_result)
  : list Decoder.decode_result :=
  filter (fun r => is_ok (Decoder.status r)) rs.

(** Two encoder sessions that differ in the counters and the lock only. *)
Definition encoder_same_setup (e e' : Encoder.RkmppEncoder) : Prop :=
  Encoder.mpp_ctx e' = Encoder.mpp_ctx e /\
  Encoder.mpi e' = Encoder.mpi e /\
  Encoder.frame_group e' = Encoder.frame_group e /\
  Encoder.packet_group e' = Encoder.packet_group e /\
  Encoder.width e' = Encoder.width e /\
  Encoder.height e' = Encoder.height e /\
  Encoder.fps e' = Encoder.fps e /\
  Encoder.bitrate e' = Encoder.bitrate e /\
  Encoder.quality e' = Encoder.quality e /\
  Encoder.initialized e' = Encoder.initialized e /\
  Encoder.eos_sent e' = Encoder.eos_sent e.

(** Two decoder sessions that differ in the counters and the lock only. *)
Definition decoder_same_setup (d d' : Decoder.RkmppDecoder) : Prop :=
  Decoder.mpp_ctx d' = Decoder.mpp_ctx d /\
  Decoder.mpi d' = Decoder.mpi d /\
  Decoder.frame_group d' = Decoder.frame_group d /\
  Decoder.packet_group d' = Decoder.packet_group d /\
  Decoder.max_width d' = Decoder.max_width d /\
  Decoder.max_height d' = Decoder.max_height d /\
  Decoder.output_format d' = Decoder.output_format d /\
  Decoder.initialized d' = Decoder.initialized d /\
  Decoder.eos_received d' = Decoder.eos_received d.

(* ======================================================================= *)
(** * Properties *)

(** ** Machine arithmetic *)

Lemma wrap32_small (z : Z) : 0 <= z < UINT32_MOD -> wrap32 z = z.
Proof. intros H. unfold wrap32. apply Z.mod_small. exact H. Qed.

Lemma wrap64_small (z : Z) : 0 <= z < UINT64_MOD -> wrap64 z = z.
Proof. intros H. unfold wrap64. apply Z.mod_small. exact H. Qed.

Lemma wrap64_range (z : Z) : 0 <= wrap64 z < UINT64_MOD.
Proof. unfold wrap64. apply Z.mod_pos_bound. reflexivity. Qed.

Lemma mul32_nonneg (a b : Z) : 0 <= mul32 a b < UINT32_MOD.
Proof. unfold mul32, wrap32. apply Z.mod_pos_bound. reflexivity. Qed.

(** ** The raw-frame size *)

(** The public size function and the encoder's private one agree on every
    pair of dimensions: the early return for a zero dimension returns what
    the formula gives there. *)
Lemma calculate_nv12_size_public (w h : Z) :
  Encoder.calculate_nv12_size w h = rkmpp_get_nv12_size w h.
Proof.
  unfold Encoder.calculate_nv12_size, rkmpp_get_nv12_size.
  destruct (w =? 0) eqn:Ew; [apply Z.eqb_eq in Ew; subst w; reflexivity|].
  destruct (h =? 0) eqn:Eh; [apply Z.eqb_eq in Eh; subst h|reflexivity].
  simpl. unfold mul32. rewrite Z.mul_0_r. reflexivity.
Qed.

Lemma rkmpp_get_nv12_size_nonneg (w h : Z) : 0 <= rkmpp_get_nv12_size w h.
Proof.
  unfold rkmpp_get_nv12_size.
  destruct ((w =? 0) || (h =? 0)); [lia|].
  apply Z.div_pos; [apply mul32_nonneg | lia].
Qed.

Lemma rkmpp_get_nv12_size_in_range (w h : Z) :
  16 <= w <= 4096 -> 16 <= h <= 4096 ->
  rkmpp_get_nv12_size w h = w * h * 3 / 2 /\ w * h * 3 < UINT32_MOD.
Proof.
  intros Hw Hh.
  assert (Hp : 256 <= w * h <= 4096 * 4096) by nia.
  assert (Hb : w * h * 3 < UINT32_MOD) by (unfold UINT32_MOD; simpl; lia).
  split; [|exact Hb].
  unfold rkmpp_get_nv12_size.
  replace (w =? 0) with false by (symmetry; apply Z.eqb_neq; lia).
  replace (h =? 0) with false by (symmetry; apply Z.eqb_neq; lia).
  simpl. unfold mul32.
  rewrite (wrap32_small (w * h)) by (unfold UINT32_MOD; simpl; lia).
  rewrite wrap32_small by lia.
  reflexivity.
Qed.

Lemma rkmpp_get_nv12_size_even (w h : Z) :
  16 <= w <= 4096 -> 16 <= h <= 4096 ->
  (w * h) mod 4 = 0 -> Z.even (rkmpp_get_nv12_size w h) = true.
Proof.
  intros Hw Hh H4.
  destruct (rkmpp_get_nv12_size_in_range w h Hw Hh) as [-> _].
  assert (Hq : w * h = 4 * (w * h / 4)) by (apply Z.div_exact; lia).
  set (q := w * h / 4) in *.
  replace (w * h * 3) with (2 * (3 * q) * 2) by lia.
  rewrite Z.div_mul by lia.
  rewrite Z.even_mul. reflexivity.
Qed.

(** C4, as amended.  [rkmpp_get_nv12_size] returns 0 when a dimension is 0;
    for dimensions between 16 and 4096 it returns exactly [w*h*3/2], the
    product [w*h*3] staying below [2^32]; and the value is even whenever
    [w*h] is a multiple of 4. *)
Theorem rkmpp_get_nv12_size_spec :
  (forall w h : Z, w = 0 \/ h = 0 -> rkmpp_get_nv12_size w h = 0) /\
  (forall w h : Z, 16 <= w <= 4096 -> 16 <= h <= 4096 ->
     rkmpp_get_nv12_size w h = w * h * 3 / 2 /\
     w * h * 3 < UINT32_MOD /\
     ((w * h) mod 4 = 0 -> Z.even (rkmpp_get_nv12_size w h) = true)).
Proof.
  split.
  - intros w h [-> | ->]; unfold rkmpp_get_nv12_size.
    + reflexivity.
    + rewrite orb_true_r. reflexivity.
  - intros w h Hw Hh.
    destruct (rkmpp_get_nv12_size_in_range w h Hw Hh) as [E B].
    split; [exact E | split; [exact B |]].
    intros H4. apply rkmpp_get_nv12_size_even; assumption.
Qed.

Lemma rkmpp_get_nv12_size_spec_witness :
  rkmpp_get_nv12_size 0 480 = 0 /\
  (rkmpp_get_nv12_size 640 480 = 640 * 480 * 3 / 2 /\
   640 * 480 * 3 < UINT32_MOD /\
   Z.even (rkmpp_get_nv12_size 640 480) = true).
Proof.
  destruct rkmpp_get_nv12_size_spec as [Hzero Hrange].
  split.
  - apply Hzero. left. reflexivity.
  - destruct (Hrange 640 480) as (E & B & Ev); [lia | lia |].
    split; [exact E | split; [exact B | apply Ev; reflexivity]].
Defined.

(** C4 as stated fails: 18 x 17 lies within the bounds and has an even area,
    yet the size of its raw frame is the odd number 459. *)
Lemma rkmpp_get_nv12_size_odd_on_even_area :
  (16 <= 18 <= 4096 /\ 16 <= 17 <= 4096) /\
  (18 * 17) mod 2 = 0 /\
  rkmpp_get_nv12_size 18 17 = 459 /\
  Z.even (rkmpp_get_nv12_size 18 17) = false.
Proof. repeat split; try lia; reflexivity. Qed.

(** ** Session creation *)

Lemma malloc_succeeds_block (sz : csize) (h : Heap) :
  malloc_succeeds h ->
  exists h', malloc sz h = (Z.pos (next_block h), h').
Proof.
  unfold malloc_succeeds, malloc.
  destruct (oracle h) as [|[|] o]; intros H.
  - eexists. reflexivity.
  - eexists. reflexivity.
  - contradiction.
Qed.

(** The mock backend never reports a failure: initialisation returns 0 and
    touches the four backend pointers only. *)
Lemma encoder_init_mpp_ok (e : Encoder.RkmppEncoder) (h : Heap) :
  exists ctx api fg pg h',
    Encoder.encoder_init_mpp (Some e) h =
    ((0, Some (Encoder.set_packet_group
                 (Encoder.set_frame_group (Encoder.set_mpp e ctx api) fg) pg)), h').
Proof.
  unfold Encoder.encoder_init_mpp, mpp_create, mpp_buffer_group_get_internal,
    bind, ret.
  destruct (malloc (Bytes 1) h) as [ctx h1].
  destruct (malloc (Bytes 1) h1) as [api h2].
  cbn.
  destruct (malloc (Bytes 1) h2) as [fg h3].
  cbn.
  destruct (malloc (Bytes 1) h3) as [pg h4].
  cbn.
  exists ctx, api, fg, pg, h4. reflexivity.
Qed.

Lemma decoder_init_mpp_ok (d : Decoder.RkmppDecoder) (h : Heap) :
  exists ctx api fg pg h',
    Decoder.decoder_init_mpp (Some d) h =
    ((0, Some (Decoder.set_packet_group
                 (Decoder.set_frame_group (Decoder.set_mpp d ctx api) fg) pg)), h').
Proof.
  unfold Decoder.decoder_init_mpp, mpp_create, mpp_buffer_group_get_internal,
    bind, ret.
  destruct (malloc (Bytes 1) h) as [ctx h1].
  destruct (malloc (Bytes 1) h1) as [api h2].
  cbn.
  destruct (malloc (Bytes 1) h2) as [fg h3].
  cbn.
  destruct (malloc (Bytes 1) h3) as [pg h4].
  cbn.
  exists ctx, api, fg, pg, h4. reflexivity.
Qed.

(** Once the configuration is valid, creation depends on the block of the
    session only. *)
Lemma encoder_create_after_validation (c : RkmppEncoderConfig) (h : Heap) :
  Encoder.validate_encoder_config (Some c) = 0 ->
  (fst (malloc Sizeof_RkmppEncoder h) = NULL /\
   fst (Encoder.rkmpp_encoder_create (Some c) h) = None) \/
  (exists e h',
     Encoder.rkmpp_encoder_create (Some c) h =
       (Some (fst (malloc Sizeof_RkmppEncoder h), e), h') /\
     fst (malloc Sizeof_RkmppEncoder h) <> NULL /\
     encoder_created c e).
Proof.
  intros Hv. unfold Encoder.rkmpp_encoder_create. rewrite Hv.
  cbn [Z.eqb negb]. unfold bind. cbv beta.
  destruct (malloc Sizeof_RkmppEncoder h) as [p h1]. cbn [fst].
  destruct (p =? NULL) eqn:Ep.
  - left. apply Z.eqb_eq in Ep. split; [exact Ep | reflexivity].
  - right. apply Z.eqb_neq in Ep.
    match goal with
    | |- context [Encoder.encoder_init_mpp (Some ?e0) h1] =>
      destruct (encoder_init_mpp_ok e0 h1) as (ctx & api & fg & pg & h2 & Hi);
      rewrite Hi
    end.
    cbn.
    eexists. eexists. split; [reflexivity|].
    split; [exact Ep|].
    unfold encoder_created. cbn.
    destruct (ecfg_quality c =? 0); cbn; repeat split; reflexivity.
Qed.

Lemma decoder_create_after_validation (c : RkmppDecoderConfig) (h : Heap) :
  Decoder.validate_decoder_config (Some c) = 0 ->
  (fst (malloc Sizeof_RkmppDecoder h) = NULL /\
   fst (Decoder.rkmpp_decoder_create (Some c) h) = None) \/
  (exists d h',
     Decoder.rkmpp_decoder_create (Some c) h =
       (Some (fst (malloc Sizeof_RkmppDecoder h), d), h') /\
     fst (malloc Sizeof_RkmppDecoder h) <> NULL /\
     decoder_created c d).
Proof.
  intros Hv. unfold Decoder.rkmpp_decoder_create. rewrite Hv.
  cbn [Z.eqb negb]. unfold bind. cbv beta.
  destruct (malloc Sizeof_RkmppDecoder h) as [p h1]. cbn [fst].
  destruct (p =? NULL) eqn:Ep.
  - left. apply Z.eqb_eq in Ep. split; [exact Ep | reflexivity].
  - right. apply Z.eqb_neq in Ep.
    match goal with
    | |- context [Decoder.decoder_init_mpp (Some ?d0) h1] =>
      destruct (decoder_init_mpp_ok d0 h1) as (ctx & api & fg & pg & h2 & Hi);
      rewrite Hi
    end.
    cbn.
    eexists. eexists. split; [reflexivity|].
    split; [exact Ep|].
    unfold decoder_created. cbn. repeat split; reflexivity.
Qed.

(** Settles the comparisons of a range check that the context makes false. *)
Ltac tests_false :=
  repeat match goal with
  | |- context [?a <? ?b] =>
    replace (a <? b) with false by (symmetry; apply Z.ltb_ge; lia)
  | |- context [?a >? ?b] =>
    replace (a >? b) with false
      by (symmetry; rewrite Z.gtb_ltb; apply Z.ltb_ge; lia)
  end.

Lemma validate_encoder_config_accepts (c : RkmppEncoderConfig) :
  16 <= ecfg_width c <= 4096 -> 16 <= ecfg_height c <= 4096 ->
  1 <= ecfg_fps c <= 120 -> ecfg_quality c <= 100 ->
  Encoder.validate_encoder_config (Some c) = 0.
Proof.
  intros Hw Hh Hf Hq. unfold Encoder.validate_encoder_config.
  tests_false. reflexivity.
Qed.

Lemma validate_encoder_config_rejects (config : option RkmppEncoderConfig) :
  encoder_config_rejected config ->
  Encoder.validate_encoder_config config = -1.
Proof.
  destruct config as [c|]; [|reflexivity].
  unfold encoder_config_rejected, Encoder.validate_encoder_config.
  intros H.
  destruct (ecfg_width c <? 16) eqn:E1; [reflexivity|].
  destruct (ecfg_width c >? 4096) eqn:E2; [reflexivity|].
  destruct (ecfg_height c <? 16) eqn:E3; [reflexivity|].
  destruct (ecfg_height c >? 4096) eqn:E4; [reflexivity|].
  destruct (ecfg_fps c <? 1) eqn:E5; [reflexivity|].
  destruct (ecfg_fps c >? 120) eqn:E6; [reflexivity|].
  destruct (ecfg_quality c >? 100) eqn:E7; [reflexivity|].
  rewrite Z.gtb_ltb in E2, E4, E6, E7.
  apply Z.ltb_ge in E1, E2, E3, E4, E5, E6, E7. lia.
Qed.

Lemma validate_decoder_config_accepts (c : RkmppDecoderConfig) :
  16 <= dcfg_max_width c <= 4096 -> 16 <= dcfg_max_height c <= 4096 ->
  Decoder.validate_decoder_config (Some c) = 0.
Proof.
  intros Hw Hh. unfold Decoder.validate_decoder_config.
  tests_false. reflexivity.
Qed.

Lemma validate_decoder_config_rejects (config : option RkmppDecoderConfig) :
  decoder_config_rejected config ->
  Decoder.validate_decoder_config config = -1.
Proof.
  destruct config as [c|]; [|reflexivity].
  unfold decoder_config_rejected, Decoder.validate_decoder_config.
  intros H.
  destruct (dcfg_max_width c <? 16) eqn:E1; [reflexivity|].
  destruct (dcfg_max_width c >? 4096) eqn:E2; [reflexivity|].
  destruct (dcfg_max_height c <? 16) eqn:E3; [reflexivity|].
  destruct (dcfg_max_height c >? 4096) eqn:E4; [reflexivity|].
  rewrite Z.gtb_ltb in E2, E4.
  apply Z.ltb_ge in E1, E2, E3, E4. lia.
Qed.

(** C5.  Encoder creation returns the null handle for an absent
    configuration and for one whose width or height lies outside 16..4096,
    whose fps lies outside 1..120 or whose quality exceeds 100; decoder
    creation returns the null handle for an absent configuration and for
    one whose maximal width or height lies outside 16..4096.  In each case
    the allocator is left as it was: [malloc] is not called and no block
    appears. *)
Theorem create_rejects_without_allocating :
  (forall (config : option RkmppEncoderConfig) (h : Heap),
     encoder_config_rejected config ->
     Encoder.rkmpp_encoder_create config h = (None, h)) /\
  (forall (config : option RkmppDecoderConfig) (h : Heap),
     decoder_config_rejected config ->
     Decoder.rkmpp_decoder_create config h = (None, h)).
Proof.
  split; intros config h Hrej.
  - destruct config as [c|]; [|reflexivity].
    unfold Encoder.rkmpp_encoder_create.
    rewrite (validate_encoder_config_rejects (Some c) Hrej). reflexivity.
  - destruct config as [c|]; [|reflexivity].
    unfold Decoder.rkmpp_decoder_create.
    rewrite (validate_decoder_config_rejects (Some c) Hrej). reflexivity.
Qed.

Lemma create_rejects_without_allocating_witness :
  (Encoder.rkmpp_encoder_create None empty_heap = (None, empty_heap) /\
   Encoder.rkmpp_encoder_create (Some (mkEncoderConfig 8 8 30 0 80 0)) empty_heap
     = (None, empty_heap) /\
   Encoder.rkmpp_encoder_create (Some (mkEncoderConfig 1920 1080 0 0 80 0)) empty_heap
     = (None, empty_heap) /\
   Encoder.rkmpp_encoder_create (Some (mkEncoderConfig 1920 1080 30 0 150 0)) empty_heap
     = (None, empty_heap)) /\
  (Decoder.rkmpp_decoder_create None empty_heap = (None, empty_heap) /\
   Decoder.rkmpp_decoder_create (Some (mkDecoderConfig 8192 8192 0)) empty_heap
     = (None, empty_heap)).
Proof.
  destruct create_rejects_without_allocating as [He Hd].
  split; [split; [|split; [|split]] | split].
  - apply He. exact I.
  - apply He. simpl. lia.
  - apply He. simpl. lia.
  - apply He. simpl. lia.
  - apply Hd. exact I.
  - apply Hd. simpl. lia.
Defined.

(** C7.  With width, height and fps within their bounds and a block
    available for the session, encoder creation accepts quality 0 — the
    configuration passes validation and a session is returned — and stores
    quality 80; for a quality between 1 and 100 it stores that quality. *)
Theorem encoder_create_quality (c : RkmppEncoderConfig) (h : Heap) :
  16 <= ecfg_width c <= 4096 -> 16 <= ecfg_height c <= 4096 ->
  1 <= ecfg_fps c <= 120 ->
  malloc_succeeds h ->
  (ecfg_quality c = 0 ->
   Encoder.validate_encoder_config (Some c) = 0 /\
   exists p e h',
     Encoder.rkmpp_encoder_create (Some c) h = (Some (p, e), h') /\
     Encoder.quality e = 80) /\
  (1 <= ecfg_quality c <= 100 ->
   exists p e h',
     Encoder.rkmpp_encoder_create (Some c) h = (Some (p, e), h') /\
     Encoder.quality e = ecfg_quality c).
Proof.
  intros Hw Hh Hf Hm.
  assert (Hcreate : ecfg_quality c <= 100 ->
            exists p e h',
              Encoder.rkmpp_encoder_create (Some c) h = (Some (p, e), h') /\
              Encoder.quality e = (if ecfg_quality c =? 0 then 80 else ecfg_quality c)).
  { intros Hq.
    pose proof (validate_encoder_config_accepts c Hw Hh Hf Hq) as Hv.
    destruct (malloc_succeeds_block Sizeof_RkmppEncoder h Hm) as [h1 Hb].
    destruct (encoder_create_after_validation c h Hv)
      as [[Hnull _] | (e & h' & Hc & _ & Hcr)].
    - rewrite Hb in Hnull. discriminate Hnull.
    - exists (fst (malloc Sizeof_RkmppEncoder h)), e, h'.
      split; [exact Hc|]. apply Hcr. }
  split.
  - intros Hq0. split.
    + apply validate_encoder_config_accepts; lia.
    + destruct Hcreate as (p & e & h' & Hc & Hq); [lia|].
      exists p, e, h'. split; [exact Hc|].
      rewrite Hq, Hq0. reflexivity.
  - intros Hq1.
    destruct Hcreate as (p & e & h' & Hc & Hq); [lia|].
    exists p, e, h'. split; [exact Hc|].
    rewrite Hq.
    replace (ecfg_quality c =? 0) with false by (symmetry; apply Z.eqb_neq; lia).
    reflexivity.
Qed.

Lemma encoder_create_quality_witness :
  (exists p e h',
     Encoder.rkmpp_encoder_create (Some (mkEncoderConfig 640 480 30 0 0 0)) empty_heap
       = (Some (p, e), h') /\
     Encoder.quality e = 80) /\
  (exists p e h',
     Encoder.rkmpp_encoder_create (Some (mkEncoderConfig 640 480 30 0 55 0)) empty_heap
       = (Some (p, e), h') /\
     Encoder.quality e = 55).
Proof.
  split.
  - apply (encoder_create_quality (mkEncoderConfig 640 480 30 0 0 0) empty_heap);
      simpl; try lia; try exact I; reflexivity.
  - apply (encoder_create_quality (mkEncoderConfig 640 480 30 0 55 0) empty_heap);
      simpl; try lia; exact I.
Defined.

(** ** One encode call *)

Lemma min_by_comparison (a b : Z) : (if a <? b then a else b) = Z.min a b.
Proof. destruct (Z.ltb_spec a b); lia. Qed.

(** A call that passes every check: what it returns and leaves behind. *)
Lemma encode_accepted (e : Encoder.RkmppEncoder) (src dst : list byte)
      (nv12_size jpeg_size len : Z) :
  encoder_ready e ->
  rkmpp_get_nv12_size (Encoder.width e) (Encoder.height e) <= nv12_size ->
  rkmpp_get_nv12_size (Encoder.width e) (Encoder.height e) <= jpeg_size ->
  Encoder.rkmpp_encoder_encode (Some e) (Some src) nv12_size
                               (Some dst) jpeg_size (Some len)
  = Encoder.mkEncodeResult RKMPP_OK
      (Some (encoder_after e (Z.min jpeg_size nv12_size)))
      (Some (memcpy dst src (Z.min jpeg_size nv12_size)))
      (Some (Z.min jpeg_size nv12_size)).
Proof.
  intros Hr Hn Hj. unfold Encoder.rkmpp_encoder_encode.
  replace (Encoder.initialized e =? 0) with false
    by (symmetry; apply Z.eqb_neq; exact Hr).
  rewrite calculate_nv12_size_public.
  replace (nv12_size <? _) with false by (symmetry; apply Z.ltb_ge; lia).
  replace (jpeg_size <? rkmpp_get_nv12_size _ _) with false
    by (symmetry; apply Z.ltb_ge; lia).
  rewrite min_by_comparison. reflexivity.
Qed.

(** A call that does not return [RKMPP_OK] changes nothing. *)
Lemma encode_failure_leaves (encoder : option Encoder.RkmppEncoder)
      (nv12_data : option (list byte)) (nv12_size : Z)
      (jpeg_data : option (list byte)) (jpeg_size : Z) (jpeg_len : option Z) :
  let r := Encoder.rkmpp_encoder_encode encoder nv12_data nv12_size
                                        jpeg_data jpeg_size jpeg_len in
  Encoder.status r = RKMPP_OK \/
  (Encoder.session r = encoder /\ Encoder.jpeg_out r = jpeg_data /\
   Encoder.jpeg_len_out r = jpeg_len).
Proof.
  unfold Encoder.rkmpp_encoder_encode.
  destruct encoder as [e|], nv12_data as [src|], jpeg_data as [dst|],
           jpeg_len as [len|]; cbn; auto.
  destruct (Encoder.initialized e =? 0); cbn; auto.
  destruct (nv12_size <? _); cbn; auto.
  destruct (jpeg_size <? _); cbn; auto.
Qed.

(** A call that returns [RKMPP_OK] received a Ready session, every pointer,
    and two sizes that reach the raw-frame size. *)
Lemma encode_ok_inversion (encoder : option Encoder.RkmppEncoder)
      (nv12_data : option (list byte)) (nv12_size : Z)
      (jpeg_data : option (list byte)) (jpeg_size : Z) (jpeg_len : option Z) :
  Encoder.status (Encoder.rkmpp_encoder_encode encoder nv12_data nv12_size
                                               jpeg_data jpeg_size jpeg_len)
    = RKMPP_OK ->
  exists e src dst len,
    encoder = Some e /\ nv12_data = Some src /\ jpeg_data = Some dst /\
    jpeg_len = Some len /\ encoder_ready e /\
    rkmpp_get_nv12_size (Encoder.width e) (Encoder.height e) <= nv12_size /\
    rkmpp_get_nv12_size (Encoder.width e) (Encoder.height e) <= jpeg_size.
Proof.
  unfold Encoder.rkmpp_encoder_encode.
  destruct encoder as [e|], nv12_data as [src|], jpeg_data as [dst|],
           jpeg_len as [len|]; cbn; try discriminate.
  rewrite calculate_nv12_size_public.
  destruct (Encoder.initialized e =? 0) eqn:Ei; cbn; [discriminate|].
  destruct (nv12_size <? _) eqn:En; cbn; [discriminate|].
  destruct (jpeg_size <? _) eqn:Ej; cbn; [discriminate|].
  intros _. exists e, src, dst, len.
  apply Z.eqb_neq in Ei. apply Z.ltb_ge in En, Ej.
  repeat split; assumption.
Qed.

(** C2.  On a Ready encoder session, an encode call whose raw input size is
    below the raw-frame size of the session — one byte below it in
    particular — or whose output capacity is below it returns InvalidParam,
    and the session, hence both counters that get_stats reports, is as
    before the call. *)
Theorem encode_undersized_buffer
    (e : Encoder.RkmppEncoder)
    (nv12_data : option (list byte)) (nv12_size : Z)
    (jpeg_data : option (list byte)) (jpeg_size : Z) (jpeg_len : option Z) :
  encoder_ready e ->
  nv12_size < rkmpp_get_nv12_size (Encoder.width e) (Encoder.height e) \/
  jpeg_size < rkmpp_get_nv12_size (Encoder.width e) (Encoder.height e) ->
  let r := Encoder.rkmpp_encoder_encode (Some e) nv12_data nv12_size
                                        jpeg_data jpeg_size jpeg_len in
  Encoder.status r = RKMPP_ERR_INVALID_PARAM /\
  Encoder.session r = Some e /\
  encoder_stats (Encoder.session r) = encoder_stats (Some e) /\
  encoder_stats (Encoder.session r)
    = (Some (Encoder.frames_encoded e), Some (Encoder.bytes_encoded e)).
Proof.
  intros Hr Hsmall.
  assert (H : Encoder.status
                (Encoder.rkmpp_encoder_encode (Some e) nv12_data nv12_size
                                              jpeg_data jpeg_size jpeg_len)
              = RKMPP_ERR_INVALID_PARAM /\
              Encoder.session
                (Encoder.rkmpp_encoder_encode (Some e) nv12_data nv12_size
                                              jpeg_data jpeg_size jpeg_len)
              = Some e).
  { unfold Encoder.rkmpp_encoder_encode.
    destruct nv12_data as [src|], jpeg_data as [dst|], jpeg_len as [len|];
      cbn; auto.
    replace (Encoder.initialized e =? 0) with false
      by (symmetry; apply Z.eqb_neq; exact Hr).
    rewrite calculate_nv12_size_public.
    destruct (nv12_size <? _) eqn:En; cbn; auto.
    destruct (jpeg_size <? _) eqn:Ej; cbn; auto.
    apply Z.ltb_ge in En, Ej. lia. }
  destruct H as [Hs He]. cbv zeta.
  rewrite He. repeat split; try assumption; reflexivity.
Qed.

Lemma encode_undersized_buffer_witness :
  let e := Encoder.mkEncoder 2 3 4 5 16 16 30 0 80 7 2688 MutexUnlocked 1 0 in
  let r := Encoder.rkmpp_encoder_encode
             (Some e)
             (Some (repeat x80 383)) (rkmpp_get_nv12_size 16 16 - 1)
             (Some (repeat x00 384)) (rkmpp_get_nv12_size 16 16)
             (Some 0) in
  Encoder.status r = RKMPP_ERR_INVALID_PARAM /\
  Encoder.session r = Some e /\
  encoder_stats (Encoder.session r) = encoder_stats (Some e) /\
  encoder_stats (Encoder.session r) = (Some 7, Some 2688).
Proof.
  cbv zeta.
  apply (encode_undersized_buffer
           (Encoder.mkEncoder 2 3 4 5 16 16 30 0 80 7 2688 MutexUnlocked 1 0)).
  - unfold encoder_ready. simpl. lia.
  - left. vm_compute. reflexivity.
Defined.

(** ** One decode call *)

(** A call that passes every check: what it returns and leaves behind. *)
Lemma decode_accepted (d : Decoder.RkmppDecoder) (src dst : list byte)
      (jpeg_size nv12_size len : Z) (fi : RkmppFrameInfo) :
  decoder_ready d -> jpeg_size <> 0 ->
  Decoder.rkmpp_decoder_decode (Some d) (Some src) jpeg_size
                               (Some dst) nv12_size (Some len) (Some fi)
  = Decoder.mkDecodeResult RKMPP_OK
      (Some (decoder_after d (Z.min nv12_size jpeg_size)))
      (Some (memcpy dst src (Z.min nv12_size jpeg_size)))
      (Some (Z.min nv12_size jpeg_size))
      (Some (mkFrameInfo (Decoder.max_width d) (Decoder.max_height d) 0 0)).
Proof.
  intros Hr Hj. unfold Decoder.rkmpp_decoder_decode.
  replace (Decoder.initialized d =? 0) with false
    by (symmetry; apply Z.eqb_neq; exact Hr).
  replace (jpeg_size =? 0) with false by (symmetry; apply Z.eqb_neq; exact Hj).
  rewrite min_by_comparison. reflexivity.
Qed.

(** A call that does not return [RKMPP_OK] changes nothing. *)
Lemma decode_failure_leaves (decoder : option Decoder.RkmppDecoder)
      (jpeg_data : option (list byte)) (jpeg_size : Z)
      (nv12_data : option (list byte)) (nv12_size : Z)
      (nv12_len : option Z) (frame_info : option RkmppFrameInfo) :
  let r := Decoder.rkmpp_decoder_decode decoder jpeg_data jpeg_size
                                        nv12_data nv12_size nv12_len frame_info in
  Decoder.status r = RKMPP_OK \/
  (Decoder.session r = decoder /\ Decoder.nv12_out r = nv12_data /\
   Decoder.nv12_len_out r = nv12_len /\ Decoder.frame_info_out r = frame_info).
Proof.
  unfold Decoder.rkmpp_decoder_decode.
  destruct decoder as [d|], jpeg_data as [src|], nv12_data as [dst|],
           nv12_len as [len|], frame_info as [fi|]; cbn; auto.
  destruct (Decoder.initialized d =? 0); cbn; auto.
  destruct (jpeg_size =? 0); cbn; auto.
Qed.

(** A call that returns [RKMPP_OK] received a Ready session, every pointer
    and a non-zero input size. *)
Lemma decode_ok_inversion (decoder : option Decoder.RkmppDecoder)
      (jpeg_data : option (list byte)) (jpeg_size : Z)
      (nv12_data : option (list byte)) (nv12_size : Z)
      (nv12_len : option Z) (frame_info : option RkmppFrameInfo) :
  Decoder.status (Decoder.rkmpp_decoder_decode decoder jpeg_data jpeg_size
                    nv12_data nv12_size nv12_len frame_info) = RKMPP_OK ->
  exists d src dst len fi,
    decoder = Some d /\ jpeg_data = Some src /\ nv12_data = Some dst /\
    nv12_len = Some len /\ frame_info = Some fi /\
    decoder_ready d /\ jpeg_size <> 0.
Proof.
  unfold Decoder.rkmpp_decoder_decode.
  destruct decoder as [d|], jpeg_data as [src|], nv12_data as [dst|],
           nv12_len as [len|], frame_info as [fi|]; cbn; try discriminate.
  destruct (Decoder.initialized d =? 0) eqn:Ei; cbn; [discriminate|].
  destruct (jpeg_size =? 0) eqn:Ej; cbn; [discriminate|].
  intros _. exists d, src, dst, len, fi.
  apply Z.eqb_neq in Ei, Ej.
  repeat split; assumption.
Qed.

(** C3, as amended.  A session that is present but whose [initialized] flag
    is clear makes encode and decode, called with every other pointer
    present, return [RKMPP_ERR_INIT] (-3); the session, the output buffer
    and the output cells are left as they were. *)
Theorem not_ready_session_reports_init :
  (forall (e : Encoder.RkmppEncoder) (src dst : list byte)
          (nv12_size jpeg_size len : Z),
     Encoder.initialized e = 0 ->
     let r := Encoder.rkmpp_encoder_encode (Some e) (Some src) nv12_size
                                           (Some dst) jpeg_size (Some len) in
     Encoder.status r = RKMPP_ERR_INIT /\
     status_code (Encoder.status r) = -3 /\
     Encoder.session r = Some e /\
     Encoder.jpeg_out r = Some dst /\
     Encoder.jpeg_len_out r = Some len) /\
  (forall (d : Decoder.RkmppDecoder) (src dst : list byte)
          (jpeg_size nv12_size len : Z) (fi : RkmppFrameInfo),
     Decoder.initialized d = 0 ->
     let r := Decoder.rkmpp_decoder_decode (Some d) (Some src) jpeg_size
                                           (Some dst) nv12_size (Some len) (Some fi) in
     Decoder.status r = RKMPP_ERR_INIT /\
     status_code (Decoder.status r) = -3 /\
     Decoder.session r = Some d /\
     Decoder.nv12_out r = Some dst /\
     Decoder.nv12_len_out r = Some len /\
     Decoder.frame_info_out r = Some fi).
Proof.
  split.
  - intros e src dst nv12_size jpeg_size len Hi. cbv zeta.
    unfold Encoder.rkmpp_encoder_encode. rewrite Hi. cbn.
    repeat split; reflexivity.
  - intros d src dst jpeg_size nv12_size len fi Hi. cbv zeta.
    unfold Decoder.rkmpp_decoder_decode. rewrite Hi. cbn.
    repeat split; reflexivity.
Qed.

Lemma not_ready_session_reports_init_witness :
  let e := Encoder.mkEncoder 2 3 4 5 16 16 30 0 80 0 0 MutexUnlocked 0 0 in
  let d := Decoder.mkDecoder 2 3 4 5 16 16 0 0 0 MutexUnlocked 0 0 in
  (let r := Encoder.rkmpp_encoder_encode
              (Some e) (Some (repeat x80 384)) 384
              (Some (repeat x00 384)) 384 (Some 0) in
   Encoder.status r = RKMPP_ERR_INIT /\
   status_code (Encoder.status r) = -3 /\
   Encoder.session r = Some e /\
   Encoder.jpeg_out r = Some (repeat x00 384) /\
   Encoder.jpeg_len_out r = Some 0) /\
  (let r := Decoder.rkmpp_decoder_decode
              (Some d) (Some (repeat xff 100)) 100
              (Some (repeat x00 384)) 384 (Some 0)
              (Some (mkFrameInfo 0 0 0 0)) in
   Decoder.status r = RKMPP_ERR_INIT /\
   status_code (Decoder.status r) = -3 /\
   Decoder.session r = Some d /\
   Decoder.nv12_out r = Some (repeat x00 384) /\
   Decoder.nv12_len_out r = Some 0 /\
   Decoder.frame_info_out r = Some (mkFrameInfo 0 0 0 0)).
Proof.
  cbv zeta.
  destruct not_ready_session_reports_init as [He Hd].
  split.
  - apply (He (Encoder.mkEncoder 2 3 4 5 16 16 30 0 80 0 0 MutexUnlocked 0 0)).
    reflexivity.
  - apply (Hd (Decoder.mkDecoder 2 3 4 5 16 16 0 0 0 MutexUnlocked 0 0)).
    reflexivity.
Defined.

(** C3 as stated fails: on a session whose [initialized] flag is clear, with
    every other argument present and well sized, encode and decode return
    [RKMPP_ERR_INIT], which is not [RKMPP_ERR_INVALID_PARAM]. *)
Lemma not_ready_session_is_not_invalid_param :
  let e := Encoder.mkEncoder 2 3 4 5 16 16 30 0 80 0 0 MutexUnlocked 0 0 in
  let d := Decoder.mkDecoder 2 3 4 5 16 16 0 0 0 MutexUnlocked 0 0 in
  (Encoder.initialized e = 0 /\ Decoder.initialized d = 0) /\
  Encoder.status
    (Encoder.rkmpp_encoder_encode
       (Some e) (Some (repeat x80 384)) 384
       (Some (repeat x00 384)) 384 (Some 0)) = RKMPP_ERR_INIT /\
  Decoder.status
    (Decoder.rkmpp_decoder_decode
       (Some d) (Some (repeat xff 100)) 100
       (Some (repeat x00 384)) 384 (Some 0)
       (Some (mkFrameInfo 0 0 0 0))) = RKMPP_ERR_INIT /\
  RKMPP_ERR_INIT <> RKMPP_ERR_INVALID_PARAM /\
  status_code RKMPP_ERR_INIT <> status_code RKMPP_ERR_INVALID_PARAM.
Proof.
  cbv zeta.
  split; [split; reflexivity|].
  split; [reflexivity|].
  split; [reflexivity|].
  split; [discriminate | simpl; lia].
Qed.

(** C8, as amended.  Decode returns InvalidParam whenever one of its pointer
    arguments (session, compressed input, raw output, produced-size cell,
    frame descriptor) is absent, and whenever the compressed size is 0 on a
    Ready session; in those cases the session, hence both counters that
    get_stats reports, is as before the call. *)
Theorem decode_invalid_param
    (decoder : option Decoder.RkmppDecoder)
    (jpeg_data : option (list byte)) (jpeg_size : Z)
    (nv12_data : option (list byte)) (nv12_size : Z)
    (nv12_len : option Z) (frame_info : option RkmppFrameInfo) :
  decoder = None \/ jpeg_data = None \/ nv12_data = None \/
  nv12_len = None \/ frame_info = None \/
  (jpeg_size = 0 /\ exists d, decoder = Some d /\ decoder_ready d) ->
  let r := Decoder.rkmpp_decoder_decode decoder jpeg_data jpeg_size
                                        nv12_data nv12_size nv12_len frame_info in
  Decoder.status r = RKMPP_ERR_INVALID_PARAM /\
  Decoder.session r = decoder /\
  decoder_stats (Decoder.session r) = decoder_stats decoder.
Proof.
  intros H. cbv zeta.
  assert (Hs : Decoder.status
                 (Decoder.rkmpp_decoder_decode decoder jpeg_data jpeg_size
                    nv12_data nv12_size nv12_len frame_info)
               = RKMPP_ERR_INVALID_PARAM).
  { unfold Decoder.rkmpp_decoder_decode.
    destruct decoder as [d|], jpeg_data as [src|], nv12_data as [dst|],
             nv12_len as [len|], frame_info as [fi|]; cbn; try reflexivity.
    destruct H as [H|[H|[H|[H|[H|H]]]]]; try discriminate H.
    destruct H as (Hz & d' & Hd & Hr). injection Hd as <-.
    replace (Decoder.initialized d =? 0) with false
      by (symmetry; apply Z.eqb_neq; exact Hr).
    rewrite Hz. reflexivity. }
  destruct (decode_failure_leaves decoder jpeg_data jpeg_size
              nv12_data nv12_size nv12_len frame_info) as [Hok | (Hsess & _)].
  - rewrite Hs in Hok. discriminate Hok.
  - split; [exact Hs|]. split; [exact Hsess|]. rewrite Hsess. reflexivity.
Qed.

Lemma decode_invalid_param_witness :
  let d := Decoder.mkDecoder 2 3 4 5 16 16 0 4 400 MutexUnlocked 1 0 in
  (let r := Decoder.rkmpp_decoder_decode
              (Some d) None 100 (Some (repeat x00 384)) 384 (Some 0)
              (Some (mkFrameInfo 0 0 0 0)) in
   Decoder.status r = RKMPP_ERR_INVALID_PARAM /\
   Decoder.session r = Some d /\
   decoder_stats (Decoder.session r) = decoder_stats (Some d)) /\
  (let r := Decoder.rkmpp_decoder_decode
              (Some d) (Some (repeat xff 100)) 0 (Some (repeat x00 384)) 384
              (Some 0) (Some (mkFrameInfo 0 0 0 0)) in
   Decoder.status r = RKMPP_ERR_INVALID_PARAM /\
   Decoder.session r = Some d /\
   decoder_stats (Decoder.session r) = decoder_stats (Some d)).
Proof.
  cbv zeta. split.
  - apply decode_invalid_param. right. left. reflexivity.
  - apply decode_invalid_param. do 5 right. split; [reflexivity|].
    eexists. split; [reflexivity|]. unfold decoder_ready. simpl. lia.
Defined.

(** C8 as stated fails: with every pointer present and a compressed size of
    0, a session whose [initialized] flag is clear gets [RKMPP_ERR_INIT],
    because the flag is tested before the size. *)
Lemma decode_zero_size_not_ready :
  let d := Decoder.mkDecoder 2 3 4 5 16 16 0 0 0 MutexUnlocked 0 0 in
  Decoder.status
    (Decoder.rkmpp_decoder_decode
       (Some d) (Some (repeat xff 100)) 0
       (Some (repeat x00 384)) 384 (Some 0)
       (Some (mkFrameInfo 0 0 0 0))) = RKMPP_ERR_INIT /\
  RKMPP_ERR_INIT <> RKMPP_ERR_INVALID_PARAM.
Proof. cbv zeta. split; [reflexivity | discriminate]. Qed.

(** C9.  On a Ready decoder session, a decode call with every pointer
    present and a compressed size above 0 returns [RKMPP_OK], whatever the
    bytes of the compressed input and whatever the output capacity; and no
    decode call at all returns [RKMPP_ERR_DECODE]. *)
Theorem decode_never_fails :
  (forall (d : Decoder.RkmppDecoder) (src dst : list byte)
          (jpeg_size nv12_size len : Z) (fi : RkmppFrameInfo),
     decoder_ready d -> 0 < jpeg_size ->
     Decoder.status
       (Decoder.rkmpp_decoder_decode (Some d) (Some src) jpeg_size
                                     (Some dst) nv12_size (Some len) (Some fi))
     = RKMPP_OK) /\
  (forall (decoder : option Decoder.RkmppDecoder)
          (jpeg_data : option (list byte)) (jpeg_size : Z)
          (nv12_data : option (list byte)) (nv12_size : Z)
          (nv12_len : option Z) (frame_info : option RkmppFrameInfo),
     Decoder.status
       (Decoder.rkmpp_decoder_decode decoder jpeg_data jpeg_size
                                     nv12_data nv12_size nv12_len frame_info)
     <> RKMPP_ERR_DECODE).
Proof.
  split.
  - intros d src dst jpeg_size nv12_size len fi Hr Hj.
    rewrite decode_accepted by (assumption || lia). reflexivity.
  - intros decoder jpeg_data jpeg_size nv12_data nv12_size nv12_len frame_info.
    unfold Decoder.rkmpp_decoder_decode.
    destruct decoder as [d|], jpeg_data as [src|], nv12_data as [dst|],
             nv12_len as [len|], frame_info as [fi|]; cbn; try discriminate.
    destruct (Decoder.initialized d =? 0); cbn; [discriminate|].
    destruct (jpeg_size =? 0); cbn; discriminate.
Qed.

Lemma decode_never_fails_witness :
  Decoder.status
    (Decoder.rkmpp_decoder_decode
       (Some (Decoder.mkDecoder 2 3 4 5 16 16 0 0 0 MutexUnlocked 1 0))
       (Some [x00; x01; xff; xd8; x13]) 5
       (Some (repeat x00 384)) 384 (Some 0) (Some (mkFrameInfo 0 0 0 0)))
  = RKMPP_OK /\
  Decoder.status
    (Decoder.rkmpp_decoder_decode
       (Some (Decoder.mkDecoder 2 3 4 5 16 16 0 0 0 MutexUnlocked 1 0))
       (Some [x00]) 1
       (Some (repeat x00 384)) 0 (Some 0) (Some (mkFrameInfo 0 0 0 0)))
  = RKMPP_OK.
Proof.
  destruct decode_never_fails as [Hok _].
  split; apply Hok; unfold decoder_ready; simpl; lia.
Defined.

(** C10.  A decode call that returns [RKMPP_OK] fills the frame descriptor
    with the [max_width] and [max_height] of the session, format 0 and
    timestamp 0 — the same descriptor whatever compressed bytes are passed —
    and reports as produced size the smaller of the output capacity and the
    compressed size, which does not exceed the output capacity. *)
Theorem decode_frame_descriptor
    (decoder : option Decoder.RkmppDecoder)
    (jpeg_data : option (list byte)) (jpeg_size : Z)
    (nv12_data : option (list byte)) (nv12_size : Z)
    (nv12_len : option Z) (frame_info : option RkmppFrameInfo) :
  let r := Decoder.rkmpp_decoder_decode decoder jpeg_data jpeg_size
                                        nv12_data nv12_size nv12_len frame_info in
  Decoder.status r = RKMPP_OK ->
  exists d,
    decoder = Some d /\
    Decoder.frame_info_out r
      = Some (mkFrameInfo (Decoder.max_width d) (Decoder.max_height d) 0 0) /\
    Decoder.nv12_len_out r = Some (Z.min nv12_size jpeg_size) /\
    Z.min nv12_size jpeg_size <= nv12_size /\
    (forall other_bytes : list byte,
       Decoder.frame_info_out
         (Decoder.rkmpp_decoder_decode decoder (Some other_bytes) jpeg_size
                                       nv12_data nv12_size nv12_len frame_info)
       = Decoder.frame_info_out r).
Proof.
  cbv zeta. intros Hok.
  destruct (decode_ok_inversion _ _ _ _ _ _ _ Hok)
    as (d & src & dst & len & fi & -> & -> & -> & -> & -> & Hr & Hj).
  exists d. split; [reflexivity|].
  rewrite (decode_accepted d src dst jpeg_size nv12_size len fi Hr Hj).
  split; [reflexivity|]. split; [reflexivity|]. split; [lia|].
  intros other_bytes. rewrite decode_accepted by assumption. reflexivity.
Qed.

Lemma decode_frame_descriptor_witness :
  let d := Decoder.mkDecoder 2 3 4 5 640 480 0 0 0 MutexUnlocked 1 0 in
  let r := Decoder.rkmpp_decoder_decode
             (Some d) (Some (repeat xff 100)) 100
             (Some (repeat x00 64)) 64 (Some 0) (Some (mkFrameInfo 9 9 9 9)) in
  exists d',
    Some d = Some d' /\
    Decoder.frame_info_out r
      = Some (mkFrameInfo (Decoder.max_width d') (Decoder.max_height d') 0 0) /\
    Decoder.nv12_len_out r = Some (Z.min 64 100) /\
    Z.min 64 100 <= 64 /\
    (forall other_bytes : list byte,
       Decoder.frame_info_out
         (Decoder.rkmpp_decoder_decode (Some d) (Some other_bytes) 100
            (Some (repeat x00 64)) 64 (Some 0) (Some (mkFrameInfo 9 9 9 9)))
       = Decoder.frame_info_out r).
Proof.
  cbv zeta.
  apply (decode_frame_descriptor
           (Some (Decoder.mkDecoder 2 3 4 5 640 480 0 0 0 MutexUnlocked 1 0))
           (Some (repeat xff 100)) 100
           (Some (repeat x00 64)) 64 (Some 0) (Some (mkFrameInfo 9 9 9 9))).
  reflexivity.
Defined.

(** ** The round trip *)

(** A handle returned by [rkmpp_encoder_create] comes from a present and
    valid configuration and holds what creation stores. *)
Lemma encoder_create_handle (config : option RkmppEncoderConfig) (h h' : Heap)
      (p : ptr) (e : Encoder.RkmppEncoder) :
  Encoder.rkmpp_encoder_create config h = (Some (p, e), h') ->
  exists c, config = Some c /\
            Encoder.validate_encoder_config (Some c) = 0 /\
            p <> NULL /\ encoder_created c e.
Proof.
  intros Hc. destruct config as [c|]; [|discriminate Hc].
  exists c. split; [reflexivity|].
  destruct (Encoder.validate_encoder_config (Some c) =? 0) eqn:Ev.
  - apply Z.eqb_eq in Ev. split; [exact Ev|].
    destruct (encoder_create_after_validation c h Ev)
      as [[_ Hn] | (e0 & h0 & Hc0 & Hp & Hcr)].
    + rewrite Hc in Hn. discriminate Hn.
    + rewrite Hc in Hc0. injection Hc0 as Hp0 He0 _. subst.
      split; assumption.
  - unfold Encoder.rkmpp_encoder_create in Hc. rewrite Ev in Hc.
    discriminate Hc.
Qed.

Lemma decoder_create_handle (config : option RkmppDecoderConfig) (h h' : Heap)
      (p : ptr) (d : Decoder.RkmppDecoder) :
  Decoder.rkmpp_decoder_create config h = (Some (p, d), h') ->
  exists c, config = Some c /\
            Decoder.validate_decoder_config (Some c) = 0 /\
            p <> NULL /\ decoder_created c d.
Proof.
  intros Hc. destruct config as [c|]; [|discriminate Hc].
  exists c. split; [reflexivity|].
  destruct (Decoder.validate_decoder_config (Some c) =? 0) eqn:Ev.
  - apply Z.eqb_eq in Ev. split; [exact Ev|].
    destruct (decoder_create_after_validation c h Ev)
      as [[_ Hn] | (d0 & h0 & Hc0 & Hp & Hcr)].
    + rewrite Hc in Hn. discriminate Hn.
    + rewrite Hc in Hc0. injection Hc0 as Hp0 Hd0 _. subst.
      split; assumption.
  - unfold Decoder.rkmpp_decoder_create in Hc. rewrite Ev in Hc.
    discriminate Hc.
Qed.

Lemma encoder_created_ready (c : RkmppEncoderConfig) (e : Encoder.RkmppEncoder) :
  encoder_created c e -> encoder_ready e.
Proof.
  intros Hcr. unfold encoder_ready.
  destruct Hcr as (_ & _ & _ & _ & _ & _ & _ & _ & ->). discriminate.
Qed.

Lemma decoder_created_ready (c : RkmppDecoderConfig) (d : Decoder.RkmppDecoder) :
  decoder_created c d -> decoder_ready d.
Proof.
  intros Hcr. unfold decoder_ready.
  destruct Hcr as (_ & _ & _ & _ & _ & _ & ->). discriminate.
Qed.

Lemma nv12_size_640_480 : rkmpp_get_nv12_size 640 480 = 460800.
Proof. reflexivity. Qed.

(** C1.  Take an encoder created for 640 x 480 and a decoder created for at
    most 640 x 480.  Encoding a raw buffer of [rkmpp_get_nv12_size 640 480]
    bytes, all equal to one byte, into an output of that capacity returns
    [RKMPP_OK]; decoding the bitstream written, with the size reported, into
    an output of that capacity returns [RKMPP_OK] with a frame descriptor of
    width 640 and height 480. *)
Theorem encode_decode_round_trip
    (ec : RkmppEncoderConfig) (dc : RkmppDecoderConfig)
    (he he' hd hd' : Heap) (pe pd : ptr)
    (e : Encoder.RkmppEncoder) (d : Decoder.RkmppDecoder)
    (b : byte) (jpeg_buffer nv12_output : list byte)
    (len0 len1 : Z) (fi0 : RkmppFrameInfo) :
  ecfg_width ec = 640 -> ecfg_height ec = 480 ->
  dcfg_max_width dc = 640 -> dcfg_max_height dc = 480 ->
  Encoder.rkmpp_encoder_create (Some ec) he = (Some (pe, e), he') ->
  Decoder.rkmpp_decoder_create (Some dc) hd = (Some (pd, d), hd') ->
  let size := rkmpp_get_nv12_size 640 480 in
  let r1 := Encoder.rkmpp_encoder_encode
              (Some e) (Some (repeat b (Z.to_nat size))) size
              (Some jpeg_buffer) size (Some len0) in
  Encoder.status r1 = RKMPP_OK /\
  exists bitstream produced,
    Encoder.jpeg_out r1 = Some bitstream /\
    Encoder.jpeg_len_out r1 = Some produced /\
    let r2 := Decoder.rkmpp_decoder_decode
                (Some d) (Some bitstream) produced
                (Some nv12_output) size (Some len1) (Some fi0) in
    Decoder.status r2 = RKMPP_OK /\
    exists fi,
      Decoder.frame_info_out r2 = Some fi /\
      fi_width fi = 640 /\ fi_height fi = 480.
Proof.
  intros Hw Hh Hmw Hmh Hce Hcd. cbv zeta.
  destruct (encoder_create_handle _ _ _ _ _ Hce) as (c & Hc & _ & _ & Hcr).
  injection Hc as <-.
  destruct (decoder_create_handle _ _ _ _ _ Hcd) as (c' & Hc' & _ & _ & Hcr').
  injection Hc' as <-.
  pose proof (encoder_created_ready _ _ Hcr) as Hre.
  pose proof (decoder_created_ready _ _ Hcr') as Hrd.
  destruct Hcr as (Ew & Eh & _). destruct Hcr' as (Emw & Emh & _).
  rewrite Hw in Ew. rewrite Hh in Eh. rewrite Hmw in Emw. rewrite Hmh in Emh.
  rewrite encode_accepted
    by (try exact Hre; rewrite Ew, Eh; apply Z.le_refl).
  cbn [Encoder.status Encoder.jpeg_out Encoder.jpeg_len_out].
  split; [reflexivity|].
  eexists. eexists. split; [reflexivity|]. split; [reflexivity|].
  rewrite decode_accepted
    by (try exact Hrd; rewrite Z.min_id, nv12_size_640_480; discriminate).
  cbn [Decoder.status Decoder.frame_info_out].
  split; [reflexivity|].
  eexists. split; [reflexivity|].
  cbn [fi_width fi_height]. split; assumption.
Qed.

Lemma encode_decode_round_trip_witness :
  let ec := mkEncoderConfig 640 480 30 0 80 0 in
  let dc := mkDecoderConfig 640 480 0 in
  let size := rkmpp_get_nv12_size 640 480 in
  exists e d,
    fst (Encoder.rkmpp_encoder_create (Some ec) empty_heap) = Some (1, e) /\
    fst (Decoder.rkmpp_decoder_create (Some dc) empty_heap) = Some (1, d) /\
    let r1 := Encoder.rkmpp_encoder_encode
                (Some e) (Some (repeat x40 (Z.to_nat size))) size
                (Some (repeat x00 (Z.to_nat size))) size (Some 0) in
    Encoder.status r1 = RKMPP_OK /\
    exists bitstream produced,
      Encoder.jpeg_out r1 = Some bitstream /\
      Encoder.jpeg_len_out r1 = Some produced /\
      let r2 := Decoder.rkmpp_decoder_decode
                  (Some d) (Some bitstream) produced
                  (Some (repeat x00 (Z.to_nat size))) size
                  (Some 0) (Some (mkFrameInfo 0 0 0 0)) in
      Decoder.status r2 = RKMPP_OK /\
      exists fi,
        Decoder.frame_info_out r2 = Some fi /\
        fi_width fi = 640 /\ fi_height fi = 480.
Proof.
  cbv zeta.
  exists (Encoder.mkEncoder 2 3 4 5 640 480 30 0 80 0 0 MutexUnlocked 1 0).
  exists (Decoder.mkDecoder 2 3 4 5 640 480 0 0 0 MutexUnlocked 1 0).
  split; [reflexivity|]. split; [reflexivity|].
  apply (encode_decode_round_trip
           (mkEncoderConfig 640 480 30 0 80 0) (mkDecoderConfig 640 480 0)
           empty_heap
           (snd (Encoder.rkmpp_encoder_create
                   (Some (mkEncoderConfig 640 480 30 0 80 0)) empty_heap))
           empty_heap
           (snd (Decoder.rkmpp_decoder_create
                   (Some (mkDecoderConfig 640 480 0)) empty_heap))
           1 1);
    reflexivity.
Defined.

(** ** Statistics *)

Lemma wrap64_add_l (a b : Z) : wrap64 (wrap64 a + b) = wrap64 (a + b).
Proof. unfold wrap64. apply Zplus_mod_idemp_l. Qed.

Lemma encoder_stats_some (e : Encoder.RkmppEncoder) :
  encoder_stats (Some e)
  = (Some (Encoder.frames_encoded e), Some (Encoder.bytes_encoded e)).
Proof. reflexivity. Qed.

Lemma decoder_stats_some (d : Decoder.RkmppDecoder) :
  decoder_stats (Some d)
  = (Some (Decoder.frames_decoded d), Some (Decoder.bytes_decoded d)).
Proof. reflexivity. Qed.

Lemma encode_calls_cons (e : option Encoder.RkmppEncoder) (a : encode_args)
      (rest : list encode_args) :
  fst (encode_calls e (a :: rest))
    = fst (encode_calls (Encoder.session (encode_call e a)) rest) /\
  snd (encode_calls e (a :: rest))
    = encode_call e a :: snd (encode_calls (Encoder.session (encode_call e a)) rest).
Proof.
  cbn [encode_calls].
  destruct (encode_calls (Encoder.session (encode_call e a)) rest).
  split; reflexivity.
Qed.

Lemma decode_calls_cons (d : option Decoder.RkmppDecoder) (a : decode_args)
      (rest : list decode_args) :
  fst (decode_calls d (a :: rest))
    = fst (decode_calls (Decoder.session (decode_call d a)) rest) /\
  snd (decode_calls d (a :: rest))
    = decode_call d a :: snd (decode_calls (Decoder.session (decode_call d a)) rest).
Proof.
  cbn [decode_calls].
  destruct (decode_calls (Decoder.session (decode_call d a)) rest).
  split; reflexivity.
Qed.

(** A successful encode call, seen from the session. *)
Lemma encode_call_ok (e : Encoder.RkmppEncoder) (a : encode_args) :
  Encoder.status (encode_call (Some e) a) = RKMPP_OK ->
  Encoder.session (encode_call (Some e) a)
    = Some (encoder_after e (encode_produced (encode_call (Some e) a))) /\
  0 <= encode_produced (encode_call (Some e) a).
Proof.
  unfold encode_call. intros Hok.
  destruct (encode_ok_inversion _ _ _ _ _ _ Hok)
    as (e0 & src & dst & len & He & Hs & Hd & Hl & Hr & Hn & Hj).
  injection He as <-.
  rewrite Hs, Hd, Hl.
  rewrite (encode_accepted e src dst _ _ len Hr Hn Hj).
  unfold encode_produced. cbn [Encoder.session Encoder.jpeg_len_out].
  split; [reflexivity|].
  pose proof (rkmpp_get_nv12_size_nonneg (Encoder.width e) (Encoder.height e)).
  lia.
Qed.

Lemma decode_call_ok (d : Decoder.RkmppDecoder) (a : decode_args) :
  Decoder.status (decode_call (Some d) a) = RKMPP_OK ->
  Decoder.session (decode_call (Some d) a)
    = Some (decoder_after d (decode_produced (decode_call (Some d) a))).
Proof.
  unfold decode_call. intros Hok.
  destruct (decode_ok_inversion _ _ _ _ _ _ _ Hok)
    as (d0 & src & dst & len & fi & Hd & Hs & Hdst & Hl & Hf & Hr & Hj).
  injection Hd as <-.
  rewrite Hs, Hdst, Hl, Hf.
  rewrite (decode_accepted d src dst _ _ len fi Hr Hj).
  reflexivity.
Qed.

Lemma encoder_after_counters (e : Encoder.RkmppEncoder) (n : Z) :
  is_uint64 (Encoder.frames_encoded (encoder_after e n)) /\
  is_uint64 (Encoder.bytes_encoded (encoder_after e n)).
Proof. split; apply wrap64_range. Qed.

Lemma decoder_after_counters (d : Decoder.RkmppDecoder) (n : Z) :
  is_uint64 (Decoder.frames_decoded (decoder_after d n)) /\
  is_uint64 (Decoder.bytes_decoded (decoder_after d n)).
Proof. split; apply wrap64_range. Qed.

(** After a list of calls that all return [RKMPP_OK], the frame counter has
    advanced by the number of calls and the byte counter by the sum of the
    produced sizes, both modulo [2^64]. *)
Lemma encode_calls_counters (calls : list encode_args) :
  forall e : Encoder.RkmppEncoder,
    is_uint64 (Encoder.frames_encoded e) ->
    is_uint64 (Encoder.bytes_encoded e) ->
    Forall (fun r => Encoder.status r = RKMPP_OK)
           (snd (encode_calls (Some e) calls)) ->
    exists e',
      fst (encode_calls (Some e) calls) = Some e' /\
      Encoder.frames_encoded e'
        = wrap64 (Encoder.frames_encoded e + Z.of_nat (length calls)) /\
      Encoder.bytes_encoded e'
        = wrap64 (Encoder.bytes_encoded e
                  + sum_sizes (map encode_produced
                                   (snd (encode_calls (Some e) calls)))) /\
      0 <= sum_sizes (map encode_produced (snd (encode_calls (Some e) calls))).
Proof.
  induction calls as [|a rest IH]; intros e Hf Hb Hall.
  - exists e. cbn. rewrite !Z.add_0_r, !wrap64_small by assumption.
    repeat split; try reflexivity; try lia.
  - destruct (encode_calls_cons (Some e) a rest) as [Ef Es].
    rewrite Es in Hall. apply Forall_cons_iff in Hall.
    destruct Hall as [Hok Hrest].
    destruct (encode_call_ok e a Hok) as [Hsess Hpos].
    set (n := encode_produced (encode_call (Some e) a)) in *.
    rewrite Hsess in Es, Ef, Hrest.
    destruct (encoder_after_counters e n) as [Hf' Hb'].
    destruct (IH _ Hf' Hb' Hrest) as (e' & Hfst & Hfr & Hby & Hsum).
    exists e'. rewrite Ef, Es. split; [exact Hfst|].
    cbn [map length]. unfold sum_sizes at 1 2. cbn [fold_right].
    fold (sum_sizes (map encode_produced
                         (snd (encode_calls (Some (encoder_after e n)) rest)))).
    fold n.
    cbn [encoder_after Encoder.frames_encoded Encoder.bytes_encoded] in Hfr, Hby.
    unfold add64 in Hfr, Hby. rewrite wrap64_add_l in Hfr, Hby.
    split; [rewrite Hfr; f_equal; lia|].
    split; [rewrite Hby; f_equal; lia|].
    lia.
Qed.

Lemma decode_calls_counters (calls : list decode_args) :
  forall d : Decoder.RkmppDecoder,
    is_uint64 (Decoder.frames_decoded d) ->
    is_uint64 (Decoder.bytes_decoded d) ->
    Forall (fun r => Decoder.status r = RKMPP_OK)
           (snd (decode_calls (Some d) calls)) ->
    exists d',
      fst (decode_calls (Some d) calls) = Some d' /\
      Decoder.frames_decoded d'
        = wrap64 (Decoder.frames_decoded d + Z.of_nat (length calls)) /\
      Decoder.bytes_decoded d'
        = wrap64 (Decoder.bytes_decoded d
                  + sum_sizes (map decode_produced
                                   (snd (decode_calls (Some d) calls)))).
Proof.
  induction calls as [|a rest IH]; intros d Hf Hb Hall.
  - exists d. cbn. rewrite !Z.add_0_r, !wrap64_small by assumption.
    repeat split; reflexivity.
  - destruct (decode_calls_cons (Some d) a rest) as [Ef Es].
    rewrite Es in Hall. apply Forall_cons_iff in Hall.
    destruct Hall as [Hok Hrest].
    pose proof (decode_call_ok d a Hok) as Hsess.
    set (n := decode_produced (decode_call (Some d) a)) in *.
    rewrite Hsess in Es, Ef, Hrest.
    destruct (decoder_after_counters d n) as [Hf' Hb'].
    destruct (IH _ Hf' Hb' Hrest) as (d' & Hfst & Hfr & Hby).
    exists d'. rewrite Ef, Es. split; [exact Hfst|].
    cbn [map length]. unfold sum_sizes at 1. cbn [fold_right].
    fold (sum_sizes (map decode_produced
                         (snd (decode_calls (Some (decoder_after d n)) rest)))).
    fold n.
    cbn [decoder_after Decoder.frames_decoded Decoder.bytes_decoded] in Hfr, Hby.
    unfold add64 in Hfr, Hby. rewrite wrap64_add_l in Hfr, Hby.
    split; [rewrite Hfr; f_equal; lia|].
    rewrite Hby; f_equal; lia.
Qed.

(** On a Ready session every call whose arguments are accepted for the
    dimensions of the session returns [RKMPP_OK]. *)
Lemma encode_calls_all_ok (calls : list encode_args) :
  forall e : Encoder.RkmppEncoder,
    encoder_ready e ->
    Forall (encode_args_accepted (Encoder.width e) (Encoder.height e)) calls ->
    Forall (fun r => Encoder.status r = RKMPP_OK)
           (snd (encode_calls (Some e) calls)).
Proof.
  induction calls as [|a rest IH]; intros e Hr Hacc.
  - constructor.
  - destruct (encode_calls_cons (Some e) a rest) as [_ Es]. rewrite Es.
    apply Forall_cons_iff in Hacc. destruct Hacc as [Ha Hrest].
    destruct Ha as ([src Hs] & [dst Hd] & [len Hl] & Hn & Hj).
    assert (Hcall : encode_call (Some e) a
                    = Encoder.mkEncodeResult RKMPP_OK
                        (Some (encoder_after e (Z.min (ea_jpeg_size a) (ea_nv12_size a))))
                        (Some (memcpy dst src (Z.min (ea_jpeg_size a) (ea_nv12_size a))))
                        (Some (Z.min (ea_jpeg_size a) (ea_nv12_size a)))).
    { unfold encode_call. rewrite Hs, Hd, Hl.
      apply encode_accepted; assumption. }
    rewrite Hcall. cbn [Encoder.session].
    constructor; [reflexivity|].
    apply IH; [exact Hr | exact Hrest].
Qed.

(** C6, as amended.  Right after a successful create, get_stats reports
    (0, 0).  After [N] encode (respectively decode) calls on that session
    that all return [RKMPP_OK], get_stats reports [N] modulo [2^64] frames
    and the sum of the produced sizes modulo [2^64] bytes: exactly [N] and
    exactly the sum as long as both are below [2^64]. *)
Theorem stats_after_successful_calls :
  (forall (config : option RkmppEncoderConfig) (h h' : Heap) (p : ptr)
          (e : Encoder.RkmppEncoder),
     Encoder.rkmpp_encoder_create config h = (Some (p, e), h') ->
     encoder_stats (Some e) = (Some 0, Some 0) /\
     forall calls : list encode_args,
       let N := Z.of_nat (length calls) in
       let results := snd (encode_calls (Some e) calls) in
       let total := sum_sizes (map encode_produced results) in
       Forall (fun r => Encoder.status r = RKMPP_OK) results ->
       encoder_stats (fst (encode_calls (Some e) calls))
         = (Some (wrap64 N), Some (wrap64 total)) /\
       (N < UINT64_MOD -> total < UINT64_MOD ->
        encoder_stats (fst (encode_calls (Some e) calls))
          = (Some N, Some total))) /\
  (forall (config : option RkmppDecoderConfig) (h h' : Heap) (p : ptr)
          (d : Decoder.RkmppDecoder),
     Decoder.rkmpp_decoder_create config h = (Some (p, d), h') ->
     decoder_stats (Some d) = (Some 0, Some 0) /\
     forall calls : list decode_args,
       let N := Z.of_nat (length calls) in
       let results := snd (decode_calls (Some d) calls) in
       let total := sum_sizes (map decode_produced results) in
       Forall (fun r => Decoder.status r = RKMPP_OK) results ->
       decoder_stats (fst (decode_calls (Some d) calls))
         = (Some (wrap64 N), Some (wrap64 total)) /\
       (N < UINT64_MOD -> 0 <= total < UINT64_MOD ->
        decoder_stats (fst (decode_calls (Some d) calls))
          = (Some N, Some total))).
Proof.
  split.
  - intros config h h' p e Hc.
    destruct (encoder_create_handle _ _ _ _ _ Hc) as (c & _ & _ & _ & Hcr).
    destruct Hcr as (_ & _ & _ & _ & _ & Hf0 & Hb0 & _).
    split; [rewrite encoder_stats_some, Hf0, Hb0; reflexivity|].
    intros calls N results total Hall.
    destruct (encode_calls_counters calls e) as (e' & Hfst & Hfr & Hby & Hpos).
    + rewrite Hf0. unfold is_uint64, UINT64_MOD. simpl. lia.
    + rewrite Hb0. unfold is_uint64, UINT64_MOD. simpl. lia.
    + exact Hall.
    + rewrite Hf0 in Hfr. rewrite Hb0 in Hby. rewrite Z.add_0_l in Hfr, Hby.
      fold results in Hby, Hpos. fold total in Hby, Hpos. fold N in Hfr.
      rewrite Hfst, encoder_stats_some, Hfr, Hby.
      split; [reflexivity|].
      intros HN Ht.
      rewrite (wrap64_small N) by (unfold N; lia).
      rewrite (wrap64_small total) by lia.
      reflexivity.
  - intros config h h' p d Hc.
    destruct (decoder_create_handle _ _ _ _ _ Hc) as (c & _ & _ & _ & Hcr).
    destruct Hcr as (_ & _ & _ & Hf0 & Hb0 & _).
    split; [rewrite decoder_stats_some, Hf0, Hb0; reflexivity|].
    intros calls N results total Hall.
    destruct (decode_calls_counters calls d) as (d' & Hfst & Hfr & Hby).
    + rewrite Hf0. unfold is_uint64, UINT64_MOD. simpl. lia.
    + rewrite Hb0. unfold is_uint64, UINT64_MOD. simpl. lia.
    + exact Hall.
    + rewrite Hf0 in Hfr. rewrite Hb0 in Hby. rewrite Z.add_0_l in Hfr, Hby.
      fold results in Hby. fold total in Hby. fold N in Hfr.
      rewrite Hfst, decoder_stats_some, Hfr, Hby.
      split; [reflexivity|].
      intros HN Ht.
      rewrite (wrap64_small N) by (unfold N; lia).
      rewrite (wrap64_small total) by lia.
      reflexivity.
Qed.

Lemma stats_after_successful_calls_witness :
  let e := Encoder.mkEncoder 2 3 4 5 16 16 30 0 80 0 0 MutexUnlocked 1 0 in
  let d := Decoder.mkDecoder 2 3 4 5 16 16 0 0 0 MutexUnlocked 1 0 in
  let jpeg := mkDecodeArgs (Some (repeat xff 100)) 100 (Some (repeat x00 384)) 384
                           (Some 0) (Some (mkFrameInfo 0 0 0 0)) in
  (encoder_stats (Some e) = (Some 0, Some 0) /\
   encoder_stats
     (fst (encode_calls (Some e)
             [small_frame_call; small_frame_call; small_frame_call]))
   = (Some 3, Some 1152)) /\
  (decoder_stats (Some d) = (Some 0, Some 0) /\
   decoder_stats (fst (decode_calls (Some d) [jpeg; jpeg]))
   = (Some 2, Some 200)).
Proof.
  cbv zeta.
  destruct stats_after_successful_calls as [He Hd].
  split.
  - destruct (He (Some (mkEncoderConfig 16 16 30 0 80 0)) empty_heap
                 (snd (Encoder.rkmpp_encoder_create
                         (Some (mkEncoderConfig 16 16 30 0 80 0)) empty_heap))
                 1
                 (Encoder.mkEncoder 2 3 4 5 16 16 30 0 80 0 0 MutexUnlocked 1 0)
                 eq_refl) as [Hzero Hcalls].
    split; [exact Hzero|].
    destruct (Hcalls [small_frame_call; small_frame_call; small_frame_call])
      as [_ Hexact].
    + repeat constructor.
    + apply Hexact; reflexivity.
  - destruct (Hd (Some (mkDecoderConfig 16 16 0)) empty_heap
                 (snd (Decoder.rkmpp_decoder_create
                         (Some (mkDecoderConfig 16 16 0)) empty_heap))
                 1
                 (Decoder.mkDecoder 2 3 4 5 16 16 0 0 0 MutexUnlocked 1 0)
                 eq_refl) as [Hzero Hcalls].
    split; [exact Hzero|].
    destruct (Hcalls
                [mkDecodeArgs (Some (repeat xff 100)) 100 (Some (repeat x00 384)) 384
                              (Some 0) (Some (mkFrameInfo 0 0 0 0));
                 mkDecodeArgs (Some (repeat xff 100)) 100 (Some (repeat x00 384)) 384
                              (Some 0) (Some (mkFrameInfo 0 0 0 0))])
      as [_ Hexact].
    + repeat constructor.
    + apply Hexact; [reflexivity | split; [discriminate | reflexivity]].
Defined.

Lemma small_frame_call_accepted : encode_args_accepted 16 16 small_frame_call.
Proof.
  unfold encode_args_accepted, small_frame_call. cbn.
  repeat split; try (eexists; reflexivity); discriminate.
Qed.

(** C6 as stated fails for a number of calls that the 64-bit frame counter
    cannot hold: after [2^64] successful encode calls on a fresh 16 x 16
    session, get_stats reports 0 frames, not [2^64]. *)
Lemma frame_counter_wraps :
  let e := Encoder.mkEncoder 2 3 4 5 16 16 30 0 80 0 0 MutexUnlocked 1 0 in
  let calls := repeat small_frame_call (N.to_nat (2 ^ 64)) in
  fst (Encoder.rkmpp_encoder_create
         (Some (mkEncoderConfig 16 16 30 0 80 0)) empty_heap) = Some (1, e) /\
  Z.of_nat (length calls) = 2 ^ 64 /\
  Forall (fun r => Encoder.status r = RKMPP_OK)
         (snd (encode_calls (Some e) calls)) /\
  fst (encoder_stats (fst (encode_calls (Some e) calls))) = Some 0.
Proof.
  cbv zeta.
  set (e := Encoder.mkEncoder 2 3 4 5 16 16 30 0 80 0 0 MutexUnlocked 1 0).
  set (n := N.to_nat (2 ^ 64)).
  assert (Hn : Z.of_nat n = 2 ^ 64) by (unfold n; rewrite N_nat_Z; reflexivity).
  assert (Hok : Forall (fun r => Encoder.status r = RKMPP_OK)
                       (snd (encode_calls (Some e) (repeat small_frame_call n)))).
  { apply encode_calls_all_ok.
    - unfold encoder_ready, e. cbn. discriminate.
    - apply Forall_forall. intros a Ha.
      apply repeat_spec in Ha. subst a. exact small_frame_call_accepted. }
  split; [reflexivity|].
  split; [rewrite repeat_length; exact Hn|].
  split; [exact Hok|].
  destruct (encode_calls_counters (repeat small_frame_call n) e)
    as (e' & Hfst & Hfr & _).
  - unfold is_uint64, UINT64_MOD, e. cbn. lia.
  - unfold is_uint64, UINT64_MOD, e. cbn. lia.
  - exact Hok.
  - rewrite Hfst, encoder_stats_some. cbn [fst].
    rewrite Hfr, repeat_length, Hn. reflexivity.
Qed.

(** ** The model at work *)

(** A 640 x 480 encoder on a fresh allocator: the session is block 1, the
    mock backend takes blocks 2 to 5. *)
Example encoder_create_640_480 :
  Encoder.rkmpp_encoder_create (Some (mkEncoderConfig 640 480 30 0 0 0)) empty_heap
  = (Some (1, Encoder.mkEncoder 2 3 4 5 640 480 30 0 80 0 0 MutexUnlocked 1 0),
     mkHeap [(5, Bytes 1); (4, Bytes 1); (3, Bytes 1); (2, Bytes 1);
             (1, Sizeof_RkmppEncoder)] 6%positive []).
Proof. reflexivity. Qed.

(** When [malloc] has no block for the session, creation returns [NULL]
    after that one call. *)
Example encoder_create_out_of_memory :
  Encoder.rkmpp_encoder_create (Some (mkEncoderConfig 640 480 30 0 0 0))
                               (mkHeap [] 1%positive [false; true])
  = (None, mkHeap [] 1%positive [true]).
Proof. reflexivity. Qed.

(** Destroying the session frees the session block, the two buffer groups
    and the context. *)
Example encoder_create_destroy :
  (h <- Encoder.rkmpp_encoder_create (Some (mkEncoderConfig 640 480 30 0 0 0)) ;;
   Encoder.rkmpp_encoder_destroy h) empty_heap
  = (RKMPP_OK, mkHeap [(3, Bytes 1)] 6%positive []).
Proof. reflexivity. Qed.

(** The mock encoder copies the frame. *)
Example encode_small_frame :
  let e := Encoder.mkEncoder 2 3 4 5 16 16 30 0 80 0 0 MutexUnlocked 1 0 in
  encode_call (Some e) small_frame_call
  = Encoder.mkEncodeResult
      RKMPP_OK
      (Some (Encoder.mkEncoder 2 3 4 5 16 16 30 0 80 1 384 MutexUnlocked 1 0))
      (Some (repeat x80 384)) (Some 384).
Proof. reflexivity. Qed.

(** A decoder output smaller than the input truncates. *)
Example decode_truncates :
  let d := Decoder.mkDecoder 2 3 4 5 16 16 0 0 0 MutexUnlocked 1 0 in
  Decoder.rkmpp_decoder_decode (Some d) (Some [x01; x02; x03; x04; x05]) 5
                               (Some [x00; x00; x00]) 3 (Some 0)
                               (Some (mkFrameInfo 7 7 7 7))
  = Decoder.mkDecodeResult
      RKMPP_OK
      (Some (Decoder.mkDecoder 2 3 4 5 16 16 0 1 3 MutexUnlocked 1 0))
      (Some [x01; x02; x03]) (Some 3) (Some (mkFrameInfo 16 16 0 0)).
Proof. reflexivity. Qed.

(** [memcpy] within bounds keeps the size of the destination, and a copy of
    a whole source over a destination of the same size gives the source. *)
Lemma memcpy_length (dst src : list byte) (n : Z) :
  (Z.to_nat n <= length src)%nat -> (Z.to_nat n <= length dst)%nat ->
  length (memcpy dst src n) = length dst.
Proof.
  intros Hs Hd. unfold memcpy.
  rewrite length_app, firstn_length_le, length_skipn by exact Hs.
  lia.
Qed.

Lemma memcpy_whole (dst src : list byte) (n : Z) :
  length src = Z.to_nat n -> length dst = Z.to_nat n ->
  memcpy dst src n = src.
Proof.
  intros Hs Hd. unfold memcpy.
  rewrite firstn_all2, skipn_all2 by lia.
  apply app_nil_r.
Qed.

(** X18.  With buffers of exactly the raw-frame size, the bytes that come
    out of the mock decoder are the bytes that went into the mock encoder. *)
Lemma round_trip_bytes
    (e : Encoder.RkmppEncoder) (d : Decoder.RkmppDecoder)
    (frame jpeg_buffer nv12_output : list byte)
    (len0 len1 : Z) (fi0 : RkmppFrameInfo) :
  encoder_ready e -> decoder_ready d ->
  let size := rkmpp_get_nv12_size (Encoder.width e) (Encoder.height e) in
  0 < size ->
  length frame = Z.to_nat size ->
  length jpeg_buffer = Z.to_nat size ->
  length nv12_output = Z.to_nat size ->
  let r1 := Encoder.rkmpp_encoder_encode (Some e) (Some frame) size
                                         (Some jpeg_buffer) size (Some len0) in
  Encoder.jpeg_out r1 = Some frame /\
  Encoder.jpeg_len_out r1 = Some size /\
  Decoder.nv12_out
    (Decoder.rkmpp_decoder_decode (Some d) (Encoder.jpeg_out r1) size
                                  (Some nv12_output) size (Some len1) (Some fi0))
  = Some frame.
Proof.
  intros Hre Hrd size Hpos Hf Hj Hn. cbv zeta.
  rewrite encode_accepted by (try exact Hre; apply Z.le_refl).
  cbn [Encoder.jpeg_out Encoder.jpeg_len_out].
  fold size. rewrite Z.min_id.
  rewrite (memcpy_whole jpeg_buffer frame size Hf Hj).
  split; [reflexivity|]. split; [reflexivity|].
  rewrite decode_accepted by (try exact Hrd; lia).
  cbn [Decoder.nv12_out]. rewrite Z.min_id.
  rewrite (memcpy_whole nv12_output frame size Hf Hn). reflexivity.
Qed.

(* ======================================================================= *)
(** * Further properties of the code *)

(** ** Messages *)

Module MessageFacts.
Import Stdlib.Strings.String.

(** X1.  [rkmpp_get_error_string] tells the nine statuses apart: two
    enumerators with the same message are the same enumerator.  An integer
    that is the code of no enumerator gets the message of
    [RKMPP_ERR_UNKNOWN], and no message is empty. *)
Theorem error_string_identifies_status :
  (forall s1 s2 : RkmppStatus,
     Messages.rkmpp_get_error_string (status_code s1)
       = Messages.rkmpp_get_error_string (status_code s2) ->
     s1 = s2) /\
  (forall z : Z,
     (forall s : RkmppStatus, z <> status_code s) ->
     Messages.rkmpp_get_error_string z
       = Messages.rkmpp_get_error_string (status_code RKMPP_ERR_UNKNOWN)) /\
  (forall z : Z, Messages.rkmpp_get_error_string z <> ""%string).
Proof.
  split; [|split].
  - intros s1 s2.
    destruct s1, s2; cbn; intros H; try reflexivity; discriminate H.
  - intros z Hz. unfold Messages.rkmpp_get_error_string.
    repeat match goal with
    | |- context [z =? status_code ?s] =>
      replace (z =? status_code s) with false
        by (symmetry; apply Z.eqb_neq; apply Hz)
    end.
    reflexivity.
  - intros z. unfold Messages.rkmpp_get_error_string.
    repeat match goal with
    | |- context [if ?b then _ else _] => destruct b
    end; discriminate.
Qed.

Lemma error_string_identifies_status_witness :
  RKMPP_ERR_TIMEOUT = RKMPP_ERR_TIMEOUT /\
  Messages.rkmpp_get_error_string 7 = "Unknown error"%string /\
  Messages.rkmpp_get_error_string (-8) = "Unknown error"%string.
Proof.
  destruct error_string_identifies_status as (Hinj & Hdef & _).
  split; [apply Hinj; reflexivity|].
  split.
  - apply (Hdef 7). intros s. destruct s; discriminate.
  - apply (Hdef (-8)). intros s. destruct s; discriminate.
Defined.

End MessageFacts.

(** ** The raw-frame size, on every input *)

(** X2.  The private [calculate_nv12_size] of the encoder unit and of
    [decoder.c] return what the public [rkmpp_get_nv12_size] returns, for
    every pair of dimensions; the result is always below [2^31]; and within
    the bounds of a valid configuration it holds the luma plane, grows with
    each dimension and lies between 384 and 25165824. *)
Theorem nv12_size_everywhere :
  (forall w h : Z,
     Encoder.calculate_nv12_size w h = rkmpp_get_nv12_size w h /\
     Decoder.calculate_nv12_size w h = rkmpp_get_nv12_size w h) /\
  (forall w h : Z, 0 <= rkmpp_get_nv12_size w h < 2 ^ 31) /\
  (forall w h w' h' : Z,
     16 <= w <= 4096 -> 16 <= h <= 4096 ->
     w <= w' <= 4096 -> h <= h' <= 4096 ->
     w * h <= rkmpp_get_nv12_size w h /\
     384 <= rkmpp_get_nv12_size w h <= 25165824 /\
     rkmpp_get_nv12_size w h <= rkmpp_get_nv12_size w' h').
Proof.
  split; [|split].
  - intros w h. split; apply calculate_nv12_size_public.
  - intros w h. split; [apply rkmpp_get_nv12_size_nonneg|].
    unfold rkmpp_get_nv12_size.
    destruct ((w =? 0) || (h =? 0)); [reflexivity|].
    pose proof (mul32_nonneg (mul32 w h) 3) as Hm. unfold UINT32_MOD in Hm.
    apply Z.div_lt_upper_bound; [lia|]. simpl in *. lia.
  - intros w h w' h' Hw Hh Hw' Hh'.
    destruct (rkmpp_get_nv12_size_in_range w h Hw Hh) as [E _].
    destruct (rkmpp_get_nv12_size_in_range w' h') as [E' _]; [lia | lia |].
    rewrite E, E'.
    assert (Hp : 256 <= w * h <= 4096 * 4096) by nia.
    assert (Hmono : w * h <= w' * h') by nia.
    split; [apply Z.div_le_lower_bound; lia|].
    split; [split|].
    + apply Z.div_le_lower_bound; lia.
    + apply Z.div_le_upper_bound; lia.
    + apply Z.div_le_mono; lia.
Qed.

Lemma nv12_size_everywhere_witness :
  320 * 240 <= rkmpp_get_nv12_size 320 240 /\
  384 <= rkmpp_get_nv12_size 320 240 <= 25165824 /\
  rkmpp_get_nv12_size 320 240 <= rkmpp_get_nv12_size 640 480.
Proof.
  destruct nv12_size_everywhere as (_ & _ & H).
  apply (H 320 240 640 480); lia.
Defined.

(** ** Validation, exactly *)

(** X3.  [validate_encoder_config] returns 0 exactly when the configuration
    is present with width and height in 16..4096, fps in 1..120 and quality
    at most 100, and -1 otherwise; bitrate and gop play no part. *)
Theorem validate_encoder_config_exact :
  (forall c : RkmppEncoderConfig,
     Encoder.validate_encoder_config (Some c) = 0 <->
     (16 <= ecfg_width c <= 4096 /\ 16 <= ecfg_height c <= 4096 /\
      1 <= ecfg_fps c <= 120 /\ ecfg_quality c <= 100)) /\
  (forall config : option RkmppEncoderConfig,
     Encoder.validate_encoder_config config = 0 \/
     Encoder.validate_encoder_config config = -1) /\
  (forall (c : RkmppEncoderConfig) (bitrate gop : Z),
     Encoder.validate_encoder_config
       (Some (mkEncoderConfig (ecfg_width c) (ecfg_height c) (ecfg_fps c)
                              bitrate (ecfg_quality c) gop))
     = Encoder.validate_encoder_config (Some c)).
Proof.
  split; [|split].
  - intros c. split.
    + intros Hv.
      destruct (Z_le_gt_dec 16 (ecfg_width c)) as [?|?];
      destruct (Z_le_gt_dec (ecfg_width c) 4096) as [?|?];
      destruct (Z_le_gt_dec 16 (ecfg_height c)) as [?|?];
      destruct (Z_le_gt_dec (ecfg_height c) 4096) as [?|?];
      destruct (Z_le_gt_dec 1 (ecfg_fps c)) as [?|?];
      destruct (Z_le_gt_dec (ecfg_fps c) 120) as [?|?];
      destruct (Z_le_gt_dec (ecfg_quality c) 100) as [?|?];
      try (repeat split; assumption);
      rewrite (validate_encoder_config_rejects (Some c)) in Hv
        by (simpl; lia);
      discriminate Hv.
    + intros (Hw & Hh & Hf & Hq).
      apply validate_encoder_config_accepts; assumption.
  - intros [c|]; [|right; reflexivity].
    unfold Encoder.validate_encoder_config.
    repeat match goal with
    | |- context [if ?b then _ else _] => destruct b
    end; auto.
  - intros c bitrate gop. reflexivity.
Qed.

Lemma validate_encoder_config_exact_witness :
  Encoder.validate_encoder_config (Some (mkEncoderConfig 16 4096 120 0 100 0)) = 0 /\
  (16 <= 1920 <= 4096 /\ 16 <= 1080 <= 4096 /\ 1 <= 30 <= 120 /\ 80 <= 100).
Proof.
  destruct validate_encoder_config_exact as (Hiff & _ & _).
  split.
  - apply (Hiff (mkEncoderConfig 16 4096 120 0 100 0)). simpl. lia.
  - apply (Hiff (mkEncoderConfig 1920 1080 30 0 80 0)). reflexivity.
Defined.

(** X4.  [validate_decoder_config] returns 0 exactly when the configuration
    is present with max_width and max_height in 16..4096, and -1 otherwise;
    output_format plays no part. *)
Theorem validate_decoder_config_exact :
  (forall c : RkmppDecoderConfig,
     Decoder.validate_decoder_config (Some c) = 0 <->
     (16 <= dcfg_max_width c <= 4096 /\ 16 <= dcfg_max_height c <= 4096)) /\
  (forall config : option RkmppDecoderConfig,
     Decoder.validate_decoder_config config = 0 \/
     Decoder.validate_decoder_config config = -1) /\
  (forall (c : RkmppDecoderConfig) (output_format : Z),
     Decoder.validate_decoder_config
       (Some (mkDecoderConfig (dcfg_max_width c) (dcfg_max_height c) output_format))
     = Decoder.validate_decoder_config (Some c)).
Proof.
  split; [|split].
  - intros c. split.
    + intros Hv.
      destruct (Z_le_gt_dec 16 (dcfg_max_width c)) as [?|?];
      destruct (Z_le_gt_dec (dcfg_max_width c) 4096) as [?|?];
      destruct (Z_le_gt_dec 16 (dcfg_max_height c)) as [?|?];
      destruct (Z_le_gt_dec (dcfg_max_height c) 4096) as [?|?];
      try (repeat split; assumption);
      rewrite (validate_decoder_config_rejects (Some c)) in Hv
        by (simpl; lia);
      discriminate Hv.
    + intros (Hw & Hh).
      apply validate_decoder_config_accepts; assumption.
  - intros [c|]; [|right; reflexivity].
    unfold Decoder.validate_decoder_config.
    repeat match goal with
    | |- context [if ?b then _ else _] => destruct b
    end; auto.
  - intros c output_format. reflexivity.
Qed.

Lemma validate_decoder_config_exact_witness :
  Decoder.validate_decoder_config (Some (mkDecoderConfig 16 4096 77)) = 0 /\
  (16 <= 640 <= 4096 /\ 16 <= 480 <= 4096).
Proof.
  destruct validate_decoder_config_exact as (Hiff & _ & _).
  split.
  - apply (Hiff (mkDecoderConfig 16 4096 77)). simpl. lia.
  - apply (Hiff (mkDecoderConfig 640 480 0)). reflexivity.
Defined.

(** ** Creation, exactly *)

Lemma malloc_fails_null (sz : csize) (h : Heap) :
  ~ malloc_succeeds h ->
  fst (malloc sz h) = NULL /\ live (snd (malloc sz h)) = live h.
Proof.
  unfold malloc_succeeds, malloc.
  destruct (oracle h) as [|[|] o]; intros H; try (exfalso; apply H; exact I).
  split; reflexivity.
Qed.

Lemma malloc_keeps_live (sz : csize) (h : Heap) (b : ptr * csize) :
  In b (live h) -> In b (live (snd (malloc sz h))).
Proof.
  unfold malloc, alloc_block.
  destruct (oracle h) as [|[|] o]; cbn; auto.
Qed.

Lemma malloc_succeeds_dec (h : Heap) : malloc_succeeds h \/ ~ malloc_succeeds h.
Proof.
  unfold malloc_succeeds. destruct (oracle h) as [|[|] o]; auto.
Qed.

(** The blocks live before the backend is initialised stay live. *)
Lemma encoder_init_mpp_keeps_live (e : Encoder.RkmppEncoder) (h : Heap)
      (b : ptr * csize) :
  In b (live h) -> In b (live (snd (Encoder.encoder_init_mpp (Some e) h))).
Proof.
  intros Hb.
  unfold Encoder.encoder_init_mpp, mpp_create, mpp_buffer_group_get_internal,
    bind, ret.
  pose proof (malloc_keeps_live (Bytes 1) h b Hb) as H1.
  destruct (malloc (Bytes 1) h) as [ctx h1]. cbn [snd] in H1.
  pose proof (malloc_keeps_live (Bytes 1) h1 b H1) as H2.
  destruct (malloc (Bytes 1) h1) as [api h2]. cbn [snd] in H2. cbn.
  pose proof (malloc_keeps_live (Bytes 1) h2 b H2) as H3.
  destruct (malloc (Bytes 1) h2) as [fg h3]. cbn [snd] in H3. cbn.
  pose proof (malloc_keeps_live (Bytes 1) h3 b H3) as H4.
  destruct (malloc (Bytes 1) h3) as [pg h4]. cbn [snd] in H4. cbn.
  exact H4.
Qed.

Lemma decoder_init_mpp_keeps_live (d : Decoder.RkmppDecoder) (h : Heap)
      (b : ptr * csize) :
  In b (live h) -> In b (live (snd (Decoder.decoder_init_mpp (Some d) h))).
Proof.
  intros Hb.
  unfold Decoder.decoder_init_mpp, mpp_create, mpp_buffer_group_get_internal,
    bind, ret.
  pose proof (malloc_keeps_live (Bytes 1) h b Hb) as H1.
  destruct (malloc (Bytes 1) h) as [ctx h1]. cbn [snd] in H1.
  pose proof (malloc_keeps_live (Bytes 1) h1 b H1) as H2.
  destruct (malloc (Bytes 1) h1) as [api h2]. cbn [snd] in H2. cbn.
  pose proof (malloc_keeps_live (Bytes 1) h2 b H2) as H3.
  destruct (malloc (Bytes 1) h2) as [fg h3]. cbn [snd] in H3. cbn.
  pose proof (malloc_keeps_live (Bytes 1) h3 b H3) as H4.
  destruct (malloc (Bytes 1) h3) as [pg h4]. cbn [snd] in H4. cbn.
  exact H4.
Qed.

(** X5.  [rkmpp_encoder_create] returns a handle exactly when the
    configuration is present, passes validation, and [malloc] has a block
    for the session.  The handle is then the block [malloc] handed out,
    which is live with the size of the session; the session is Ready, holds
    the width, height, fps and bitrate of the configuration, and starts
    with both counters at 0 and the lock released. *)
Theorem encoder_create_exact
    (config : option RkmppEncoderConfig) (h : Heap) :
  ((exists p e, fst (Encoder.rkmpp_encoder_create config h) = Some (p, e)) <->
   (Encoder.validate_encoder_config config = 0 /\ malloc_succeeds h)) /\
  (forall p e h',
     Encoder.rkmpp_encoder_create config h = (Some (p, e), h') ->
     p = Z.pos (next_block h) /\
     In (p, Sizeof_RkmppEncoder) (live h') /\
     encoder_ready e /\
     exists c, config = Some c /\ encoder_created c e).
Proof.
  split.
  - split.
    + intros (p & e & Hc).
      destruct (Encoder.rkmpp_encoder_create config h) as [r h'] eqn:Hcr.
      cbn [fst] in Hc. subst r.
      destruct (encoder_create_handle _ _ _ _ _ Hcr) as (c & -> & Hv & _ & _).
      split; [exact Hv|].
      destruct (malloc_succeeds_dec h) as [Hm|Hm]; [exact Hm|].
      destruct (malloc_fails_null Sizeof_RkmppEncoder h Hm) as [Hnull _].
      destruct (encoder_create_after_validation c h Hv)
        as [[_ Hn] | (e0 & h0 & _ & Hp & _)].
      * rewrite Hcr in Hn. discriminate Hn.
      * contradiction.
    + intros [Hv Hm].
      destruct config as [c|]; [|discriminate Hv].
      destruct (malloc_succeeds_block Sizeof_RkmppEncoder h Hm) as [h1 Hb].
      destruct (encoder_create_after_validation c h Hv)
        as [[Hnull _] | (e & h' & Hc & _ & _)].
      * rewrite Hb in Hnull. discriminate Hnull.
      * rewrite Hc. eexists. eexists. reflexivity.
  - intros p e h' Hcr.
    destruct (encoder_create_handle _ _ _ _ _ Hcr) as (c & -> & Hv & Hp & Hcre).
    assert (Hblock : p = Z.pos (next_block h) /\
                     In (p, Sizeof_RkmppEncoder) (live h')).
    { unfold Encoder.rkmpp_encoder_create in Hcr. rewrite Hv in Hcr.
      cbn [Z.eqb negb] in Hcr. unfold bind in Hcr. cbv beta in Hcr.
      assert (Hlive : fst (malloc Sizeof_RkmppEncoder h) <> NULL ->
                      fst (malloc Sizeof_RkmppEncoder h) = Z.pos (next_block h) /\
                      In (fst (malloc Sizeof_RkmppEncoder h), Sizeof_RkmppEncoder)
                         (live (snd (malloc Sizeof_RkmppEncoder h)))).
      { unfold malloc, alloc_block.
        destruct (oracle h) as [|[|] o]; cbn; intros Hn;
          try (split; [reflexivity | left; reflexivity]).
        exfalso. apply Hn. reflexivity. }
      destruct (malloc Sizeof_RkmppEncoder h) as [q h1]. cbn [fst snd] in Hlive.
      destruct (q =? NULL) eqn:Eq; [discriminate Hcr|].
      apply Z.eqb_neq in Eq. destruct (Hlive Eq) as [Hq Hin].
      match type of Hcr with
      | context [Encoder.encoder_init_mpp (Some ?e0) h1] =>
        pose proof (encoder_init_mpp_keeps_live e0 h1 _ Hin) as Hkeep;
        destruct (encoder_init_mpp_ok e0 h1) as (ctx & api & fg & pg & h2 & Hi);
        rewrite Hi in Hcr, Hkeep
      end.
      cbn in Hcr, Hkeep. injection Hcr as <- _ <-.
      split; assumption. }
    destruct Hblock as [Hpn Hin].
    split; [exact Hpn|]. split; [exact Hin|].
    split; [exact (encoder_created_ready c e Hcre)|].
    exists c. split; [reflexivity | exact Hcre].
Qed.

Lemma encoder_create_exact_witness :
  (exists p e,
     fst (Encoder.rkmpp_encoder_create
            (Some (mkEncoderConfig 1920 1080 30 4000000 90 12)) empty_heap)
     = Some (p, e)) /\
  (1 = Z.pos (next_block empty_heap) /\
   In (1, Sizeof_RkmppEncoder)
      (live (snd (Encoder.rkmpp_encoder_create
                    (Some (mkEncoderConfig 1920 1080 30 4000000 90 12)) empty_heap))) /\
   encoder_ready
     (Encoder.mkEncoder 2 3 4 5 1920 1080 30 4000000 90 0 0 MutexUnlocked 1 0) /\
   exists c,
     Some (mkEncoderConfig 1920 1080 30 4000000 90 12) = Some c /\
     encoder_created c
       (Encoder.mkEncoder 2 3 4 5 1920 1080 30 4000000 90 0 0 MutexUnlocked 1 0)).
Proof.
  destruct (encoder_create_exact
              (Some (mkEncoderConfig 1920 1080 30 4000000 90 12)) empty_heap)
    as [Hiff Hhandle].
  split.
  - apply Hiff. split; [reflexivity | exact I].
  - apply (Hhandle 1
             (Encoder.mkEncoder 2 3 4 5 1920 1080 30 4000000 90 0 0 MutexUnlocked 1 0)
             (snd (Encoder.rkmpp_encoder_create
                     (Some (mkEncoderConfig 1920 1080 30 4000000 90 12)) empty_heap))).
    reflexivity.
Defined.

(** X6.  [rkmpp_decoder_create] returns a handle exactly when the
    configuration is present, passes validation, and [malloc] has a block
    for the session.  The handle is then the block [malloc] handed out,
    which is live with the size of the session; the session is Ready, holds
    max_width, max_height and output_format of the configuration, and
    starts with both counters at 0 and the lock released. *)
Theorem decoder_create_exact
    (config : option RkmppDecoderConfig) (h : Heap) :
  ((exists p d, fst (Decoder.rkmpp_decoder_create config h) = Some (p, d)) <->
   (Decoder.validate_decoder_config config = 0 /\ malloc_succeeds h)) /\
  (forall p d h',
     Decoder.rkmpp_decoder_create config h = (Some (p, d), h') ->
     p = Z.pos (next_block h) /\
     In (p, Sizeof_RkmppDecoder) (live h') /\
     decoder_ready d /\
     exists c, config = Some c /\ decoder_created c d).
Proof.
  split.
  - split.
    + intros (p & d & Hc).
      destruct (Decoder.rkmpp_decoder_create config h) as [r h'] eqn:Hcr.
      cbn [fst] in Hc. subst r.
      destruct (decoder_create_handle _ _ _ _ _ Hcr) as (c & -> & Hv & _ & _).
      split; [exact Hv|].
      destruct (malloc_succeeds_dec h) as [Hm|Hm]; [exact Hm|].
      destruct (malloc_fails_null Sizeof_RkmppDecoder h Hm) as [Hnull _].
      destruct (decoder_create_after_validation c h Hv)
        as [[_ Hn] | (d0 & h0 & _ & Hp & _)].
      * rewrite Hcr in Hn. discriminate Hn.
      * contradiction.
    + intros [Hv Hm].
      destruct config as [c|]; [|discriminate Hv].
      destruct (malloc_succeeds_block Sizeof_RkmppDecoder h Hm) as [h1 Hb].
      destruct (decoder_create_after_validation c h Hv)
        as [[Hnull _] | (d & h' & Hc & _ & _)].
      * rewrite Hb in Hnull. discriminate Hnull.
      * rewrite Hc. eexists. eexists. reflexivity.
  - intros p d h' Hcr.
    destruct (decoder_create_handle _ _ _ _ _ Hcr) as (c & -> & Hv & Hp & Hcre).
    assert (Hblock : p = Z.pos (next_block h) /\
                     In (p, Sizeof_RkmppDecoder) (live h')).
    { unfold Decoder.rkmpp_decoder_create in Hcr. rewrite Hv in Hcr.
      cbn [Z.eqb negb] in Hcr. unfold bind in Hcr. cbv beta in Hcr.
      assert (Hlive : fst (malloc Sizeof_RkmppDecoder h) <> NULL ->
                      fst (malloc Sizeof_RkmppDecoder h) = Z.pos (next_block h) /\
                      In (fst (malloc Sizeof_RkmppDecoder h), Sizeof_RkmppDecoder)
                         (live (snd (malloc Sizeof_RkmppDecoder h)))).
      { unfold malloc, alloc_block.
        destruct (oracle h) as [|[|] o]; cbn; intros Hn;
          try (split; [reflexivity | left; reflexivity]).
        exfalso. apply Hn. reflexivity. }
      destruct (malloc Sizeof_RkmppDecoder h) as [q h1]. cbn [fst snd] in Hlive.
      destruct (q =? NULL) eqn:Eq; [discriminate Hcr|].
      apply Z.eqb_neq in Eq. destruct (Hlive Eq) as [Hq Hin].
      match type of Hcr with
      | context [Decoder.decoder_init_mpp (Some ?d0) h1] =>
        pose proof (decoder_init_mpp_keeps_live d0 h1 _ Hin) as Hkeep;
        destruct (decoder_init_mpp_ok d0 h1) as (ctx & api & fg & pg & h2 & Hi);
        rewrite Hi in Hcr, Hkeep
      end.
      cbn in Hcr, Hkeep. injection Hcr as <- _ <-.
      split; assumption. }
    destruct Hblock as [Hpn Hin].
    split; [exact Hpn|]. split; [exact Hin|].
    split; [exact (decoder_created_ready c d Hcre)|].
    exists c. split; [reflexivity | exact Hcre].
Qed.

Lemma decoder_create_exact_witness :
  (exists p d,
     fst (Decoder.rkmpp_decoder_create (Some (mkDecoderConfig 1920 1080 0)) empty_heap)
     = Some (p, d)) /\
  (1 = Z.pos (next_block empty_heap) /\
   In (1, Sizeof_RkmppDecoder)
      (live (snd (Decoder.rkmpp_decoder_create
                    (Some (mkDecoderConfig 1920 1080 0)) empty_heap))) /\
   decoder_ready (Decoder.mkDecoder 2 3 4 5 1920 1080 0 0 0 MutexUnlocked 1 0) /\
   exists c,
     Some (mkDecoderConfig 1920 1080 0) = Some c /\
     decoder_created c (Decoder.mkDecoder 2 3 4 5 1920 1080 0 0 0 MutexUnlocked 1 0)).
Proof.
  destruct (decoder_create_exact (Some (mkDecoderConfig 1920 1080 0)) empty_heap)
    as [Hiff Hhandle].
  split.
  - apply Hiff. split; [reflexivity | exact I].
  - apply (Hhandle 1
             (Decoder.mkDecoder 2 3 4 5 1920 1080 0 0 0 MutexUnlocked 1 0)
             (snd (Decoder.rkmpp_decoder_create
                     (Some (mkDecoderConfig 1920 1080 0)) empty_heap))).
    reflexivity.
Defined.

(** X7.  The mock backend does not test what [malloc] returns.  When the
    block of the session is handed out and the allocations of the backend
    that follow fail, creation still returns a Ready session; its backend
    pointers are [NULL], and it encodes as any other session does. *)
Theorem encoder_create_ignores_backend_allocation
    (c : RkmppEncoderConfig) (h : Heap) (o : list bool)
    (src dst : list byte) (len : Z) :
  Encoder.validate_encoder_config (Some c) = 0 ->
  oracle h = true :: false :: false :: false :: false :: o ->
  exists p e h',
    Encoder.rkmpp_encoder_create (Some c) h = (Some (p, e), h') /\
    encoder_ready e /\
    Encoder.mpp_ctx e = NULL /\ Encoder.mpi e = NULL /\
    Encoder.frame_group e = NULL /\ Encoder.packet_group e = NULL /\
    live h' = (p, Sizeof_RkmppEncoder) :: live h /\
    let size := rkmpp_get_nv12_size (ecfg_width c) (ecfg_height c) in
    Encoder.status
      (Encoder.rkmpp_encoder_encode (Some e) (Some src) size (Some dst) size
                                    (Some len))
    = RKMPP_OK.
Proof.
  intros Hv Ho. destruct h as [l n orc]. cbn in Ho. subst orc.
  exists (Z.pos n).
  exists (Encoder.mkEncoder NULL NULL NULL NULL
            (ecfg_width c) (ecfg_height c) (ecfg_fps c) (ecfg_bitrate c)
            (if negb (ecfg_quality c =? 0) then ecfg_quality c else 80)
            0 0 MutexUnlocked 1 0).
  exists (mkHeap ((Z.pos n, Sizeof_RkmppEncoder) :: l) (Pos.succ n) o).
  split.
  { unfold Encoder.rkmpp_encoder_create. rewrite Hv. reflexivity. }
  assert (Hr : encoder_ready
                 (Encoder.mkEncoder NULL NULL NULL NULL
                    (ecfg_width c) (ecfg_height c) (ecfg_fps c) (ecfg_bitrate c)
                    (if negb (ecfg_quality c =? 0) then ecfg_quality c else 80)
                    0 0 MutexUnlocked 1 0))
    by (unfold encoder_ready; cbn; discriminate).
  split; [exact Hr|].
  repeat (split; [reflexivity|]).
  cbv zeta.
  rewrite encode_accepted; [reflexivity | exact Hr | apply Z.le_refl | apply Z.le_refl].
Qed.

Lemma encoder_create_ignores_backend_allocation_witness :
  exists p e h',
    Encoder.rkmpp_encoder_create
      (Some (mkEncoderConfig 16 16 30 0 80 0))
      (mkHeap [] 1%positive [true; false; false; false; false])
    = (Some (p, e), h') /\
    encoder_ready e /\
    Encoder.mpp_ctx e = NULL /\ Encoder.mpi e = NULL /\
    Encoder.frame_group e = NULL /\ Encoder.packet_group e = NULL /\
    live h' = [(p, Sizeof_RkmppEncoder)] /\
    Encoder.status
      (Encoder.rkmpp_encoder_encode
         (Some e) (Some (repeat x80 384)) (rkmpp_get_nv12_size 16 16)
         (Some (repeat x00 384)) (rkmpp_get_nv12_size 16 16) (Some 0))
    = RKMPP_OK.
Proof.
  apply (encoder_create_ignores_backend_allocation
           (mkEncoderConfig 16 16 30 0 80 0)
           (mkHeap [] 1%positive [true; false; false; false; false]) []);
    reflexivity.
Defined.

(** X8.  A creation that returns [NULL] leaves no block behind: the live
    blocks are those from before the call, for the encoder and for the
    decoder, whatever the reason of the failure. *)
Theorem failed_create_leaks_nothing :
  (forall (config : option RkmppEncoderConfig) (h : Heap),
     fst (Encoder.rkmpp_encoder_create config h) = None ->
     live (snd (Encoder.rkmpp_encoder_create config h)) = live h) /\
  (forall (config : option RkmppDecoderConfig) (h : Heap),
     fst (Decoder.rkmpp_decoder_create config h) = None ->
     live (snd (Decoder.rkmpp_decoder_create config h)) = live h).
Proof.
  split; intros config h Hnone.
  - destruct config as [c|]; [|reflexivity].
    destruct (Encoder.validate_encoder_config (Some c) =? 0) eqn:Ev.
    + apply Z.eqb_eq in Ev.
      destruct (malloc_succeeds_dec h) as [Hm|Hm].
      * exfalso.
        destruct (malloc_succeeds_block Sizeof_RkmppEncoder h Hm) as [h1 Hb].
        destruct (encoder_create_after_validation c h Ev)
          as [[Hnull _] | (e & h' & Hs & _ & _)].
        -- rewrite Hb in Hnull. discriminate Hnull.
        -- rewrite Hs in Hnone. discriminate Hnone.
      * destruct (malloc_fails_null Sizeof_RkmppEncoder h Hm) as [Hnull Hlive].
        unfold Encoder.rkmpp_encoder_create. rewrite Ev.
        cbn [Z.eqb negb]. unfold bind. cbv beta.
        destruct (malloc Sizeof_RkmppEncoder h) as [q h1].
        cbn [fst snd] in Hnull, Hlive. subst q. cbn. exact Hlive.
    + unfold Encoder.rkmpp_encoder_create. rewrite Ev. reflexivity.
  - destruct config as [c|]; [|reflexivity].
    destruct (Decoder.validate_decoder_config (Some c) =? 0) eqn:Ev.
    + apply Z.eqb_eq in Ev.
      destruct (malloc_succeeds_dec h) as [Hm|Hm].
      * exfalso.
        destruct (malloc_succeeds_block Sizeof_RkmppDecoder h Hm) as [h1 Hb].
        destruct (decoder_create_after_validation c h Ev)
          as [[Hnull _] | (d & h' & Hs & _ & _)].
        -- rewrite Hb in Hnull. discriminate Hnull.
        -- rewrite Hs in Hnone. discriminate Hnone.
      * destruct (malloc_fails_null Sizeof_RkmppDecoder h Hm) as [Hnull Hlive].
        unfold Decoder.rkmpp_decoder_create. rewrite Ev.
        cbn [Z.eqb negb]. unfold bind. cbv beta.
        destruct (malloc Sizeof_RkmppDecoder h) as [q h1].
        cbn [fst snd] in Hnull, Hlive. subst q. cbn. exact Hlive.
    + unfold Decoder.rkmpp_decoder_create. rewrite Ev. reflexivity.
Qed.

Lemma failed_create_leaks_nothing_witness :
  live (snd (Encoder.rkmpp_encoder_create
               (Some (mkEncoderConfig 640 480 30 0 80 0))
               (mkHeap [(1, Bytes 1)] 2%positive [false])))
    = [(1, Bytes 1)] /\
  live (snd (Decoder.rkmpp_decoder_create
               (Some (mkDecoderConfig 8 8 0))
               (mkHeap [(1, Bytes 1)] 2%positive [])))
    = [(1, Bytes 1)].
Proof.
  destruct failed_create_leaks_nothing as [He Hd].
  split.
  - apply (He (Some (mkEncoderConfig 640 480 30 0 80 0))
              (mkHeap [(1, Bytes 1)] 2%positive [false])).
    reflexivity.
  - apply (Hd (Some (mkDecoderConfig 8 8 0))
              (mkHeap [(1, Bytes 1)] 2%positive [])).
    reflexivity.
Defined.

(** ** Creation followed by destruction *)

(** Takes the next outcome off the oracle of a heap whose coming calls of
    [malloc] succeed. *)
Ltac next_outcome Hm o finish :=
  destruct o as [|? o];
  [ finish
  | cbn [firstn] in Hm; apply Forall_cons_iff in Hm;
    destruct Hm as [? Hm]; subst ].

(** With five blocks at hand, creation takes five consecutive blocks: the
    session, the context, the interface, the frame group, the packet group. *)
Lemma encoder_create_blocks (c : RkmppEncoderConfig)
      (l : list (ptr * csize)) (n : positive) (o : list bool) :
  Encoder.validate_encoder_config (Some c) = 0 ->
  mallocs_succeed 5 (mkHeap l n o) ->
  exists o',
    Encoder.rkmpp_encoder_create (Some c) (mkHeap l n o)
    = (Some (Z.pos n,
             Encoder.mkEncoder
               (Z.pos (Pos.succ n))
               (Z.pos (Pos.succ (Pos.succ n)))
               (Z.pos (Pos.succ (Pos.succ (Pos.succ n))))
               (Z.pos (Pos.succ (Pos.succ (Pos.succ (Pos.succ n)))))
               (ecfg_width c) (ecfg_height c) (ecfg_fps c) (ecfg_bitrate c)
               (if negb (ecfg_quality c =? 0) then ecfg_quality c else 80)
               0 0 MutexUnlocked 1 0),
       mkHeap ((Z.pos (Pos.succ (Pos.succ (Pos.succ (Pos.succ n)))), Bytes 1)
               :: (Z.pos (Pos.succ (Pos.succ (Pos.succ n))), Bytes 1)
               :: (Z.pos (Pos.succ (Pos.succ n)), Bytes 1)
               :: (Z.pos (Pos.succ n), Bytes 1)
               :: (Z.pos n, Sizeof_RkmppEncoder) :: l)
              (Pos.succ (Pos.succ (Pos.succ (Pos.succ (Pos.succ n)))))
              o').
Proof.
  intros Hv Hm. unfold mallocs_succeed in Hm. cbn [oracle] in Hm.
  do 5 (next_outcome Hm o
          ltac:(eexists; unfold Encoder.rkmpp_encoder_create; rewrite Hv;
                reflexivity)).
  eexists. unfold Encoder.rkmpp_encoder_create. rewrite Hv. reflexivity.
Qed.

Lemma decoder_create_blocks (c : RkmppDecoderConfig)
      (l : list (ptr * csize)) (n : positive) (o : list bool) :
  Decoder.validate_decoder_config (Some c) = 0 ->
  mallocs_succeed 5 (mkHeap l n o) ->
  exists o',
    Decoder.rkmpp_decoder_create (Some c) (mkHeap l n o)
    = (Some (Z.pos n,
             Decoder.mkDecoder
               (Z.pos (Pos.succ n))
               (Z.pos (Pos.succ (Pos.succ n)))
               (Z.pos (Pos.succ (Pos.succ (Pos.succ n))))
               (Z.pos (Pos.succ (Pos.succ (Pos.succ (Pos.succ n)))))
               (dcfg_max_width c) (dcfg_max_height c) (dcfg_output_format c)
               0 0 MutexUnlocked 1 0),
       mkHeap ((Z.pos (Pos.succ (Pos.succ (Pos.succ (Pos.succ n)))), Bytes 1)
               :: (Z.pos (Pos.succ (Pos.succ (Pos.succ n))), Bytes 1)
               :: (Z.pos (Pos.succ (Pos.succ n)), Bytes 1)
               :: (Z.pos (Pos.succ n), Bytes 1)
               :: (Z.pos n, Sizeof_RkmppDecoder) :: l)
              (Pos.succ (Pos.succ (Pos.succ (Pos.succ (Pos.succ n)))))
              o').
Proof.
  intros Hv Hm. unfold mallocs_succeed in Hm. cbn [oracle] in Hm.
  do 5 (next_outcome Hm o
          ltac:(eexists; unfold Decoder.rkmpp_decoder_create; rewrite Hv;
                reflexivity)).
  eexists. unfold Decoder.rkmpp_decoder_create. rewrite Hv. reflexivity.
Qed.

(** Freeing a block whose number no older block has leaves the older blocks
    alone. *)
Lemma filter_older_blocks (l : list (ptr * csize)) (n : positive) (p : ptr) :
  Forall (fun b => 0 < fst b < Z.pos n) l -> Z.pos n <= p ->
  filter (fun b => negb (fst b =? p)) l = l.
Proof.
  intros Hwf Hp. induction Hwf as [|b l Hb _ IH]; [reflexivity|].
  cbn [filter].
  replace (fst b =? p) with false by (symmetry; apply Z.eqb_neq; lia).
  cbn [negb]. rewrite IH. reflexivity.
Qed.

Lemma free_block (q : ptr) (h : Heap) :
  q <> NULL ->
  free q h = (tt, mkHeap (without_block q (live h)) (next_block h) (oracle h)).
Proof.
  intros Hq. unfold free.
  replace (q =? NULL) with false by (symmetry; apply Z.eqb_neq; exact Hq).
  reflexivity.
Qed.

Lemma mpp_buffer_group_put_block (g : ptr) (h : Heap) :
  g <> NULL ->
  mpp_buffer_group_put g h
  = (0, mkHeap (without_block g (live h)) (next_block h) (oracle h)).
Proof.
  intros Hg. unfold mpp_buffer_group_put, bind, ret.
  replace (g =? NULL) with false by (symmetry; apply Z.eqb_neq; exact Hg).
  cbn [negb]. rewrite (free_block g h Hg). reflexivity.
Qed.

Lemma mpp_destroy_block (ctx : ptr) (h : Heap) :
  ctx <> NULL ->
  mpp_destroy ctx h
  = (0, mkHeap (without_block ctx (live h)) (next_block h) (oracle h)).
Proof.
  intros Hc. unfold mpp_destroy, bind, ret.
  replace (ctx =? NULL) with false by (symmetry; apply Z.eqb_neq; exact Hc).
  cbn [negb]. rewrite (free_block ctx h Hc). reflexivity.
Qed.

(** Cleanup of a session whose context and buffer groups are all there. *)
Lemma encoder_cleanup_mpp_full (e : Encoder.RkmppEncoder) (h : Heap) :
  Encoder.packet_group e <> NULL -> Encoder.frame_group e <> NULL ->
  Encoder.mpp_ctx e <> NULL ->
  Encoder.encoder_cleanup_mpp (Some e) h
  = (Some (Encoder.set_mpi
             (Encoder.set_mpp_ctx
                (Encoder.set_frame_group (Encoder.set_packet_group e NULL) NULL)
                NULL) NULL),
     mkHeap (without_block (Encoder.mpp_ctx e)
               (without_block (Encoder.frame_group e)
                  (without_block (Encoder.packet_group e) (live h))))
            (next_block h) (oracle h)).
Proof.
  intros Hp Hf Hc. unfold Encoder.encoder_cleanup_mpp, bind, ret.
  replace (Encoder.packet_group e =? NULL) with false
    by (symmetry; apply Z.eqb_neq; exact Hp).
  cbn [negb]. rewrite (mpp_buffer_group_put_block _ h Hp).
  cbn [Encoder.frame_group Encoder.mpp_ctx Encoder.set_packet_group Encoder.set_frame_group].
  replace (Encoder.frame_group e =? NULL) with false
    by (symmetry; apply Z.eqb_neq; exact Hf).
  cbn [negb]. rewrite (mpp_buffer_group_put_block _ _ Hf).
  cbn [Encoder.frame_group Encoder.mpp_ctx Encoder.set_packet_group Encoder.set_frame_group].
  replace (Encoder.mpp_ctx e =? NULL) with false
    by (symmetry; apply Z.eqb_neq; exact Hc).
  cbn [negb]. rewrite (mpp_destroy_block _ _ Hc).
  reflexivity.
Qed.

Lemma decoder_cleanup_mpp_full (d : Decoder.RkmppDecoder) (h : Heap) :
  Decoder.packet_group d <> NULL -> Decoder.frame_group d <> NULL ->
  Decoder.mpp_ctx d <> NULL ->
  Decoder.decoder_cleanup_mpp (Some d) h
  = (Some (Decoder.set_mpi
             (Decoder.set_mpp_ctx
                (Decoder.set_frame_group (Decoder.set_packet_group d NULL) NULL)
                NULL) NULL),
     mkHeap (without_block (Decoder.mpp_ctx d)
               (without_block (Decoder.frame_group d)
                  (without_block (Decoder.packet_group d) (live h))))
            (next_block h) (oracle h)).
Proof.
  intros Hp Hf Hc. unfold Decoder.decoder_cleanup_mpp, bind, ret.
  replace (Decoder.packet_group d =? NULL) with false
    by (symmetry; apply Z.eqb_neq; exact Hp).
  cbn [negb]. rewrite (mpp_buffer_group_put_block _ h Hp).
  cbn [Decoder.frame_group Decoder.mpp_ctx Decoder.set_packet_group Decoder.set_frame_group].
  replace (Decoder.frame_group d =? NULL) with false
    by (symmetry; apply Z.eqb_neq; exact Hf).
  cbn [negb]. rewrite (mpp_buffer_group_put_block _ _ Hf).
  cbn [Decoder.frame_group Decoder.mpp_ctx Decoder.set_packet_group Decoder.set_frame_group].
  replace (Decoder.mpp_ctx d =? NULL) with false
    by (symmetry; apply Z.eqb_neq; exact Hc).
  cbn [negb]. rewrite (mpp_destroy_block _ _ Hc).
  reflexivity.
Qed.

(** Settles the comparisons between block numbers. *)
Ltac decide_block_tests :=
  repeat match goal with
  | |- context [Z.pos ?x =? ?y] =>
    first [ replace (Z.pos x =? y) with true
              by (symmetry; apply Z.eqb_eq; unfold NULL; lia)
          | replace (Z.pos x =? y) with false
              by (symmetry; apply Z.eqb_neq; unfold NULL; lia) ]
  end.

(** X9.  On a well-formed heap with five blocks at hand, creating a session
    and destroying it returns [RKMPP_OK] and releases the session, the
    context and the two buffer groups.  The block that [mpp_create]
    allocated for the interface pointer [mpi] is not released: it is the one
    block that is live afterwards and was not before. *)
Theorem create_destroy_footprint :
  (forall (c : RkmppEncoderConfig) (h : Heap),
     Encoder.validate_encoder_config (Some c) = 0 ->
     heap_wf h -> mallocs_succeed 5 h ->
     exists p e h1 h2,
       Encoder.rkmpp_encoder_create (Some c) h = (Some (p, e), h1) /\
       Encoder.rkmpp_encoder_destroy (Some (p, e)) h1 = (RKMPP_OK, h2) /\
       Encoder.mpi e <> NULL /\
       live h2 = (Encoder.mpi e, Bytes 1) :: live h) /\
  (forall (c : RkmppDecoderConfig) (h : Heap),
     Decoder.validate_decoder_config (Some c) = 0 ->
     heap_wf h -> mallocs_succeed 5 h ->
     exists p d h1 h2,
       Decoder.rkmpp_decoder_create (Some c) h = (Some (p, d), h1) /\
       Decoder.rkmpp_decoder_destroy (Some (p, d)) h1 = (RKMPP_OK, h2) /\
       Decoder.mpi d <> NULL /\
       live h2 = (Decoder.mpi d, Bytes 1) :: live h).
Proof.
  split.
  - intros c [l n o] Hv Hwf Hm. unfold heap_wf in Hwf. cbn [live next_block] in Hwf.
    destruct (encoder_create_blocks c l n o Hv Hm) as [o' Hc].
    rewrite Hc. eexists. eexists. eexists. eexists.
    split; [reflexivity|].
    unfold Encoder.rkmpp_encoder_destroy, bind, ret.
    cbn [Encoder.initialized Z.eqb negb].
    rewrite encoder_cleanup_mpp_full by (cbn; discriminate).
    rewrite free_block by discriminate.
    cbn [live next_block oracle Encoder.mpp_ctx Encoder.frame_group
         Encoder.packet_group Encoder.mpi].
    split; [|split; [discriminate|]].
    + reflexivity.
    + unfold without_block.
      repeat (cbn [filter fst negb]; decide_block_tests;
              try rewrite (filter_older_blocks l n) by (assumption || lia)).
      reflexivity.
  - intros c [l n o] Hv Hwf Hm. unfold heap_wf in Hwf. cbn [live next_block] in Hwf.
    destruct (decoder_create_blocks c l n o Hv Hm) as [o' Hc].
    rewrite Hc. eexists. eexists. eexists. eexists.
    split; [reflexivity|].
    unfold Decoder.rkmpp_decoder_destroy, bind, ret.
    cbn [Decoder.initialized Z.eqb negb].
    rewrite decoder_cleanup_mpp_full by (cbn; discriminate).
    rewrite free_block by discriminate.
    cbn [live next_block oracle Decoder.mpp_ctx Decoder.frame_group
         Decoder.packet_group Decoder.mpi].
    split; [|split; [discriminate|]].
    + reflexivity.
    + unfold without_block.
      repeat (cbn [filter fst negb]; decide_block_tests;
              try rewrite (filter_older_blocks l n) by (assumption || lia)).
      reflexivity.
Qed.

Lemma create_destroy_footprint_witness :
  (exists p e h1 h2,
     Encoder.rkmpp_encoder_create (Some (mkEncoderConfig 640 480 30 0 80 0)) empty_heap
       = (Some (p, e), h1) /\
     Encoder.rkmpp_encoder_destroy (Some (p, e)) h1 = (RKMPP_OK, h2) /\
     Encoder.mpi e <> NULL /\
     live h2 = (Encoder.mpi e, Bytes 1) :: live empty_heap) /\
  (exists p d h1 h2,
     Decoder.rkmpp_decoder_create (Some (mkDecoderConfig 640 480 0)) empty_heap
       = (Some (p, d), h1) /\
     Decoder.rkmpp_decoder_destroy (Some (p, d)) h1 = (RKMPP_OK, h2) /\
     Decoder.mpi d <> NULL /\
     live h2 = (Decoder.mpi d, Bytes 1) :: live empty_heap).
Proof.
  destruct create_destroy_footprint as [He Hd].
  split.
  - apply He; [reflexivity | constructor | constructor].
  - apply Hd; [reflexivity | constructor | constructor].
Defined.

(** ** Destruction and cleanup on any session *)

Lemma without_block_incl (p : ptr) (l : list (ptr * csize)) :
  incl (without_block p l) l.
Proof. unfold without_block. apply incl_filter. Qed.

Lemma without_block_absent (p : ptr) (l : list (ptr * csize)) :
  ~ In p (map fst (without_block p l)).
Proof.
  unfold without_block. intros Hin.
  apply in_map_iff in Hin. destruct Hin as (b & Hb & Hf).
  apply filter_In in Hf. destruct Hf as [_ Hf].
  apply negb_true_iff, Z.eqb_neq in Hf. contradiction.
Qed.

(** Releasing through a pointer that may be [NULL] never adds a block and
    leaves the rest of the allocator alone. *)
Lemma free_shrinks (q : ptr) (h : Heap) :
  incl (live (snd (free q h))) (live h) /\
  next_block (snd (free q h)) = next_block h /\
  oracle (snd (free q h)) = oracle h.
Proof.
  unfold free. destruct (q =? NULL); cbn.
  - repeat split; try reflexivity. apply incl_refl.
  - repeat split; try reflexivity. apply without_block_incl.
Qed.

Lemma mpp_buffer_group_put_shrinks (g : ptr) (h : Heap) :
  incl (live (snd (mpp_buffer_group_put g h))) (live h) /\
  next_block (snd (mpp_buffer_group_put g h)) = next_block h /\
  oracle (snd (mpp_buffer_group_put g h)) = oracle h.
Proof.
  unfold mpp_buffer_group_put, bind, ret.
  destruct (negb (g =? NULL)).
  - pose proof (free_shrinks g h) as H. destruct (free g h) as [u h']. exact H.
  - cbn. repeat split; try reflexivity. apply incl_refl.
Qed.

Lemma mpp_destroy_shrinks (ctx : ptr) (h : Heap) :
  incl (live (snd (mpp_destroy ctx h))) (live h) /\
  next_block (snd (mpp_destroy ctx h)) = next_block h /\
  oracle (snd (mpp_destroy ctx h)) = oracle h.
Proof.
  unfold mpp_destroy, bind, ret.
  destruct (negb (ctx =? NULL)).
  - pose proof (free_shrinks ctx h) as H. destruct (free ctx h) as [u h']. exact H.
  - cbn. repeat split; try reflexivity. apply incl_refl.
Qed.

(** Combines two steps that only release blocks. *)
Lemma shrinks_trans (h0 h1 h2 : Heap) :
  incl (live h1) (live h0) /\ next_block h1 = next_block h0 /\ oracle h1 = oracle h0 ->
  incl (live h2) (live h1) /\ next_block h2 = next_block h1 /\ oracle h2 = oracle h1 ->
  incl (live h2) (live h0) /\ next_block h2 = next_block h0 /\ oracle h2 = oracle h0.
Proof.
  intros (I1 & N1 & O1) (I2 & N2 & O2).
  repeat split; [eapply incl_tran; eassumption | congruence | congruence].
Qed.

(** Cleanup of any session: the four backend pointers end up [NULL], the
    rest of the session is kept, and no block appears. *)
Lemma encoder_cleanup_mpp_any (e : Encoder.RkmppEncoder) (h : Heap) :
  fst (Encoder.encoder_cleanup_mpp (Some e) h)
    = Some (Encoder.set_packet_group
              (Encoder.set_frame_group (Encoder.set_mpp e NULL NULL) NULL) NULL) /\
  incl (live (snd (Encoder.encoder_cleanup_mpp (Some e) h))) (live h) /\
  next_block (snd (Encoder.encoder_cleanup_mpp (Some e) h)) = next_block h /\
  oracle (snd (Encoder.encoder_cleanup_mpp (Some e) h)) = oracle h.
Proof.
  unfold Encoder.encoder_cleanup_mpp, bind, ret.
  pose proof (mpp_buffer_group_put_shrinks (Encoder.packet_group e) h) as S1.
  destruct (Encoder.packet_group e =? NULL) eqn:E1; cbn [negb].
  - clear S1.
    pose proof (mpp_buffer_group_put_shrinks (Encoder.frame_group e) h) as S2.
    destruct (Encoder.frame_group e =? NULL) eqn:E2; cbn [negb].
    + clear S2.
      pose proof (mpp_destroy_shrinks (Encoder.mpp_ctx e) h) as S3.
      destruct (Encoder.mpp_ctx e =? NULL) eqn:E3; cbn [negb].
      * apply Z.eqb_eq in E1, E2, E3. destruct e; cbn in *; subst.
        repeat split; try reflexivity. apply incl_refl.
      * destruct (mpp_destroy (Encoder.mpp_ctx e) h) as [u h3].
        apply Z.eqb_eq in E1, E2. destruct e; cbn in *; subst.
        split; [reflexivity | exact S3].
    + destruct (mpp_buffer_group_put (Encoder.frame_group e) h) as [u h2].
      cbn [Encoder.mpp_ctx Encoder.set_frame_group].
      pose proof (mpp_destroy_shrinks (Encoder.mpp_ctx e) h2) as S3.
      destruct (Encoder.mpp_ctx e =? NULL) eqn:E3; cbn [negb].
      * apply Z.eqb_eq in E1, E3. destruct e; cbn in *; subst.
        split; [reflexivity | exact S2].
      * destruct (mpp_destroy (Encoder.mpp_ctx e) h2) as [u3 h3].
        apply Z.eqb_eq in E1. destruct e; cbn in *; subst.
        split; [reflexivity | exact (shrinks_trans _ _ _ S2 S3)].
  - destruct (mpp_buffer_group_put (Encoder.packet_group e) h) as [u h1].
    cbn [Encoder.frame_group Encoder.set_packet_group].
    pose proof (mpp_buffer_group_put_shrinks (Encoder.frame_group e) h1) as S2.
    destruct (Encoder.frame_group e =? NULL) eqn:E2; cbn [negb].
    + clear S2.
      cbn [Encoder.mpp_ctx Encoder.set_packet_group].
      pose proof (mpp_destroy_shrinks (Encoder.mpp_ctx e) h1) as S3.
      destruct (Encoder.mpp_ctx e =? NULL) eqn:E3; cbn [negb].
      * apply Z.eqb_eq in E2, E3. destruct e; cbn in *; subst.
        split; [reflexivity | exact S1].
      * destruct (mpp_destroy (Encoder.mpp_ctx e) h1) as [u3 h3].
        apply Z.eqb_eq in E2. destruct e; cbn in *; subst.
        split; [reflexivity | exact (shrinks_trans _ _ _ S1 S3)].
    + destruct (mpp_buffer_group_put (Encoder.frame_group e) h1) as [u2 h2].
      cbn [Encoder.mpp_ctx Encoder.set_frame_group Encoder.set_packet_group].
      pose proof (mpp_destroy_shrinks (Encoder.mpp_ctx e) h2) as S3.
      destruct (Encoder.mpp_ctx e =? NULL) eqn:E3; cbn [negb].
      * apply Z.eqb_eq in E3. destruct e; cbn in *; subst.
        split; [reflexivity | exact (shrinks_trans _ _ _ S1 S2)].
      * destruct (mpp_destroy (Encoder.mpp_ctx e) h2) as [u3 h3].
        destruct e; cbn in *.
        split; [reflexivity
               | exact (shrinks_trans _ _ _ (shrinks_trans _ _ _ S1 S2) S3)].
Qed.

Lemma decoder_cleanup_mpp_any (d : Decoder.RkmppDecoder) (h : Heap) :
  fst (Decoder.decoder_cleanup_mpp (Some d) h)
    = Some (Decoder.set_packet_group
              (Decoder.set_frame_group (Decoder.set_mpp d NULL NULL) NULL) NULL) /\
  incl (live (snd (Decoder.decoder_cleanup_mpp (Some d) h))) (live h) /\
  next_block (snd (Decoder.decoder_cleanup_mpp (Some d) h)) = next_block h /\
  oracle (snd (Decoder.decoder_cleanup_mpp (Some d) h)) = oracle h.
Proof.
  unfold Decoder.decoder_cleanup_mpp, bind, ret.
  pose proof (mpp_buffer_group_put_shrinks (Decoder.packet_group d) h) as S1.
  destruct (Decoder.packet_group d =? NULL) eqn:E1; cbn [negb].
  - clear S1.
    pose proof (mpp_buffer_group_put_shrinks (Decoder.frame_group d) h) as S2.
    destruct (Decoder.frame_group d =? NULL) eqn:E2; cbn [negb].
    + clear S2.
      pose proof (mpp_destroy_shrinks (Decoder.mpp_ctx d) h) as S3.
      destruct (Decoder.mpp_ctx d =? NULL) eqn:E3; cbn [negb].
      * apply Z.eqb_eq in E1, E2, E3. destruct d; cbn in *; subst.
        repeat split; try reflexivity. apply incl_refl.
      * destruct (mpp_destroy (Decoder.mpp_ctx d) h) as [u h3].
        apply Z.eqb_eq in E1, E2. destruct d; cbn in *; subst.
        split; [reflexivity | exact S3].
    + destruct (mpp_buffer_group_put (Decoder.frame_group d) h) as [u h2].
      cbn [Decoder.mpp_ctx Decoder.set_frame_group].
      pose proof (mpp_destroy_shrinks (Decoder.mpp_ctx d) h2) as S3.
      destruct (Decoder.mpp_ctx d =? NULL) eqn:E3; cbn [negb].
      * apply Z.eqb_eq in E1, E3. destruct d; cbn in *; subst.
        split; [reflexivity | exact S2].
      * destruct (mpp_destroy (Decoder.mpp_ctx d) h2) as [u3 h3].
        apply Z.eqb_eq in E1. destruct d; cbn in *; subst.
        split; [reflexivity | exact (shrinks_trans _ _ _ S2 S3)].
  - destruct (mpp_buffer_group_put (Decoder.packet_group d) h) as [u h1].
    cbn [Decoder.frame_group Decoder.set_packet_group].
    pose proof (mpp_buffer_group_put_shrinks (Decoder.frame_group d) h1) as S2.
    destruct (Decoder.frame_group d =? NULL) eqn:E2; cbn [negb].
    + clear S2.
      cbn [Decoder.mpp_ctx Decoder.set_packet_group].
      pose proof (mpp_destroy_shrinks (Decoder.mpp_ctx d) h1) as S3.
      destruct (Decoder.mpp_ctx d =? NULL) eqn:E3; cbn [negb].
      * apply Z.eqb_eq in E2, E3. destruct d; cbn in *; subst.
        split; [reflexivity | exact S1].
      * destruct (mpp_destroy (Decoder.mpp_ctx d) h1) as [u3 h3].
        apply Z.eqb_eq in E2. destruct d; cbn in *; subst.
        split; [reflexivity | exact (shrinks_trans _ _ _ S1 S3)].
    + destruct (mpp_buffer_group_put (Decoder.frame_group d) h1) as [u2 h2].
      cbn [Decoder.mpp_ctx Decoder.set_frame_group Decoder.set_packet_group].
      pose proof (mpp_destroy_shrinks (Decoder.mpp_ctx d) h2) as S3.
      destruct (Decoder.mpp_ctx d =? NULL) eqn:E3; cbn [negb].
      * apply Z.eqb_eq in E3. destruct d; cbn in *; subst.
        split; [reflexivity | exact (shrinks_trans _ _ _ S1 S2)].
      * destruct (mpp_destroy (Decoder.mpp_ctx d) h2) as [u3 h3].
        destruct d; cbn in *.
        split; [reflexivity
               | exact (shrinks_trans _ _ _ (shrinks_trans _ _ _ S1 S2) S3)].
Qed.

(** X10.  Destroying the [NULL] handle returns InvalidParam and touches
    nothing.  Destroying any other handle returns [RKMPP_OK], whether or
    not the session is Ready; afterwards the block of the session is not
    live and no block has appeared.  For a session whose [initialized] flag
    is clear the cleanup is skipped: the session block alone is released. *)
Theorem destroy_any_handle :
  (forall h : Heap,
     Encoder.rkmpp_encoder_destroy None h = (RKMPP_ERR_INVALID_PARAM, h) /\
     Decoder.rkmpp_decoder_destroy None h = (RKMPP_ERR_INVALID_PARAM, h)) /\
  (forall (p : ptr) (e : Encoder.RkmppEncoder) (h : Heap),
     p <> NULL ->
     fst (Encoder.rkmpp_encoder_destroy (Some (p, e)) h) = RKMPP_OK /\
     ~ In p (map fst (live (snd (Encoder.rkmpp_encoder_destroy (Some (p, e)) h)))) /\
     incl (live (snd (Encoder.rkmpp_encoder_destroy (Some (p, e)) h))) (live h) /\
     (Encoder.initialized e = 0 ->
      live (snd (Encoder.rkmpp_encoder_destroy (Some (p, e)) h))
        = without_block p (live h))) /\
  (forall (p : ptr) (d : Decoder.RkmppDecoder) (h : Heap),
     p <> NULL ->
     fst (Decoder.rkmpp_decoder_destroy (Some (p, d)) h) = RKMPP_OK /\
     ~ In p (map fst (live (snd (Decoder.rkmpp_decoder_destroy (Some (p, d)) h)))) /\
     incl (live (snd (Decoder.rkmpp_decoder_destroy (Some (p, d)) h))) (live h) /\
     (Decoder.initialized d = 0 ->
      live (snd (Decoder.rkmpp_decoder_destroy (Some (p, d)) h))
        = without_block p (live h))).
Proof.
  split; [intros h; split; reflexivity|].
  split.
  - intros p e h Hp.
    unfold Encoder.rkmpp_encoder_destroy, bind, ret.
    destruct (Encoder.initialized e =? 0) eqn:Ei; cbn [negb].
    + rewrite free_block by exact Hp. cbn.
      split; [reflexivity|].
      split; [apply without_block_absent|].
      split; [apply without_block_incl | reflexivity].
    + destruct (encoder_cleanup_mpp_any e h) as (_ & Hincl & _).
      destruct (Encoder.encoder_cleanup_mpp (Some e) h) as [oe h1].
      cbn [snd] in Hincl.
      rewrite free_block by exact Hp. cbn.
      split; [reflexivity|].
      split; [apply without_block_absent|].
      split.
      * eapply incl_tran; [apply without_block_incl | exact Hincl].
      * intros H0. apply Z.eqb_neq in Ei. contradiction.
  - intros p d h Hp.
    unfold Decoder.rkmpp_decoder_destroy, bind, ret.
    destruct (Decoder.initialized d =? 0) eqn:Ei; cbn [negb].
    + rewrite free_block by exact Hp. cbn.
      split; [reflexivity|].
      split; [apply without_block_absent|].
      split; [apply without_block_incl | reflexivity].
    + destruct (decoder_cleanup_mpp_any d h) as (_ & Hincl & _).
      destruct (Decoder.decoder_cleanup_mpp (Some d) h) as [od h1].
      cbn [snd] in Hincl.
      rewrite free_block by exact Hp. cbn.
      split; [reflexivity|].
      split; [apply without_block_absent|].
      split.
      * eapply incl_tran; [apply without_block_incl | exact Hincl].
      * intros H0. apply Z.eqb_neq in Ei. contradiction.
Qed.

Lemma destroy_any_handle_witness :
  let e := Encoder.mkEncoder 2 3 4 5 16 16 30 0 80 0 0 MutexUnlocked 0 0 in
  let h := mkHeap [(5, Bytes 1); (4, Bytes 1); (3, Bytes 1); (2, Bytes 1);
                   (1, Sizeof_RkmppEncoder)] 6%positive [] in
  fst (Encoder.rkmpp_encoder_destroy (Some (1, e)) h) = RKMPP_OK /\
  live (snd (Encoder.rkmpp_encoder_destroy (Some (1, e)) h))
    = without_block 1 (live h).
Proof.
  cbv zeta.
  destruct destroy_any_handle as (_ & He & _).
  destruct (He 1 (Encoder.mkEncoder 2 3 4 5 16 16 30 0 80 0 0 MutexUnlocked 0 0)
               (mkHeap [(5, Bytes 1); (4, Bytes 1); (3, Bytes 1); (2, Bytes 1);
                        (1, Sizeof_RkmppEncoder)] 6%positive []))
    as (Hok & _ & _ & Hskip); [discriminate|].
  split; [exact Hok | apply Hskip; reflexivity].
Defined.

(** X11.  Cleanup clears the four backend pointers and keeps every other
    field of the session; run a second time it releases nothing and changes
    nothing.  On the [NULL] session it does nothing at all. *)
Theorem cleanup_mpp_idempotent :
  (forall (e : Encoder.RkmppEncoder) (h : Heap),
     exists e1 h1,
       Encoder.encoder_cleanup_mpp (Some e) h = (Some e1, h1) /\
       e1 = Encoder.mkEncoder NULL NULL NULL NULL
              (Encoder.width e) (Encoder.height e) (Encoder.fps e)
              (Encoder.bitrate e) (Encoder.quality e)
              (Encoder.frames_encoded e) (Encoder.bytes_encoded e)
              (Encoder.lock e) (Encoder.initialized e) (Encoder.eos_sent e) /\
       Encoder.encoder_cleanup_mpp (Some e1) h1 = (Some e1, h1)) /\
  (forall (d : Decoder.RkmppDecoder) (h : Heap),
     exists d1 h1,
       Decoder.decoder_cleanup_mpp (Some d) h = (Some d1, h1) /\
       d1 = Decoder.mkDecoder NULL NULL NULL NULL
              (Decoder.max_width d) (Decoder.max_height d)
              (Decoder.output_format d)
              (Decoder.frames_decoded d) (Decoder.bytes_decoded d)
              (Decoder.lock d) (Decoder.initialized d) (Decoder.eos_received d) /\
       Decoder.decoder_cleanup_mpp (Some d1) h1 = (Some d1, h1)) /\
  (forall h : Heap,
     Encoder.encoder_cleanup_mpp None h = (None, h) /\
     Decoder.decoder_cleanup_mpp None h = (None, h)).
Proof.
  split; [|split].
  - intros e h.
    destruct (encoder_cleanup_mpp_any e h) as (Hfst & _).
    destruct (Encoder.encoder_cleanup_mpp (Some e) h) as [oe h1].
    cbn [fst] in Hfst. subst oe.
    eexists. exists h1. split; [reflexivity|].
    split; [reflexivity|]. reflexivity.
  - intros d h.
    destruct (decoder_cleanup_mpp_any d h) as (Hfst & _).
    destruct (Decoder.decoder_cleanup_mpp (Some d) h) as [od h1].
    cbn [fst] in Hfst. subst od.
    eexists. exists h1. split; [reflexivity|].
    split; [reflexivity|]. reflexivity.
  - intros h. split; reflexivity.
Qed.

(** ** The outcome of an encode call, exactly *)

(** X12.  [rkmpp_encoder_encode] returns [RKMPP_OK] exactly when the four
    pointers are present, the session is Ready and both sizes reach the
    raw-frame size of the session; it returns [RKMPP_ERR_INIT] exactly when
    the four pointers are present and the [initialized] flag is clear; in
    every other case it returns [RKMPP_ERR_INVALID_PARAM].  No other status,
    [RKMPP_ERR_ENCODE] included, is ever returned. *)
Theorem encode_status_exact
    (encoder : option Encoder.RkmppEncoder)
    (nv12_data : option (list byte)) (nv12_size : Z)
    (jpeg_data : option (list byte)) (jpeg_size : Z) (jpeg_len : option Z) :
  let r := Encoder.rkmpp_encoder_encode encoder nv12_data nv12_size
                                        jpeg_data jpeg_size jpeg_len in
  (Encoder.status r = RKMPP_OK <->
   exists e src dst len,
     encoder = Some e /\ nv12_data = Some src /\ jpeg_data = Some dst /\
     jpeg_len = Some len /\ encoder_ready e /\
     rkmpp_get_nv12_size (Encoder.width e) (Encoder.height e) <= nv12_size /\
     rkmpp_get_nv12_size (Encoder.width e) (Encoder.height e) <= jpeg_size) /\
  (Encoder.status r = RKMPP_ERR_INIT <->
   exists e src dst len,
     encoder = Some e /\ nv12_data = Some src /\ jpeg_data = Some dst /\
     jpeg_len = Some len /\ Encoder.initialized e = 0) /\
  (Encoder.status r = RKMPP_OK \/ Encoder.status r = RKMPP_ERR_INIT \/
   Encoder.status r = RKMPP_ERR_INVALID_PARAM).
Proof.
  cbv zeta. split; [|split].
  - split.
    + apply encode_ok_inversion.
    + intros (e & src & dst & len & -> & -> & -> & -> & Hr & Hn & Hj).
      rewrite encode_accepted by assumption. reflexivity.
  - unfold Encoder.rkmpp_encoder_encode. split.
    + destruct encoder as [e|], nv12_data as [src|], jpeg_data as [dst|],
               jpeg_len as [len|]; cbn; try discriminate.
      destruct (Encoder.initialized e =? 0) eqn:Ei; cbn.
      * intros _. apply Z.eqb_eq in Ei. exists e, src, dst, len.
        repeat split; assumption.
      * destruct (nv12_size <? _); cbn; [discriminate|].
        destruct (jpeg_size <? _); cbn; discriminate.
    + intros (e & src & dst & len & -> & -> & -> & -> & Hi).
      rewrite Hi. reflexivity.
  - unfold Encoder.rkmpp_encoder_encode.
    destruct encoder as [e|], nv12_data as [src|], jpeg_data as [dst|],
             jpeg_len as [len|]; cbn; auto.
    destruct (Encoder.initialized e =? 0); cbn; auto.
    destruct (nv12_size <? _); cbn; auto.
    destruct (jpeg_size <? _); cbn; auto.
Qed.

(** ** The bytes an accepted call writes *)

Lemma memcpy_prefix (dst src : list byte) (n : Z) :
  (Z.to_nat n <= length src)%nat ->
  firstn (Z.to_nat n) (memcpy dst src n) = firstn (Z.to_nat n) src.
Proof.
  intros Hs. unfold memcpy.
  rewrite firstn_app, firstn_firstn, firstn_length_le by exact Hs.
  rewrite Nat.min_id, Nat.sub_diag. cbn [firstn]. apply app_nil_r.
Qed.

Lemma memcpy_suffix (dst src : list byte) (n : Z) :
  (Z.to_nat n <= length src)%nat ->
  skipn (Z.to_nat n) (memcpy dst src n) = skipn (Z.to_nat n) dst.
Proof.
  intros Hs. unfold memcpy.
  rewrite skipn_app, firstn_length_le by exact Hs.
  rewrite Nat.sub_diag. cbn [skipn].
  rewrite skipn_all2 by (rewrite firstn_length_le by exact Hs; apply Nat.le_refl).
  reflexivity.
Qed.

(** X13.  An accepted encode call whose buffers hold as many bytes as the
    sizes passed with them reports [min(jpeg_size, nv12_size)] bytes, a
    number between the raw-frame size and the output capacity.  The output
    buffer keeps its length; its first reported bytes are the first bytes
    of the input and the bytes behind them are untouched. *)
Theorem encode_copies_frame
    (e : Encoder.RkmppEncoder) (src dst : list byte)
    (nv12_size jpeg_size len : Z) :
  encoder_ready e ->
  rkmpp_get_nv12_size (Encoder.width e) (Encoder.height e) <= nv12_size ->
  rkmpp_get_nv12_size (Encoder.width e) (Encoder.height e) <= jpeg_size ->
  nv12_size <= Z.of_nat (length src) ->
  jpeg_size <= Z.of_nat (length dst) ->
  let r := Encoder.rkmpp_encoder_encode (Some e) (Some src) nv12_size
                                        (Some dst) jpeg_size (Some len) in
  let n := Z.min jpeg_size nv12_size in
  Encoder.jpeg_len_out r = Some n /\
  rkmpp_get_nv12_size (Encoder.width e) (Encoder.height e) <= n <= jpeg_size /\
  exists out,
    Encoder.jpeg_out r = Some out /\
    length out = length dst /\
    firstn (Z.to_nat n) out = firstn (Z.to_nat n) src /\
    skipn (Z.to_nat n) out = skipn (Z.to_nat n) dst.
Proof.
  intros Hr Hn Hj Hs Hd. cbv zeta.
  rewrite encode_accepted by assumption.
  cbn [Encoder.jpeg_len_out Encoder.jpeg_out].
  split; [reflexivity|]. split; [lia|].
  eexists. split; [reflexivity|].
  assert (Hks : (Z.to_nat (Z.min jpeg_size nv12_size) <= length src)%nat) by lia.
  assert (Hkd : (Z.to_nat (Z.min jpeg_size nv12_size) <= length dst)%nat) by lia.
  split; [apply memcpy_length; assumption|].
  split; [apply memcpy_prefix; assumption | apply memcpy_suffix; assumption].
Qed.

Lemma encode_copies_frame_witness :
  let e := Encoder.mkEncoder 2 3 4 5 16 16 30 0 80 0 0 MutexUnlocked 1 0 in
  let src := repeat x80 400 in
  let dst := repeat x00 390 in
  let r := Encoder.rkmpp_encoder_encode (Some e) (Some src) 400
                                        (Some dst) 390 (Some 0) in
  Encoder.jpeg_len_out r = Some (Z.min 390 400) /\
  rkmpp_get_nv12_size 16 16 <= Z.min 390 400 <= 390 /\
  exists out,
    Encoder.jpeg_out r = Some out /\
    length out = length dst /\
    firstn (Z.to_nat (Z.min 390 400)) out = firstn (Z.to_nat (Z.min 390 400)) src /\
    skipn (Z.to_nat (Z.min 390 400)) out = skipn (Z.to_nat (Z.min 390 400)) dst.
Proof.
  cbv zeta.
  apply (encode_copies_frame
           (Encoder.mkEncoder 2 3 4 5 16 16 30 0 80 0 0 MutexUnlocked 1 0)
           (repeat x80 400) (repeat x00 390) 400 390 0).
  - unfold encoder_ready. cbn. discriminate.
  - vm_compute. discriminate.
  - vm_compute. discriminate.
  - vm_compute. discriminate.
  - vm_compute. discriminate.
Defined.

(** X14.  A decode call on a Ready session with a non-zero input size is
    accepted whatever the output capacity.  With buffers that hold as many
    bytes as the sizes passed with them, it reports
    [min(nv12_size, jpeg_size)] bytes; the output keeps its length, starts
    with that many bytes of the input and is untouched behind them; with a
    capacity of 0 the output is unchanged.  One frame is counted in each
    case. *)
Theorem decode_copies_and_truncates
    (d : Decoder.RkmppDecoder) (src dst : list byte)
    (jpeg_size nv12_size len : Z) (fi : RkmppFrameInfo) :
  decoder_ready d ->
  0 < jpeg_size <= Z.of_nat (length src) ->
  0 <= nv12_size <= Z.of_nat (length dst) ->
  let r := Decoder.rkmpp_decoder_decode (Some d) (Some src) jpeg_size
                                        (Some dst) nv12_size (Some len) (Some fi) in
  let n := Z.min nv12_size jpeg_size in
  Decoder.status r = RKMPP_OK /\
  Decoder.nv12_len_out r = Some n /\
  Decoder.session r = Some (decoder_after d n) /\
  Decoder.frames_decoded (decoder_after d n) = add64 (Decoder.frames_decoded d) 1 /\
  exists out,
    Decoder.nv12_out r = Some out /\
    length out = length dst /\
    firstn (Z.to_nat n) out = firstn (Z.to_nat n) src /\
    skipn (Z.to_nat n) out = skipn (Z.to_nat n) dst /\
    (nv12_size = 0 -> out = dst).
Proof.
  intros Hr Hj Hn. cbv zeta.
  rewrite decode_accepted by (assumption || lia).
  cbn [Decoder.status Decoder.nv12_len_out Decoder.session Decoder.nv12_out].
  repeat (split; [reflexivity|]).
  eexists. split; [reflexivity|].
  assert (Hks : (Z.to_nat (Z.min nv12_size jpeg_size) <= length src)%nat) by lia.
  assert (Hkd : (Z.to_nat (Z.min nv12_size jpeg_size) <= length dst)%nat) by lia.
  split; [apply memcpy_length; assumption|].
  split; [apply memcpy_prefix; assumption|].
  split; [apply memcpy_suffix; assumption|].
  intros H0. subst nv12_size.
  replace (Z.min 0 jpeg_size) with 0 by lia. reflexivity.
Qed.

Lemma decode_copies_and_truncates_witness :
  let d := Decoder.mkDecoder 2 3 4 5 16 16 0 6 600 MutexUnlocked 1 0 in
  let r := Decoder.rkmpp_decoder_decode
             (Some d) (Some [x01; x02; x03; x04; x05]) 5
             (Some [x00; x00; x00]) 0 (Some 9) (Some (mkFrameInfo 0 0 0 0)) in
  Decoder.status r = RKMPP_OK /\
  Decoder.nv12_len_out r = Some (Z.min 0 5) /\
  Decoder.session r = Some (decoder_after d (Z.min 0 5)) /\
  Decoder.frames_decoded (decoder_after d (Z.min 0 5))
    = add64 (Decoder.frames_decoded d) 1 /\
  exists out,
    Decoder.nv12_out r = Some out /\
    length out = length [x00; x00; x00] /\
    firstn (Z.to_nat (Z.min 0 5)) out
      = firstn (Z.to_nat (Z.min 0 5)) [x01; x02; x03; x04; x05] /\
    skipn (Z.to_nat (Z.min 0 5)) out = skipn (Z.to_nat (Z.min 0 5)) [x00; x00; x00] /\
    (0 = 0 -> out = [x00; x00; x00]).
Proof.
  cbv zeta.
  apply (decode_copies_and_truncates
           (Decoder.mkDecoder 2 3 4 5 16 16 0 6 600 MutexUnlocked 1 0)
           [x01; x02; x03; x04; x05] [x00; x00; x00] 5 0 9 (mkFrameInfo 0 0 0 0)).
  - unfold decoder_ready. cbn. discriminate.
  - cbn. lia.
  - cbn. lia.
Defined.

(** ** Any sequence of calls *)

Lemma is_ok_iff (s : RkmppStatus) : is_ok s = true <-> s = RKMPP_OK.
Proof.
  unfold is_ok. split.
  - destruct s; cbn; intros H; try reflexivity; discriminate H.
  - intros ->. reflexivity.
Qed.

Lemma encoder_same_setup_refl (e : Encoder.RkmppEncoder) : encoder_same_setup e e.
Proof. unfold encoder_same_setup. repeat split. Qed.

Lemma encoder_same_setup_after (e e' : Encoder.RkmppEncoder) (n : Z) :
  encoder_same_setup (encoder_after e n) e' -> encoder_same_setup e e'.
Proof. unfold encoder_same_setup. cbn. tauto. Qed.

Lemma decoder_same_setup_refl (d : Decoder.RkmppDecoder) : decoder_same_setup d d.
Proof. unfold decoder_same_setup. repeat split. Qed.

Lemma decoder_same_setup_after (d d' : Decoder.RkmppDecoder) (n : Z) :
  decoder_same_setup (decoder_after d n) d' -> decoder_same_setup d d'.
Proof. unfold decoder_same_setup. cbn. tauto. Qed.

(** Calls of any kind, accepted or not, one after the other. *)
Lemma encode_calls_any (calls : list encode_args) :
  forall e : Encoder.RkmppEncoder,
    is_uint64 (Encoder.frames_encoded e) ->
    is_uint64 (Encoder.bytes_encoded e) ->
    exists e',
      fst (encode_calls (Some e) calls) = Some e' /\
      length (snd (encode_calls (Some e) calls)) = length calls /\
      encoder_same_setup e e' /\
      Encoder.frames_encoded e'
        = wrap64 (Encoder.frames_encoded e
                  + Z.of_nat (length (encode_successes
                                        (snd (encode_calls (Some e) calls))))) /\
      Encoder.bytes_encoded e'
        = wrap64 (Encoder.bytes_encoded e
                  + sum_sizes (map encode_produced
                                   (encode_successes
                                      (snd (encode_calls (Some e) calls))))).
Proof.
  induction calls as [|a rest IH]; intros e Hf Hb.
  - exists e. cbn. rewrite !Z.add_0_r, !wrap64_small by assumption.
    repeat split; try reflexivity.
  - destruct (encode_calls_cons (Some e) a rest) as [Ef Es].
    rewrite Ef, Es. cbn [length]. unfold encode_successes at 1 2.
    cbn [filter]. fold (encode_successes
                          (snd (encode_calls
                                  (Encoder.session (encode_call (Some e) a)) rest))).
    destruct (is_ok (Encoder.status (encode_call (Some e) a))) eqn:Eok.
    + apply is_ok_iff in Eok.
      destruct (encode_call_ok e a Eok) as [Hsess _].
      set (n := encode_produced (encode_call (Some e) a)) in *.
      rewrite Hsess.
      destruct (encoder_after_counters e n) as [Hf' Hb'].
      destruct (IH _ Hf' Hb') as (e' & Hfst & Hlen & Hsame & Hfr & Hby).
      exists e'. split; [exact Hfst|]. split; [rewrite Hlen; reflexivity|].
      split; [exact (encoder_same_setup_after e e' n Hsame)|].
      cbn [map length]. unfold sum_sizes at 1. cbn [fold_right].
      fold (sum_sizes (map encode_produced
                           (encode_successes
                              (snd (encode_calls (Some (encoder_after e n)) rest))))).
      fold n.
      cbn [encoder_after Encoder.frames_encoded Encoder.bytes_encoded] in Hfr, Hby.
      unfold add64 in Hfr, Hby. rewrite wrap64_add_l in Hfr, Hby.
      split; [rewrite Hfr; f_equal; lia | rewrite Hby; f_equal; lia].
    + assert (Hsess : Encoder.session (encode_call (Some e) a) = Some e).
      { unfold encode_call in *.
        destruct (encode_failure_leaves (Some e) (ea_nv12_data a) (ea_nv12_size a)
                    (ea_jpeg_data a) (ea_jpeg_size a) (ea_jpeg_len a))
          as [Hok | (Hs & _)]; [|exact Hs].
        apply is_ok_iff in Hok. rewrite Hok in Eok. discriminate Eok. }
      rewrite Hsess.
      destruct (IH _ Hf Hb) as (e' & Hfst & Hlen & Hsame & Hfr & Hby).
      exists e'. split; [exact Hfst|]. split; [rewrite Hlen; reflexivity|].
      split; [exact Hsame|]. split; assumption.
Qed.

Lemma decode_calls_any (calls : list decode_args) :
  forall d : Decoder.RkmppDecoder,
    is_uint64 (Decoder.frames_decoded d) ->
    is_uint64 (Decoder.bytes_decoded d) ->
    exists d',
      fst (decode_calls (Some d) calls) = Some d' /\
      length (snd (decode_calls (Some d) calls)) = length calls /\
      decoder_same_setup d d' /\
      Decoder.frames_decoded d'
        = wrap64 (Decoder.frames_decoded d
                  + Z.of_nat (length (decode_successes
                                        (snd (decode_calls (Some d) calls))))) /\
      Decoder.bytes_decoded d'
        = wrap64 (Decoder.bytes_decoded d
                  + sum_sizes (map decode_produced
                                   (decode_successes
                                      (snd (decode_calls (Some d) calls))))).
Proof.
  induction calls as [|a rest IH]; intros d Hf Hb.
  - exists d. cbn. rewrite !Z.add_0_r, !wrap64_small by assumption.
    repeat split; try reflexivity.
  - destruct (decode_calls_cons (Some d) a rest) as [Ef Es].
    rewrite Ef, Es. cbn [length]. unfold decode_successes at 1 2.
    cbn [filter]. fold (decode_successes
                          (snd (decode_calls
                                  (Decoder.session (decode_call (Some d) a)) rest))).
    destruct (is_ok (Decoder.status (decode_call (Some d) a))) eqn:Eok.
    + apply is_ok_iff in Eok.
      pose proof (decode_call_ok d a Eok) as Hsess.
      set (n := decode_produced (decode_call (Some d) a)) in *.
      rewrite Hsess.
      destruct (decoder_after_counters d n) as [Hf' Hb'].
      destruct (IH _ Hf' Hb') as (d' & Hfst & Hlen & Hsame & Hfr & Hby).
      exists d'. split; [exact Hfst|]. split; [rewrite Hlen; reflexivity|].
      split; [exact (decoder_same_setup_after d d' n Hsame)|].
      cbn [map length]. unfold sum_sizes at 1. cbn [fold_right].
      fold (sum_sizes (map decode_produced
                           (decode_successes
                              (snd (decode_calls (Some (decoder_after d n)) rest))))).
      fold n.
      cbn [decoder_after Decoder.frames_decoded Decoder.bytes_decoded] in Hfr, Hby.
      unfold add64 in Hfr, Hby. rewrite wrap64_add_l in Hfr, Hby.
      split; [rewrite Hfr; f_equal; lia | rewrite Hby; f_equal; lia].
    + assert (Hsess : Decoder.session (decode_call (Some d) a) = Some d).
      { unfold decode_call in *.
        destruct (decode_failure_leaves (Some d) (da_jpeg_data a) (da_jpeg_size a)
                    (da_nv12_data a) (da_nv12_size a) (da_nv12_len a)
                    (da_frame_info a))
          as [Hok | (Hs & _)]; [|exact Hs].
        apply is_ok_iff in Hok. rewrite Hok in Eok. discriminate Eok. }
      rewrite Hsess.
      destruct (IH _ Hf Hb) as (d' & Hfst & Hlen & Hsame & Hfr & Hby).
      exists d'. split; [exact Hfst|]. split; [rewrite Hlen; reflexivity|].
      split; [exact Hsame|]. split; assumption.
Qed.

(** X15.  Whatever calls of [rkmpp_encoder_encode] are made on a session,
    accepted or refused in any order, the session stays present with the
    same backend pointers, configuration and [initialized] flag, so a Ready
    session stays Ready; the frame counter has advanced by the number of
    calls that returned [RKMPP_OK] and the byte counter by the sizes those
    calls reported, modulo [2^64].  Refused calls count for nothing. *)
Theorem encode_calls_count_successes
    (e : Encoder.RkmppEncoder) (calls : list encode_args) :
  is_uint64 (Encoder.frames_encoded e) ->
  is_uint64 (Encoder.bytes_encoded e) ->
  let results := snd (encode_calls (Some e) calls) in
  exists e',
    fst (encode_calls (Some e) calls) = Some e' /\
    length results = length calls /\
    encoder_same_setup e e' /\
    (encoder_ready e <-> encoder_ready e') /\
    Encoder.frames_encoded e'
      = wrap64 (Encoder.frames_encoded e
                + Z.of_nat (length (encode_successes results))) /\
    Encoder.bytes_encoded e'
      = wrap64 (Encoder.bytes_encoded e
                + sum_sizes (map encode_produced (encode_successes results))).
Proof.
  intros Hf Hb. cbv zeta.
  destruct (encode_calls_any calls e Hf Hb) as (e' & Hfst & Hlen & Hsame & Hfr & Hby).
  exists e'. repeat (split; [assumption|]).
  split; [|split; assumption].
  unfold encoder_ready.
  destruct Hsame as (_ & _ & _ & _ & _ & _ & _ & _ & _ & Hi & _).
  rewrite Hi. tauto.
Qed.

Lemma encode_calls_count_successes_witness :
  let e := Encoder.mkEncoder 2 3 4 5 16 16 30 0 80 0 0 MutexUnlocked 1 0 in
  let short := mkEncodeArgs (Some (repeat x80 100)) 100
                            (Some (repeat x00 384)) 384 (Some 0) in
  let absent := mkEncodeArgs None 384 (Some (repeat x00 384)) 384 (Some 0) in
  let calls := [small_frame_call; short; small_frame_call; absent] in
  let results := snd (encode_calls (Some e) calls) in
  (length (encode_successes results) = 2%nat /\
   sum_sizes (map encode_produced (encode_successes results)) = 768) /\
  exists e',
    fst (encode_calls (Some e) calls) = Some e' /\
    length results = length calls /\
    encoder_same_setup e e' /\
    (encoder_ready e <-> encoder_ready e') /\
    Encoder.frames_encoded e'
      = wrap64 (Encoder.frames_encoded e
                + Z.of_nat (length (encode_successes results))) /\
    Encoder.bytes_encoded e'
      = wrap64 (Encoder.bytes_encoded e
                + sum_sizes (map encode_produced (encode_successes results))).
Proof.
  cbv zeta. split; [split; reflexivity|].
  apply (encode_calls_count_successes
           (Encoder.mkEncoder 2 3 4 5 16 16 30 0 80 0 0 MutexUnlocked 1 0)).
  - unfold is_uint64, UINT64_MOD. cbn. lia.
  - unfold is_uint64, UINT64_MOD. cbn. lia.
Defined.

(** X16.  Whatever calls of [rkmpp_decoder_decode] are made on a session,
    accepted or refused in any order, the session stays present with the
    same backend pointers, configuration and [initialized] flag, so a Ready
    session stays Ready; the frame counter has advanced by the number of
    calls that returned [RKMPP_OK] and the byte counter by the sizes those
    calls reported, modulo [2^64].  Refused calls count for nothing. *)
Theorem decode_calls_count_successes
    (d : Decoder.RkmppDecoder) (calls : list decode_args) :
  is_uint64 (Decoder.frames_decoded d) ->
  is_uint64 (Decoder.bytes_decoded d) ->
  let results := snd (decode_calls (Some d) calls) in
  exists d',
    fst (decode_calls (Some d) calls) = Some d' /\
    length results = length calls /\
    decoder_same_setup d d' /\
    (decoder_ready d <-> decoder_ready d') /\
    Decoder.frames_decoded d'
      = wrap64 (Decoder.frames_decoded d
                + Z.of_nat (length (decode_successes results))) /\
    Decoder.bytes_decoded d'
      = wrap64 (Decoder.bytes_decoded d
                + sum_sizes (map decode_produced (decode_successes results))).
Proof.
  intros Hf Hb. cbv zeta.
  destruct (decode_calls_any calls d Hf Hb) as (d' & Hfst & Hlen & Hsame & Hfr & Hby).
  exists d'. repeat (split; [assumption|]).
  split; [|split; assumption].
  unfold decoder_ready.
  destruct Hsame as (_ & _ & _ & _ & _ & _ & _ & Hi & _).
  rewrite Hi. tauto.
Qed.

Lemma decode_calls_count_successes_witness :
  let d := Decoder.mkDecoder 2 3 4 5 16 16 0 0 0 MutexUnlocked 1 0 in
  let good := mkDecodeArgs (Some (repeat xff 100)) 100 (Some (repeat x00 384)) 384
                           (Some 0) (Some (mkFrameInfo 0 0 0 0)) in
  let empty := mkDecodeArgs (Some (repeat xff 100)) 0 (Some (repeat x00 384)) 384
                            (Some 0) (Some (mkFrameInfo 0 0 0 0)) in
  let calls := [good; empty; good; good] in
  let results := snd (decode_calls (Some d) calls) in
  (length (decode_successes results) = 3%nat /\
   sum_sizes (map decode_produced (decode_successes results)) = 300) /\
  exists d',
    fst (decode_calls (Some d) calls) = Some d' /\
    length results = length calls /\
    decoder_same_setup d d' /\
    (decoder_ready d <-> decoder_ready d') /\
    Decoder.frames_decoded d'
      = wrap64 (Decoder.frames_decoded d
                + Z.of_nat (length (decode_successes results))) /\
    Decoder.bytes_decoded d'
      = wrap64 (Decoder.bytes_decoded d
                + sum_sizes (map decode_produced (decode_successes results))).
Proof.
  cbv zeta. split; [split; reflexivity|].
  apply (decode_calls_count_successes
           (Decoder.mkDecoder 2 3 4 5 16 16 0 0 0 MutexUnlocked 1 0)).
  - unfold is_uint64, UINT64_MOD. cbn. lia.
  - unfold is_uint64, UINT64_MOD. cbn. lia.
Defined.

(** ** Reading the counters *)

(** X17.  [get_stats] refuses the [NULL] session with InvalidParam and
    leaves both output cells alone.  On a present session, Ready or not, it
    returns [RKMPP_OK], writes each counter through the pointer that is
    given and skips the pointer that is omitted.  It is a pure read: an
    encode (decode) call made after it returns the same status, output and
    size as the same call made without it, and leaves the same counters. *)
Theorem get_stats_reads_only :
  (forall f b : option Z,
     Encoder.stats_status (Encoder.rkmpp_encoder_get_stats None f b)
       = RKMPP_ERR_INVALID_PARAM /\
     Encoder.frames_out (Encoder.rkmpp_encoder_get_stats None f b) = f /\
     Encoder.bytes_out (Encoder.rkmpp_encoder_get_stats None f b) = b /\
     Decoder.stats_status (Decoder.rkmpp_decoder_get_stats None f b)
       = RKMPP_ERR_INVALID_PARAM /\
     Decoder.frames_out (Decoder.rkmpp_decoder_get_stats None f b) = f /\
     Decoder.bytes_out (Decoder.rkmpp_decoder_get_stats None f b) = b) /\
  (forall (e : Encoder.RkmppEncoder) (f b : option Z) (a : encode_args),
     let s := Encoder.rkmpp_encoder_get_stats (Some e) f b in
     let r1 := encode_call (Some e) a in
     let r2 := encode_call (Encoder.stats_session s) a in
     Encoder.stats_status s = RKMPP_OK /\
     Encoder.frames_out s = option_map (fun _ => Encoder.frames_encoded e) f /\
     Encoder.bytes_out s = option_map (fun _ => Encoder.bytes_encoded e) b /\
     Encoder.status r2 = Encoder.status r1 /\
     Encoder.jpeg_out r2 = Encoder.jpeg_out r1 /\
     Encoder.jpeg_len_out r2 = Encoder.jpeg_len_out r1 /\
     encoder_stats (Encoder.session r2) = encoder_stats (Encoder.session r1)) /\
  (forall (d : Decoder.RkmppDecoder) (f b : option Z) (a : decode_args),
     let s := Decoder.rkmpp_decoder_get_stats (Some d) f b in
     let r1 := decode_call (Some d) a in
     let r2 := decode_call (Decoder.stats_session s) a in
     Decoder.stats_status s = RKMPP_OK /\
     Decoder.frames_out s = option_map (fun _ => Decoder.frames_decoded d) f /\
     Decoder.bytes_out s = option_map (fun _ => Decoder.bytes_decoded d) b /\
     Decoder.status r2 = Decoder.status r1 /\
     Decoder.nv12_out r2 = Decoder.nv12_out r1 /\
     Decoder.nv12_len_out r2 = Decoder.nv12_len_out r1 /\
     Decoder.frame_info_out r2 = Decoder.frame_info_out r1 /\
     decoder_stats (Decoder.session r2) = decoder_stats (Decoder.session r1)).
Proof.
  split; [intros f b; repeat split|].
  split.
  - intros e f b [src n dst m len]. cbv zeta.
    split; [reflexivity|].
    split; [destruct f; reflexivity|].
    split; [destruct b; reflexivity|].
    unfold encode_call, Encoder.rkmpp_encoder_get_stats,
      Encoder.rkmpp_encoder_encode.
    cbn.
    destruct src as [src|], dst as [dst|], len as [len|]; cbn;
      try (repeat split; reflexivity).
    destruct (Encoder.initialized e =? 0); cbn;
      [repeat split; reflexivity|].
    destruct (n <? _); cbn; [repeat split; reflexivity|].
    destruct (m <? _); cbn; repeat split; reflexivity.
  - intros d f b [src n dst m len fi]. cbv zeta.
    split; [reflexivity|].
    split; [destruct f; reflexivity|].
    split; [destruct b; reflexivity|].
    unfold decode_call, Decoder.rkmpp_decoder_get_stats,
      Decoder.rkmpp_decoder_decode.
    cbn.
    destruct src as [src|], dst as [dst|], len as [len|], fi as [fi|]; cbn;
      try (repeat split; reflexivity).
    destruct (Decoder.initialized d =? 0); cbn;
      [repeat split; reflexivity|].
    destruct (n =? 0); cbn; repeat split; reflexivity.
Qed.

Lemma round_trip_bytes_witness :
  let e := Encoder.mkEncoder 2 3 4 5 16 16 30 0 80 0 0 MutexUnlocked 1 0 in
  let d := Decoder.mkDecoder 2 3 4 5 16 16 0 0 0 MutexUnlocked 1 0 in
  let size := rkmpp_get_nv12_size (Encoder.width e) (Encoder.height e) in
  let frame := repeat x40 384 in
  let r1 := Encoder.rkmpp_encoder_encode (Some e) (Some frame) size
                                         (Some (repeat x00 384)) size (Some 0) in
  Encoder.jpeg_out r1 = Some frame /\
  Encoder.jpeg_len_out r1 = Some size /\
  Decoder.nv12_out
    (Decoder.rkmpp_decoder_decode (Some d) (Encoder.jpeg_out r1) size
                                  (Some (repeat xff 384)) size (Some 0)
                                  (Some (mkFrameInfo 0 0 0 0)))
  = Some frame.
Proof.
  cbv zeta.
  apply (round_trip_bytes
           (Encoder.mkEncoder 2 3 4 5 16 16 30 0 80 0 0 MutexUnlocked 1 0)
           (Decoder.mkDecoder 2 3 4 5 16 16 0 0 0 MutexUnlocked 1 0)
           (repeat x40 384) (repeat x00 384) (repeat xff 384) 0 0
           (mkFrameInfo 0 0 0 0)).
  - unfold encoder_ready. cbn. discriminate.
  - unfold decoder_ready. cbn. discriminate.
  - reflexivity.
  - reflexivity.
  - reflexivity.
  - reflexivity.
Defined.

(** ** The outcome of a decode call, exactly *)

(** X19.  [rkmpp_decoder_decode] returns [RKMPP_OK] exactly when the five
    pointers are present, the session is Ready and the input size is not 0;
    it returns [RKMPP_ERR_INIT] exactly when the five pointers are present
    and the [initialized] flag is clear, whatever the input size; in every
    other case it returns [RKMPP_ERR_INVALID_PARAM].  The output capacity
    plays no part in the status. *)
Theorem decode_status_exact
    (decoder : option Decoder.RkmppDecoder)
    (jpeg_data : option (list byte)) (jpeg_size : Z)
    (nv12_data : option (list byte)) (nv12_size : Z)
    (nv12_len : option Z) (frame_info : option RkmppFrameInfo) :
  let r := Decoder.rkmpp_decoder_decode decoder jpeg_data jpeg_size
                                        nv12_data nv12_size nv12_len frame_info in
  (Decoder.status r = RKMPP_OK <->
   exists d src dst len fi,
     decoder = Some d /\ jpeg_data = Some src /\ nv12_data = Some dst /\
     nv12_len = Some len /\ frame_info = Some fi /\
     decoder_ready d /\ jpeg_size <> 0) /\
  (Decoder.status r = RKMPP_ERR_INIT <->
   exists d src dst len fi,
     decoder = Some d /\ jpeg_data = Some src /\ nv12_data = Some dst /\
     nv12_len = Some len /\ frame_info = Some fi /\
     Decoder.initialized d = 0) /\
  (Decoder.status r = RKMPP_OK \/ Decoder.status r = RKMPP_ERR_INIT \/
   Decoder.status r = RKMPP_ERR_INVALID_PARAM) /\
  (forall other_capacity : Z,
     Decoder.status
       (Decoder.rkmpp_decoder_decode decoder jpeg_data jpeg_size
                                     nv12_data other_capacity nv12_len frame_info)
     = Decoder.status r).
Proof.
  cbv zeta. split; [|split; [|split]].
  - split.
    + apply decode_ok_inversion.
    + intros (d & src & dst & len & fi & -> & -> & -> & -> & -> & Hr & Hj).
      rewrite decode_accepted by assumption. reflexivity.
  - unfold Decoder.rkmpp_decoder_decode. split.
    + destruct decoder as [d|], jpeg_data as [src|], nv12_data as [dst|],
               nv12_len as [len|], frame_info as [fi|]; cbn; try discriminate.
      destruct (Decoder.initialized d =? 0) eqn:Ei; cbn.
      * intros _. apply Z.eqb_eq in Ei. exists d, src, dst, len, fi.
        repeat split; assumption.
      * destruct (jpeg_size =? 0); cbn; discriminate.
    + intros (d & src & dst & len & fi & -> & -> & -> & -> & -> & Hi).
      rewrite Hi. reflexivity.
  - unfold Decoder.rkmpp_decoder_decode.
    destruct decoder as [d|], jpeg_data as [src|], nv12_data as [dst|],
             nv12_len as [len|], frame_info as [fi|]; cbn; auto.
    destruct (Decoder.initialized d =? 0); cbn; auto.
    destruct (jpeg_size =? 0); cbn; auto.
  - intros other_capacity. unfold Decoder.rkmpp_decoder_decode.
    destruct decoder as [d|], jpeg_data as [src|], nv12_data as [dst|],
             nv12_len as [len|], frame_info as [fi|]; cbn; try reflexivity.
    destruct (Decoder.initialized d =? 0); cbn; [reflexivity|].
    destruct (jpeg_size =? 0); cbn; reflexivity.
Qed.

Lemma decode_status_exact_witness :
  Decoder.status
    (Decoder.rkmpp_decoder_decode
       (Some (Decoder.mkDecoder 2 3 4 5 16 16 0 0 0 MutexUnlocked 1 0))
       (Some [xff; xd8; xff; xd9]) 4 (Some []) 0 (Some 0)
       (Some (mkFrameInfo 0 0 0 0)))
  = RKMPP_OK /\
  Decoder.status
    (Decoder.rkmpp_decoder_decode
       (Some (Decoder.mkDecoder 0 0 0 0 16 16 0 0 0 MutexUnlocked 0 0))
       (Some [xff; xd8; xff; xd9]) 0 (Some []) 0 (Some 0)
       (Some (mkFrameInfo 0 0 0 0)))
  = RKMPP_ERR_INIT.
Proof.
  split.
  - destruct (decode_status_exact
                (Some (Decoder.mkDecoder 2 3 4 5 16 16 0 0 0 MutexUnlocked 1 0))
                (Some [xff; xd8; xff; xd9]) 4 (Some []) 0 (Some 0)
                (Some (mkFrameInfo 0 0 0 0))) as ([_ Hok] & _).
    apply Hok.
    do 5 eexists. repeat (split; [reflexivity|]).
    split; [unfold decoder_ready; cbn|]; discriminate.
  - destruct (decode_status_exact
                (Some (Decoder.mkDecoder 0 0 0 0 16 16 0 0 0 MutexUnlocked 0 0))
                (Some [xff; xd8; xff; xd9]) 0 (Some []) 0 (Some 0)
                (Some (mkFrameInfo 0 0 0 0))) as (_ & [_ Hinit] & _).
    apply Hinit.
    do 5 eexists. repeat (split; [reflexivity|]). reflexivity.
Defined.

Lemma encode_status_exact_witness :
  Encoder.status
    (Encoder.rkmpp_encoder_encode
       (Some (Encoder.mkEncoder 2 3 4 5 16 16 30 0 80 0 0 MutexUnlocked 1 0))
       (Some (repeat x80 384)) 384 (Some (repeat x00 384)) 384 (Some 0))
  = RKMPP_OK /\
  Encoder.status
    (Encoder.rkmpp_encoder_encode
       (Some (Encoder.mkEncoder 0 0 0 0 16 16 30 0 80 0 0 MutexUnlocked 0 0))
       (Some (repeat x80 10)) 10 (Some (repeat x00 10)) 10 (Some 0))
  = RKMPP_ERR_INIT.
Proof.
  split.
  - destruct (encode_status_exact
                (Some (Encoder.mkEncoder 2 3 4 5 16 16 30 0 80 0 0 MutexUnlocked 1 0))
                (Some (repeat x80 384)) 384 (Some (repeat x00 384)) 384 (Some 0))
      as ([_ Hok] & _).
    apply Hok.
    do 4 eexists. repeat (split; [reflexivity|]).
    split; [unfold encoder_ready; cbn; discriminate|].
    split; vm_compute; discriminate.
  - destruct (encode_status_exact
                (Some (Encoder.mkEncoder 0 0 0 0 16 16 30 0 80 0 0 MutexUnlocked 0 0))
                (Some (repeat x80 10)) 10 (Some (repeat x00 10)) 10 (Some 0))
      as (_ & [_ Hinit] & _).
    apply Hinit.
    do 4 eexists. repeat (split; [reflexivity|]). reflexivity.
Defined.
